(* ===== verification/_CoqProject ===== *)
-Q . S2P
Prelude.v
Scalar.v
Glm.v
GL.v
Mesh.v
VertexArrays.v
Textures.v
Objects.v
Sierpinski.v
Draws.v
RenderLoop.v
Callbacks.v
Lifecycle.v
