(* ===== verification/Prelude.v ===== *)
(** * A verification development for the Sierpinski renderer of
      BartoszJakis/GraphicsProgramming242574 ([src/src/main.cpp])

    ** The program

    [main.cpp] is one OpenGL program of about 300 lines: [main] sets up
    GLFW, GLAD, Dear ImGui, a shader, a 12-vertex mesh and a texture, runs a
    render loop in which ImGui sliders choose two rotation angles, a
    recursion depth and a colour, and every frame calls the recursive
    [generateSierpinskiTriangle], which draws the mesh once per leaf of a
    4-ary tree with a transform halved per level.  The files of this
    development, in dependency order ([_CoqProject]):

    - [Prelude.v] (this file): the notation scope [gfx_scope], 32-bit
      [int] helpers ([wrap32], [int_add], [to_uint32] for the
      [unsigned int] locations), list and power lemmas, the hint databases
      [gfx] and [gfx_rw], the tactics [inv] and [int32_lia], and
      [fold_option], the loop that stops at its first failed iteration,
      with its invariant lemma.
    - [Scalar.v]: numbers.  The type classes [GlmScalar] (ring operations,
      exact binary literals [s_lit] such as [0.5f], decimal literals
      [s_dec] such as [0.1f]), [GlmField] (division, square root),
      [GlmTrig] (cos, sin, tan) and the laws class [GlmRing].  Instances:
      IEEE-754 binary32/binary64 as the Standard Library's executable
      [SpecFloat] (rounding to nearest even, what the program computes) and
      the real numbers (the geometry it approximates).
    - [Glm.v]: the GLM subset as records over any scalar: [vec3], [vec4],
      column-major [mat4], [glm::mat4(s)], the products, [glm::scale],
      [glm::translate], [glm::rotate], [glm::radians] and
      [glm::perspective] written as GLM writes them; in exact arithmetic
      [scale]/[translate] equal the reference matrix products.
    - [GL.v]: the OpenGL context as the record [GLState] with stdpp maps:
      uniform locations of linked programs, the current program and vertex
      array, uniform values per program, the sticky error flag, the log
      of draw calls (each draw records the uniforms it saw), the viewport,
      and the object store [GLObjects] (name counter, vertex arrays,
      buffers, textures, the array-buffer binding, the active texture
      unit, the 2D texture bound to each unit, the depth test);
      [glGetUniformLocation], [glUseProgram], [glBindVertexArray] (which
      refuses a name never generated), [glUniform*], [glEnable],
      [glViewport] and [glDrawArrays] as state-passing functions, with
      OpenGL 3.3 core semantics.
    - [Mesh.v]: the vertex table of lines 121-143 computed in binary32
      through [double] as the C conversions do, the corner offsets
      [translations] (lines 36-41), the attribute layout (lines 160-164)
      and the vertex fetch of a draw against the 240-byte buffer.
    - [VertexArrays.v]: lines 147-164 call by call ([glGenVertexArrays],
      [glGenBuffers], [glBindBuffer], [glBufferData], [glVertexAttribPointer],
      [glEnableVertexAttribArray], each with its error checks) composed as
      [vertex_setup], [glDeleteVertexArrays] and [glDeleteBuffers] of
      lines 282-283, and the vertex fetch of a draw through the bound
      vertex array ([vao_fetch]); the lemma per call states what it changes.
    - [Textures.v]: lines 168-198 call by call ([glGenTextures],
      [glBindTexture], [glTexParameteri], [glTexImage2D],
      [glGenerateMipmap], [glActiveTexture]) composed as [texture_setup]
      over [stbi_load]'s outcome, and texture completeness (OpenGL 3.3
      core 3.8.14), which decides whether a sampler sees the texels or
      black.
    - [Objects.v]: every OpenGL call the program makes as one call type
      [GLCall] dispatched by [run_call], the step relation [gl_step] and
      the contexts [reachable] from the fresh one; the well-typedness of
      the object store [gl_typed] (names below the counter, attribute
      pointers and texture parameters and levels in range, the active
      unit one of the 48, every binding 0 or a live object), one
      preservation lemma per call collected in the hint database
      [gl_typed], and the tactic [typed_chain] that carries it through a
      chain of calls such as [vertex_setup] and [texture_setup].
    - [Sierpinski.v]: [generateSierpinskiTriangle] (lines 43-63) as a
      fuelled function over [GLState]; its specification [sierp_spec], the
      draws indexed by the paths of the recursion tree; the contract
      [emits] between the generator and its caller; refinement,
      termination, and the exact-arithmetic geometry of [child].
    - [Draws.v]: what the generator's draws are: their number, the
      depth-0 case, the buffer ranges they read, the leaf transforms.
    - [RenderLoop.v]: the loop of lines 205-279: the function-local statics
      as the record [UIState], the ImGui sliders as clamping functions of
      the user's input ([FrameInput]), one iteration as [render_frame]
      (colour upload, widgets, matrices, viewport from the framebuffer
      size, texture rebind on unit 0, shader, uniform uploads, vertex
      array, generator) and the loop as
      [render_loop] over the list of frames the user runs; [frame_ready]
      is the invariant on the GL objects under which a frame leaves them
      unchanged.
    - [Callbacks.v]: [framebuffer_size_callback] (a [glViewport] call)
      and [processInput] (lines 293-306), and how a resize meets the
      next frame.
    - [Lifecycle.v]: [main] itself: the GLFW/ImGui state as [Platform]
      (GLFW functions as the GLFW 3 documentation specifies them,
      including the [GLFW_NOT_INITIALIZED] error), what the environment
      decides as [Env] (window and GLAD success, [stbi_load]'s image size,
      the linked program, the user's frames), start-up ([main_startup],
      lines 65-204: depth test, shader, [vertex_setup], [texture_setup],
      the [texture1] upload) with its two fatal exits, tear-down
      ([main_gl_teardown], lines 282-283, and [main_teardown], lines
      285-290), and [main] composing them with the render loop; [main]
      returns the context after the last frame and at exit.

    ** What the theorems show

    The manifest lists the properties in order of importance.  In groups:
    - the generator terminates with the fuel it is given, and refines its
      path specification: under the caller's contract it appends exactly
      the specified draws, in order, each with its transform;
    - the draw count ([4 ^ maxRec] leaves plus the outer triangle exactly
      when [maxRec > 0]), the depth-0 case (one draw, unlike the
      specification's two), the buffer overruns of every draw and of the
      texture attribute, and the transforms (linear part halved per level
      in any arithmetic; the homothety about the corner in exact
      arithmetic; GLM's column routines equal the matrix product);
    - the mesh: which vertices each attribute can fetch, and that the
      float corner offsets are bit for bit the table's corners;
    - the GL objects: lines 147-164 keep every object name below the
      name counter and leave a fresh vertex array through which every
      draw reads exactly what the abstract layout gives; when
      the image fails to load [texture1] is incomplete and samples black,
      and when it loads the mipmaps of line 184 are generated but never
      used (the filter of line 197 makes level 0 enough);
    - typing: every context reachable by the calls from a fresh one is
      well typed (by induction on the reachability relation, one lemma
      per call), the set-up of lines 147-198 is a run of the calls and
      so leaves typed contexts, and so is every context [main] produces, after its last
      frame and at exit (through start-up, each frame's generator
      recursion and the tear-down);
    - the render loop: every frame returns, whatever the user does; the
      statics stay in the sliders' ranges when the sliders are only
      dragged, but a number typed into a slider (ImGui does not clamp
      it) is kept, so the recursion depth can be any [int];
      under [main]'s setup a frame refines the generator's specification
      with the frame's uniforms, uses the previous frame's colour (a colour
      edit shows on the next frame), and issues [4 ^ recursion] leaf
      draws plus the outer one: at most [4 ^ 10 + 1] when the sliders are
      only dragged, [4 ^ r + 1] for a typed [r > 0]; in exact arithmetic its model matrix is a rotation about the
      origin for every slider value; the [int] locations survive their
      trip through [unsigned int]; the fixed 4:3 projection against the
      viewport the frame sets from the framebuffer squeezes the picture
      to [3 w : 4 h], and a resize callback between frames is overridden
      by the next frame;
    - [main]: both fatal exits (the window one whether [glfwInit] or the
      window system failed, with the GLFW errors reported; the GLAD one
      leaving GLFW initialised), a successful run returns [0] with no OpenGL error and
      the per-frame draw counts (bounded when the sliders are only
      dragged), every draw of the run reads past the end
      of the buffer through the vertex array [main] set up, the shader
      samples black exactly when the texture did not load, the vertex
      array and buffer are freed at exit but [texture1] never is, the
      tear-down's [glfwDestroyWindow] after [glfwTerminate] raises
      [GLFW_NOT_INITIALIZED], and [main] always returns.

    ** Fuel and bounds

    The generator's recursion depth is [maxRec - curRec]; the model gives
    [1 + (maxRec - curRec)] fuel ([Z.to_nat], so a negative difference
    gives one step, the base case), proved enough and no different from
    any larger fuel.  The render loop needs no fuel: it runs one frame per
    element of the list of inputs, a run the user ends by closing the
    window.  [int] values are [Z] with the 32-bit range of this file and
    the wrap-around written out where the code adds or converts.

    ** Not modelled

    Shader compilation (the [Shader] class is a library header outside
    [src/]; its linked program is the uniform table [Env] supplies), the
    texture's pixel data (only [stbi_load]'s success and the image size
    matter to the GL state), [glClear], [glClearColor], ImGui's drawing
    (its OpenGL back-end saves and restores the bindings the program
    uses, though it creates GL objects of its own), and buffer swaps: none changes a state the theorems read.  The window
    hints and the framebuffer's size in pixels are not modelled: the
    first viewport is taken to be the window's [SCR_WIDTH x SCR_HEIGHT],
    and each frame's framebuffer size is an input. *)

From Stdlib Require Import ZArith Lia List.
Import ListNotations.

Declare Scope gfx_scope.
Delimit Scope gfx_scope with gfx.

Create HintDb gfx.
Create Rewrite HintDb gfx_rw.

(** ** Machine integers: the C [int] of the code *)

Definition INT_MIN : Z := (- 2 ^ 31)%Z.
Definition INT_MAX : Z := (2 ^ 31 - 1)%Z.

(** The predicate "fits in an [int]". *)
Definition in_int32 (z : Z) : bool := (INT_MIN <=? z)%Z && (z <=? INT_MAX)%Z.

(** Two's-complement wrap-around to 32 bits. *)
Definition wrap32 (z : Z) : Z := ((z + 2 ^ 31) mod 2 ^ 32 - 2 ^ 31)%Z.

(** [a + b] on [int]. *)
Definition int_add (a b : Z) : Z := wrap32 (a + b).

Infix "+i" := int_add (at level 50, left associativity) : gfx_scope.

Lemma in_int32_iff (z : Z) : in_int32 z = true <-> (INT_MIN <= z <= INT_MAX)%Z.
Proof.
  unfold in_int32. rewrite Bool.andb_true_iff, !Z.leb_le. tauto.
Qed.

Lemma wrap32_id (z : Z) : (INT_MIN <= z <= INT_MAX)%Z -> wrap32 z = z.
Proof.
  unfold wrap32, INT_MIN, INT_MAX. intros H.
  rewrite Z.mod_small; lia.
Qed.

Lemma wrap32_range (z : Z) : (INT_MIN <= wrap32 z <= INT_MAX)%Z.
Proof.
  unfold wrap32, INT_MIN, INT_MAX.
  pose proof (Z.mod_pos_bound (z + 2 ^ 31) (2 ^ 32)). lia.
Qed.

Lemma int_add_no_wrap (a b : Z) :
  (INT_MIN <= a + b <= INT_MAX)%Z -> int_add a b = (a + b)%Z.
Proof. intros H. unfold int_add. now apply wrap32_id. Qed.

(** [unsigned int u = i;] for an [int] [i]: reduction modulo [2^32]. *)
Definition to_uint32 (z : Z) : Z := (z mod 2 ^ 32)%Z.

(** Passing an [unsigned int] where a [GLint] is expected converts it back
    modulo [2^32] into the [int] range. *)
Lemma wrap32_to_uint32 (z : Z) : wrap32 (to_uint32 z) = wrap32 z.
Proof.
  unfold wrap32, to_uint32. f_equal. rewrite Zplus_mod_idemp_l. reflexivity.
Qed.

#[export] Hint Resolve wrap32_range : gfx.

(** Round trip of the location conversion of lines 266-270.
    Storing an [int] in an [unsigned int] and passing it back as a
    [GLint] gives the [int] back, and the unsigned value is in
    [0 .. 2^32 - 1], negative values (the [-1] of a missing uniform)
    becoming [z + 2^32]; conversely every [unsigned int] survives the
    trip through [int]. *)
Theorem int_uint_roundtrip (z u : Z) :
  (INT_MIN <= z <= INT_MAX)%Z -> (0 <= u < 2 ^ 32)%Z ->
  wrap32 (to_uint32 z) = z /\ (0 <= to_uint32 z < 2 ^ 32)%Z /\
  to_uint32 z = (if (z <? 0)%Z then z + 2 ^ 32 else z)%Z /\
  to_uint32 (wrap32 u) = u.
Proof.
  intros Hz Hu. rewrite wrap32_to_uint32, wrap32_id by exact Hz.
  unfold to_uint32, wrap32. unfold INT_MIN, INT_MAX in Hz.
  split; [reflexivity|]. split; [apply Z.mod_pos_bound; lia|]. split.
  - destruct (Z.ltb_spec z 0).
    + rewrite <- (Z.mod_small (z + 2 ^ 32) (2 ^ 32)) by lia.
      rewrite <- Zplus_mod_idemp_r, Z_mod_same_full, Z.add_0_r. reflexivity.
    + apply Z.mod_small. lia.
  - rewrite Zminus_mod_idemp_l.
    replace (u + 2 ^ 31 - 2 ^ 31)%Z with u by lia. apply Z.mod_small. lia.
Qed.
#[export] Hint Rewrite int_add_no_wrap using (unfold INT_MIN, INT_MAX in *; lia) : gfx_rw.

(** ** Lists *)

(** The length of a [flat_map] whose every image has length [c]. *)
Lemma length_flat_map_const {A B} (c : nat) (f : A -> list B) (l : list A) :
  (forall x, In x l -> length (f x) = c) -> length (flat_map f l) = length l * c.
Proof. apply flat_map_constant_length. Qed.

Lemma Forall_flat_map {A B} (P : B -> Prop) (f : A -> list B) (l : list A) :
  (forall x, In x l -> Forall P (f x)) -> Forall P (flat_map f l).
Proof.
  induction l as [|a l IH]; intros H; simpl; [constructor|].
  apply Forall_app. split; [apply H; now left | apply IH; intros; apply H; now right].
Qed.

Lemma in_seq_lt (i n : nat) : In i (seq 0 n) -> (i < n)%nat.
Proof. rewrite in_seq. lia. Qed.

#[export] Hint Resolve in_seq_lt : gfx.

(** A [fold_left] over an option that stops at the first [None], as the
    code's loops that give up on a failed iteration are modelled. *)
Definition fold_option {A B} (f : B -> A -> option A) (l : list B) (a : option A) : option A :=
  fold_left (fun acc b => match acc with None => None | Some a => f b a end) l a.

Lemma fold_option_none {A B} (f : B -> A -> option A) (l : list B) : fold_option f l None = None.
Proof. unfold fold_option. induction l as [|b l IH]; [reflexivity | exact IH]. Qed.

Section FoldOption.
Context {A B : Type} (P : A -> Prop) (f : B -> A -> option A).
Hypothesis f_preserves : forall b a a', P a -> f b a = Some a' -> P a'.

(** An invariant of every iteration is an invariant of the loop. *)
Lemma fold_option_preserves (l : list B) (a a' : A) :
  P a -> fold_option f l (Some a) = Some a' -> P a'.
Proof.
  unfold fold_option. revert a. induction l as [|b l IH]; cbn; intros a Ha Hl; [now injection Hl as <-|].
  destruct (f b a) as [a''|] eqn:Hf.
  - exact (IH a'' (f_preserves b a a'' Ha Hf) Hl).
  - change (fold_option f l None = Some a') in Hl. now rewrite fold_option_none in Hl.
Qed.
End FoldOption.

(** ** Natural powers *)

Lemma pow4_succ (n : nat) : (4 ^ S n = 4 * 4 ^ n)%nat.
Proof. apply Nat.pow_succ_r'. Qed.

Lemma pow4_pos (n : nat) : (0 < 4 ^ n)%nat.
Proof. apply Nat.neq_0_lt_0, Nat.pow_nonzero. lia. Qed.

#[export] Hint Rewrite pow4_succ : gfx_rw.
#[export] Hint Resolve pow4_pos : gfx.

(** ** Tactics *)

Ltac inv H := inversion H; subst; clear H.

(** Close a goal on the 32-bit range by unfolding the bounds. *)
Ltac int32_lia := unfold INT_MIN, INT_MAX in *; lia.

(** ** Witnesses *)

