(* ===== verification/Scalar.v ===== *)
(** * Scalars: the number types the program computes with

    The interface [GlmScalar] lists the operations GLM's [vec]/[mat]
    templates use on their component type [T], [s_lit m e] the exact
    literal [m * 2^e] (so [0.5f] is [s_lit 1 (-1)]) and [s_dec m e] the
    decimal literal [m * 10^e] as the compiler rounds it (so [0.1f] is
    [s_dec 1 (-1)]).  [GlmField] adds the division and square root of the
    mesh constants, [GlmTrig] the cosine, sine and tangent of
    [glm::rotate] and [glm::perspective]; [GlmRing] states the laws exact
    arithmetic satisfies and floating point does not.

    Implementations:
    - [float32] and [float64]: IEEE-754 binary32 ([float]) and binary64
      ([double]) as the Standard Library's [SpecFloat] with
      [prec]/[emax] = 24/128 and 53/1024, rounding to nearest even; with the
      C conversions the vertex table uses ([int -> double],
      [double -> float], [float -> double]).
    - [R]: the real numbers, the exact arithmetic of the geometry. *)

From Stdlib Require Import ZArith Reals Ring Field Lra.
From Stdlib Require Import SpecFloat.
From S2P Require Import Prelude.

(** ** The interface *)

Class GlmScalar (R : Type) := {
  s_zero : R;
  s_one : R;
  s_add : R -> R -> R;
  s_sub : R -> R -> R;
  s_mul : R -> R -> R;
  s_opp : R -> R;
  s_lit : Z -> Z -> R;
  s_dec : Z -> Z -> R
}.

Class GlmField (R : Type) `{GlmScalar R} := {
  s_div : R -> R -> R;
  s_sqrt : R -> R
}.

(** The trigonometric functions of the C library, for [glm::rotate] and
    [glm::perspective]. *)
Class GlmTrig (R : Type) `{GlmScalar R} := {
  s_cos : R -> R;
  s_sin : R -> R;
  s_tan : R -> R
}.

Infix "+s" := s_add (at level 50, left associativity) : gfx_scope.
Infix "-s" := s_sub (at level 50, left associativity) : gfx_scope.
Infix "*s" := s_mul (at level 40, left associativity) : gfx_scope.
Infix "/s" := s_div (at level 40, left associativity) : gfx_scope.

Open Scope gfx_scope.

(** The literal [0.5f] of [glm::vec3(0.5f)]. *)
Definition s_half {R} `{GlmScalar R} : R := s_lit 1 (-1).

(** The laws of exact arithmetic: a commutative ring in which the literal
    one half is the inverse of two. *)
Class GlmRing (R : Type) `{GlmScalar R} := {
  s_ring : ring_theory s_zero s_one s_add s_mul s_sub s_opp (@eq R);
  s_half_twice : s_half +s s_half = s_one
}.

(** ** IEEE-754 binary32 and binary64 *)

Definition prec32 : Z := 24.
Definition emax32 : Z := 128.
Definition prec64 : Z := 53.
Definition emax64 : Z := 1024.

Record float32 := F32 { f32_val : spec_float }.

(** An integer as a (not necessarily normalised) [spec_float], exactly. *)
Definition int_sf (m : Z) : spec_float :=
  match m with
  | Z0 => S754_zero false
  | Zpos p => S754_finite false p 0
  | Zneg p => S754_finite true p 0
  end.

(** The decimal literal [m * 10^e] rounded to nearest even, as the compiler
    rounds it: for [e < 0] the correctly rounded quotient [m / 10^-e]. *)
Definition sf_decimal (prec emax m e : Z) : spec_float :=
  match e with
  | Zneg p => SFdiv prec emax (int_sf m) (int_sf (10 ^ Zpos p))
  | _ => binary_normalize prec emax (m * 10 ^ e) 0 false
  end.
Record float64 := F64 { f64_val : spec_float }.

Definition f32_lift2 (op : Z -> Z -> spec_float -> spec_float -> spec_float)
  (a b : float32) : float32 := F32 (op prec32 emax32 (f32_val a) (f32_val b)).
Definition f64_lift2 (op : Z -> Z -> spec_float -> spec_float -> spec_float)
  (a b : float64) : float64 := F64 (op prec64 emax64 (f64_val a) (f64_val b)).

#[export] Instance float32_scalar : GlmScalar float32 := {
  s_zero := F32 (S754_zero false);
  s_one := F32 (binary_normalize prec32 emax32 1 0 false);
  s_add := f32_lift2 SFadd;
  s_sub := f32_lift2 SFsub;
  s_mul := f32_lift2 SFmul;
  s_opp a := F32 (SFopp (f32_val a));
  s_lit m e := F32 (binary_normalize prec32 emax32 m e false);
  s_dec m e := F32 (sf_decimal prec32 emax32 m e)
}.

#[export] Instance float32_field : GlmField float32 := {
  s_div := f32_lift2 SFdiv;
  s_sqrt a := F32 (SFsqrt prec32 emax32 (f32_val a))
}.

#[export] Instance float64_scalar : GlmScalar float64 := {
  s_zero := F64 (S754_zero false);
  s_one := F64 (binary_normalize prec64 emax64 1 0 false);
  s_add := f64_lift2 SFadd;
  s_sub := f64_lift2 SFsub;
  s_mul := f64_lift2 SFmul;
  s_opp a := F64 (SFopp (f64_val a));
  s_lit m e := F64 (binary_normalize prec64 emax64 m e false);
  s_dec m e := F64 (sf_decimal prec64 emax64 m e)
}.

#[export] Instance float64_field : GlmField float64 := {
  s_div := f64_lift2 SFdiv;
  s_sqrt a := F64 (SFsqrt prec64 emax64 (f64_val a))
}.

(** C's implicit conversions. *)

(** [int -> double] ([sqrt(3)] calls [sqrt(double)]); exact for an [int]. *)
Definition f64_of_int (n : Z) : float64 := F64 (binary_normalize prec64 emax64 n 0 false).

(** [int -> float] (the [6] of [float(...) / 6]). *)
Definition f32_of_int (n : Z) : float32 := F32 (binary_normalize prec32 emax32 n 0 false).

(** Rounding a [spec_float] to another format. *)
Definition sf_round (prec emax : Z) (x : spec_float) : spec_float :=
  match x with
  | S754_finite s m e => binary_round prec emax s m e
  | _ => x
  end.

(** [double -> float], the cast [float(x)]: rounds to nearest even. *)
Definition f32_of_f64 (x : float64) : float32 := F32 (sf_round prec32 emax32 (f64_val x)).

(** [float -> double], the promotion in [a * sqrt(3)]: exact. *)
Definition f64_of_f32 (x : float32) : float64 := F64 (sf_round prec64 emax64 (f32_val x)).

(** ** The exact real numbers *)

#[export] Instance real_scalar : GlmScalar R := {
  s_zero := 0%R;
  s_one := 1%R;
  s_add := Rplus;
  s_sub := Rminus;
  s_mul := Rmult;
  s_opp := Ropp;
  s_lit m e := (IZR m * powerRZ 2 e)%R;
  s_dec m e := (IZR m * powerRZ 10 e)%R
}.

#[export] Instance real_field : GlmField R := {
  s_div := Rdiv;
  s_sqrt := sqrt
}.

#[export] Instance real_trig : GlmTrig R := {
  s_cos := cos;
  s_sin := sin;
  s_tan := tan
}.

Lemma real_half_twice : (IZR 1 * powerRZ 2 (-1) + IZR 1 * powerRZ 2 (-1))%R = 1%R.
Proof. simpl. field. Qed.

#[export] Instance real_ring : GlmRing R := {
  s_ring := RTheory;
  s_half_twice := real_half_twice
}.
