(* ===== verification/Glm.v ===== *)
(** * The GLM subset the program uses

    GLM stores a [mat4] as four column [vec4]s ([m[0]] .. [m[3]]) and
    implements its functions column by column.  This file writes the
    vectors, matrices and the routines [glm::mat4(s)], [glm::scale],
    [glm::translate], [operator*] (matrix-matrix and matrix-vector) over
    any scalar type of the [GlmScalar] interface, and in the section
    [Transforms] (over [GlmField] and [GlmTrig]) [glm::radians],
    [glm::normalize], [glm::rotate] and [glm::perspective] (right-handed,
    clip depth in [-1, 1], GLM's default), in GLM's evaluation order
    (C++ [a + b + c + d] is [((a + b) + c) + d]).

    The theorems of the section [RingLaws] show, in exact arithmetic, that
    GLM's column routines equal the textbook matrix products they
    optimise, and how a scaled-then-translated matrix acts on a point. *)

From Stdlib Require Import ZArith Ring.
From S2P Require Import Prelude Scalar.

Open Scope gfx_scope.

Record vec3 (R : Type) := Vec3 { v3x : R; v3y : R; v3z : R }.
Record vec4 (R : Type) := Vec4 { v4x : R; v4y : R; v4z : R; v4w : R }.
(** A [mat4] is its four columns. *)
Record mat4 (R : Type) := Mat4 { col0 : vec4 R; col1 : vec4 R; col2 : vec4 R; col3 : vec4 R }.

Arguments Vec3 {R} _ _ _.
Arguments Vec4 {R} _ _ _ _.
Arguments Mat4 {R} _ _ _ _.
Arguments v3x {R} _. Arguments v3y {R} _. Arguments v3z {R} _.
Arguments v4x {R} _. Arguments v4y {R} _. Arguments v4z {R} _. Arguments v4w {R} _.
Arguments col0 {R} _. Arguments col1 {R} _. Arguments col2 {R} _. Arguments col3 {R} _.

Section Glm.
Context {R : Type} `{GlmScalar R}.

(** [glm::vec3(s)]: the three components equal. *)
Definition vec3_splat (s : R) : vec3 R := Vec3 s s s.

(** [vec4 + vec4], componentwise. *)
Definition v4_add (a b : vec4 R) : vec4 R :=
  Vec4 (v4x a +s v4x b) (v4y a +s v4y b) (v4z a +s v4z b) (v4w a +s v4w b).

(** [vec4 * scalar], componentwise. *)
Definition v4_scale (a : vec4 R) (s : R) : vec4 R :=
  Vec4 (v4x a *s s) (v4y a *s s) (v4z a *s s) (v4w a *s s).

(** [glm::mat4(s)]: [s] on the diagonal, zero elsewhere; [glm::mat4(1.0f)]
    is the identity. *)
Definition mat4_diag (s : R) : mat4 R :=
  Mat4 (Vec4 s s_zero s_zero s_zero) (Vec4 s_zero s s_zero s_zero)
       (Vec4 s_zero s_zero s s_zero) (Vec4 s_zero s_zero s_zero s).

Definition mat4_identity : mat4 R := mat4_diag s_one.

(** [glm::scale(m, v)]: columns 0..2 scaled by [v.x], [v.y], [v.z];
    column 3 copied. *)
Definition glm_scale (m : mat4 R) (v : vec3 R) : mat4 R :=
  Mat4 (v4_scale (col0 m) (v3x v)) (v4_scale (col1 m) (v3y v))
       (v4_scale (col2 m) (v3z v)) (col3 m).

(** [glm::translate(m, v)]: columns 0..2 copied;
    [Result[3] = m[0] * v[0] + m[1] * v[1] + m[2] * v[2] + m[3]]. *)
Definition glm_translate (m : mat4 R) (v : vec3 R) : mat4 R :=
  Mat4 (col0 m) (col1 m) (col2 m)
       (v4_add (v4_add (v4_add (v4_scale (col0 m) (v3x v)) (v4_scale (col1 m) (v3y v)))
                       (v4_scale (col2 m) (v3z v))) (col3 m)).

(** [mat4 * vec4]: [m[0] * v.x + m[1] * v.y + m[2] * v.z + m[3] * v.w]. *)
Definition mat4_mul_vec (m : mat4 R) (v : vec4 R) : vec4 R :=
  v4_add (v4_add (v4_add (v4_scale (col0 m) (v4x v)) (v4_scale (col1 m) (v4y v)))
                 (v4_scale (col2 m) (v4z v))) (v4_scale (col3 m) (v4w v)).

(** [mat4 * mat4]: column [i] of the product is [m1 * m2[i]]. *)
Definition mat4_mul (m1 m2 : mat4 R) : mat4 R :=
  Mat4 (mat4_mul_vec m1 (col0 m2)) (mat4_mul_vec m1 (col1 m2))
       (mat4_mul_vec m1 (col2 m2)) (mat4_mul_vec m1 (col3 m2)).

(** A point [p] in homogeneous coordinates, [vec4(p, 1)]. *)
Definition point (p : vec3 R) : vec4 R := Vec4 (v3x p) (v3y p) (v3z p) s_one.

(** The reference matrices of a scaling and of a translation. *)
Definition scale_matrix (v : vec3 R) : mat4 R :=
  Mat4 (Vec4 (v3x v) s_zero s_zero s_zero) (Vec4 s_zero (v3y v) s_zero s_zero)
       (Vec4 s_zero s_zero (v3z v) s_zero) (Vec4 s_zero s_zero s_zero s_one).

Definition translate_matrix (v : vec3 R) : mat4 R :=
  Mat4 (Vec4 s_one s_zero s_zero s_zero) (Vec4 s_zero s_one s_zero s_zero)
       (Vec4 s_zero s_zero s_one s_zero) (Vec4 (v3x v) (v3y v) (v3z v) s_one).

(** Vector arithmetic on points, for the statements. *)
Definition v3_add (a b : vec3 R) : vec3 R :=
  Vec3 (v3x a +s v3x b) (v3y a +s v3y b) (v3z a +s v3z b).
Definition v3_scale (s : R) (a : vec3 R) : vec3 R :=
  Vec3 (s *s v3x a) (s *s v3y a) (s *s v3z a).

(** The linear part of a matrix: its first three columns. *)
Definition linear_part (m : mat4 R) : vec4 R * vec4 R * vec4 R := (col0 m, col1 m, col2 m).

(** ** Facts in any arithmetic *)

Lemma glm_translate_linear (m : mat4 R) (v : vec3 R) :
  linear_part (glm_translate m v) = linear_part m.
Proof. reflexivity. Qed.

Lemma glm_scale_linear (m : mat4 R) (s : R) :
  linear_part (glm_scale m (vec3_splat s)) =
  (v4_scale (col0 m) s, v4_scale (col1 m) s, v4_scale (col2 m) s).
Proof. reflexivity. Qed.
End Glm.

(** ** Rotation, radians and perspective (used by the render loop) *)

Section Transforms.
Context {R : Type} `{GlmField R} {HT : GlmTrig R}.

(** [glm::dot] for [vec3]: [(a.x * b.x + a.y * b.y) + a.z * b.z]. *)
Definition v3_dot (a b : vec3 R) : R := v3x a *s v3x b +s v3y a *s v3y b +s v3z a *s v3z b.

(** [glm::inversesqrt(x) = 1 / sqrt(x)]. *)
Definition inversesqrt (x : R) : R := s_lit 1 0 /s s_sqrt x.

(** [glm::normalize(v) = v * inversesqrt(dot(v, v))]. *)
Definition normalize (v : vec3 R) : vec3 R :=
  let k := inversesqrt (v3_dot v v) in Vec3 (v3x v *s k) (v3y v *s k) (v3z v *s k).

(** [glm::radians(d) = d * 0.01745329251994329576923690768489]. *)
Definition glm_radians (degrees : R) : R :=
  degrees *s s_dec 1745329251994329576923690768489 (-32).

(** [glm::rotate(m, angle, v)]: the rotation matrix of angle [angle]
    about [normalize(v)], and [Result[i] = m[0] * Rotate[i][0] +
    m[1] * Rotate[i][1] + m[2] * Rotate[i][2]], [Result[3] = m[3]]. *)
Definition glm_rotate (m : mat4 R) (angle : R) (v : vec3 R) : mat4 R :=
  let c := s_cos angle in
  let s := s_sin angle in
  let axis := normalize v in
  let k := s_lit 1 0 -s c in
  let temp := Vec3 (k *s v3x axis) (k *s v3y axis) (k *s v3z axis) in
  let r00 := c +s v3x temp *s v3x axis in
  let r01 := v3x temp *s v3y axis +s s *s v3z axis in
  let r02 := v3x temp *s v3z axis -s s *s v3y axis in
  let r10 := v3y temp *s v3x axis -s s *s v3z axis in
  let r11 := c +s v3y temp *s v3y axis in
  let r12 := v3y temp *s v3z axis +s s *s v3x axis in
  let r20 := v3z temp *s v3x axis +s s *s v3y axis in
  let r21 := v3z temp *s v3y axis -s s *s v3x axis in
  let r22 := c +s v3z temp *s v3z axis in
  Mat4 (v4_add (v4_add (v4_scale (col0 m) r00) (v4_scale (col1 m) r01)) (v4_scale (col2 m) r02))
       (v4_add (v4_add (v4_scale (col0 m) r10) (v4_scale (col1 m) r11)) (v4_scale (col2 m) r12))
       (v4_add (v4_add (v4_scale (col0 m) r20) (v4_scale (col1 m) r21)) (v4_scale (col2 m) r22))
       (col3 m).

(** [glm::perspective(fovy, aspect, zNear, zFar)], right-handed with depth
    in [-1, 1] (GLM's default [perspectiveRH_NO]). *)
Definition glm_perspective (fovy aspect zNear zFar : R) : mat4 R :=
  let tanHalfFovy := s_tan (fovy /s s_lit 2 0) in
  Mat4 (Vec4 (s_lit 1 0 /s (aspect *s tanHalfFovy)) s_zero s_zero s_zero)
       (Vec4 s_zero (s_lit 1 0 /s tanHalfFovy) s_zero s_zero)
       (Vec4 s_zero s_zero (s_opp (zFar +s zNear) /s (zFar -s zNear)) (s_opp (s_lit 1 0)))
       (Vec4 s_zero s_zero (s_opp (s_lit 2 0 *s zFar *s zNear) /s (zFar -s zNear)) s_zero).
End Transforms.

#[export] Hint Rewrite @glm_translate_linear @glm_scale_linear : gfx_rw.

(** Prove an equation of records of scalars componentwise by [ring]. *)
Ltac glm_ring :=
  repeat match goal with
         | m : mat4 _ |- _ => destruct m
         | v : vec4 _ |- _ => destruct v
         | v : vec3 _ |- _ => destruct v
         end;
  cbv [glm_scale glm_translate mat4_mul mat4_mul_vec v4_add v4_scale scale_matrix
       translate_matrix point v3_add v3_scale vec3_splat mat4_diag mat4_identity
       col0 col1 col2 col3 v4x v4y v4z v4w v3x v3y v3z];
  repeat match goal with
         | |- Mat4 _ _ _ _ = Mat4 _ _ _ _ => f_equal
         | |- Vec4 _ _ _ _ = Vec4 _ _ _ _ => f_equal
         | |- Vec3 _ _ _ = Vec3 _ _ _ => f_equal
         end;
  ring.

Section RingLaws.
Context {R : Type} `{GlmRing R}.
Add Ring glm_ring : s_ring.

(** GLM's [scale] is the product with the scaling matrix. *)
Lemma glm_scale_is_mul (m : mat4 R) (v : vec3 R) :
  glm_scale m v = mat4_mul m (scale_matrix v).
Proof. glm_ring. Qed.

Lemma glm_translate_is_mul (m : mat4 R) (v : vec3 R) :
  glm_translate m v = mat4_mul m (translate_matrix v).
Proof. glm_ring. Qed.

(** Matrix-vector product respects the matrix product. *)
Lemma mat4_mul_vec_mul (a b : mat4 R) (p : vec4 R) :
  mat4_mul_vec (mat4_mul a b) p = mat4_mul_vec a (mat4_mul_vec b p).
Proof. glm_ring. Qed.

(** A matrix scaled by [s] and then translated by [t] maps the point [p]
    where the original maps [s * (p + t)]. *)
Lemma scale_translate_point (m : mat4 R) (s : R) (t p : vec3 R) :
  mat4_mul_vec (glm_translate (glm_scale m (vec3_splat s)) t) (point p) =
  mat4_mul_vec m (point (v3_scale s (v3_add p t))).
Proof. glm_ring. Qed.
End RingLaws.

(** Witnesses, in the exact arithmetic of [Scalar.real_ring]. *)

Lemma glm_scale_is_mul_witness :
  glm_scale (mat4_diag (s_one : Rdefinitions.R)) (vec3_splat s_half) =
  mat4_mul (mat4_diag s_one) (scale_matrix (vec3_splat s_half)).
Proof. apply glm_scale_is_mul. Defined.

Lemma glm_translate_is_mul_witness :
  glm_translate (mat4_diag (s_one : Rdefinitions.R)) (vec3_splat s_one) =
  mat4_mul (mat4_diag s_one) (translate_matrix (vec3_splat s_one)).
Proof. apply glm_translate_is_mul. Defined.

Lemma scale_translate_point_witness :
  mat4_mul_vec (glm_translate (glm_scale (mat4_diag (s_one : Rdefinitions.R)) (vec3_splat s_half))
                              (vec3_splat s_one)) (point (vec3_splat s_zero)) =
  mat4_mul_vec (mat4_diag s_one) (point (v3_scale s_half (v3_add (vec3_splat s_zero) (vec3_splat s_one)))).
Proof. apply scale_translate_point. Defined.
