(* ===== verification/GL.v ===== *)
(** * The OpenGL context, as far as the program uses it

    The OpenGL calls of [main.cpp] act on the hidden state of the current
    context.  [GLState] makes that state explicit: the uniform locations of
    each linked program (fixed by the linker when [Shader]'s constructor
    links [texture.vert]/[texture.frag]), the program made current by
    [glUseProgram], the bound vertex array, the uniform values of every
    program, the sticky error flag, and the log of issued draws.  Each
    draw records its range and the uniform values of the program it ran
    with: that is what the GPU sees.

    The functions follow the OpenGL 3.3 core specification on the points
    the program reaches:
    - [glGetUniformLocation] returns [-1] for a name the program does not
      have, and flags [GL_INVALID_VALUE] for a name that is not a program;
    - [glUniform*] with location [-1] is silently ignored; with no current
      program, or a location the current program does not have, it flags
      [GL_INVALID_OPERATION] and changes nothing; otherwise it sets the
      uniform of the current program (not of the program the location was
      looked up in);
    - [glDrawArrays] with a negative [first] or [count] flags
      [GL_INVALID_VALUE]; with no vertex array bound (core profile) it flags
      [GL_INVALID_OPERATION]; neither draws.
    - the error flag keeps the first error until [glGetError] (which the
      program never calls).
    Uniform types are not tracked (setting a [mat4] on a [vec4] uniform is
    an error the model does not flag). *)

From stdpp Require Import base gmap strings list.
From S2P Require Import Prelude Scalar Glm.

Local Open Scope Z_scope.

Inductive GLerror := GL_NO_ERROR | GL_INVALID_ENUM | GL_INVALID_VALUE | GL_INVALID_OPERATION.

#[export] Instance GLerror_eq_dec : EqDecision GLerror.
Proof. solve_decision. Defined.

(** [GL_TRIANGLES] of [gl.h]. *)
Definition GL_TRIANGLES : Z := 4.

(** A uniform value, as uploaded by [glUniformMatrix4fv], [glUniform4f]
    and [glUniform1i]. *)
Inductive UValue (R : Type) := UMat4 (m : mat4 R) | UVec4 (v : vec4 R) | UInt (i : Z).
Arguments UMat4 {R} _. Arguments UVec4 {R} _. Arguments UInt {R} _.

Record DrawCall (R : Type) := {
  dc_mode : Z;
  dc_first : Z;
  dc_count : Z;
  dc_program : Z;
  dc_uniforms : gmap Z (UValue R)
}.
Arguments dc_mode {R} _. Arguments dc_first {R} _. Arguments dc_count {R} _.
Arguments dc_program {R} _. Arguments dc_uniforms {R} _.

(** ** Objects: vertex arrays, buffers and textures *)

(** The arguments of [glVertexAttribPointer(index, size, GL_FLOAT, GL_FALSE,
    stride, offset)], in bytes. *)
Record AttribPointer := {
  ap_index : Z;
  ap_size : Z;
  ap_stride : Z;
  ap_offset : Z
}.

(** A vertex array object: per attribute index, the pointer and the
    buffer bound to [GL_ARRAY_BUFFER] when it was set; and the enabled
    attribute indices. *)
Record VertexArray := {
  va_pointers : gmap Z (AttribPointer * Z);
  va_enabled : gset Z
}.

(** A texture object: its parameters ([pname -> value]) and its defined
    mipmap levels ([level -> (width, height)]). *)
Record Texture := {
  tex_params : gmap Z Z;
  tex_levels : gmap Z (Z * Z)
}.

(** The objects of the context: the next name [glGen*] hands out, the
    vertex arrays, the buffers with their contents (the program only
    stores [float]s), the textures, the [GL_ARRAY_BUFFER] binding, the
    active texture unit, the [GL_TEXTURE_2D] binding of each unit, and
    whether [GL_DEPTH_TEST] is enabled. *)
Record GLObjects := {
  ob_next : Z;
  ob_vaos : gmap Z VertexArray;
  ob_buffers : gmap Z (list float32);
  ob_textures : gmap Z Texture;
  ob_array_buffer : Z;
  ob_active_texture : Z;
  ob_texture_2d : gmap Z Z;
  ob_depth_test : bool
}.

(** A fresh context: no object, unit [GL_TEXTURE0] active. *)
Definition objects0 : GLObjects :=
  {| ob_next := 1; ob_vaos := ∅; ob_buffers := ∅; ob_textures := ∅; ob_array_buffer := 0;
     ob_active_texture := 33984; ob_texture_2d := ∅; ob_depth_test := false |}.

(** Field updates of [GLObjects]. *)
Definition with_next (n : Z) (ob : GLObjects) : GLObjects :=
  {| ob_next := n; ob_vaos := ob_vaos ob; ob_buffers := ob_buffers ob;
     ob_textures := ob_textures ob; ob_array_buffer := ob_array_buffer ob;
     ob_active_texture := ob_active_texture ob; ob_texture_2d := ob_texture_2d ob;
     ob_depth_test := ob_depth_test ob |}.
Definition with_vaos (m : gmap Z VertexArray) (ob : GLObjects) : GLObjects :=
  {| ob_next := ob_next ob; ob_vaos := m; ob_buffers := ob_buffers ob;
     ob_textures := ob_textures ob; ob_array_buffer := ob_array_buffer ob;
     ob_active_texture := ob_active_texture ob; ob_texture_2d := ob_texture_2d ob;
     ob_depth_test := ob_depth_test ob |}.
Definition with_buffers (m : gmap Z (list float32)) (ob : GLObjects) : GLObjects :=
  {| ob_next := ob_next ob; ob_vaos := ob_vaos ob; ob_buffers := m;
     ob_textures := ob_textures ob; ob_array_buffer := ob_array_buffer ob;
     ob_active_texture := ob_active_texture ob; ob_texture_2d := ob_texture_2d ob;
     ob_depth_test := ob_depth_test ob |}.
Definition with_textures (m : gmap Z Texture) (ob : GLObjects) : GLObjects :=
  {| ob_next := ob_next ob; ob_vaos := ob_vaos ob; ob_buffers := ob_buffers ob;
     ob_textures := m; ob_array_buffer := ob_array_buffer ob;
     ob_active_texture := ob_active_texture ob; ob_texture_2d := ob_texture_2d ob;
     ob_depth_test := ob_depth_test ob |}.
Definition with_array_buffer (b : Z) (ob : GLObjects) : GLObjects :=
  {| ob_next := ob_next ob; ob_vaos := ob_vaos ob; ob_buffers := ob_buffers ob;
     ob_textures := ob_textures ob; ob_array_buffer := b;
     ob_active_texture := ob_active_texture ob; ob_texture_2d := ob_texture_2d ob;
     ob_depth_test := ob_depth_test ob |}.
Definition with_active_texture (u : Z) (ob : GLObjects) : GLObjects :=
  {| ob_next := ob_next ob; ob_vaos := ob_vaos ob; ob_buffers := ob_buffers ob;
     ob_textures := ob_textures ob; ob_array_buffer := ob_array_buffer ob;
     ob_active_texture := u; ob_texture_2d := ob_texture_2d ob;
     ob_depth_test := ob_depth_test ob |}.
Definition with_texture_2d (m : gmap Z Z) (ob : GLObjects) : GLObjects :=
  {| ob_next := ob_next ob; ob_vaos := ob_vaos ob; ob_buffers := ob_buffers ob;
     ob_textures := ob_textures ob; ob_array_buffer := ob_array_buffer ob;
     ob_active_texture := ob_active_texture ob; ob_texture_2d := m;
     ob_depth_test := ob_depth_test ob |}.
Definition with_depth_test (b : bool) (ob : GLObjects) : GLObjects :=
  {| ob_next := ob_next ob; ob_vaos := ob_vaos ob; ob_buffers := ob_buffers ob;
     ob_textures := ob_textures ob; ob_array_buffer := ob_array_buffer ob;
     ob_active_texture := ob_active_texture ob; ob_texture_2d := ob_texture_2d ob;
     ob_depth_test := b |}.

Record GLState (R : Type) := {
  gl_locations : gmap Z (gmap string Z);
  gl_program : Z;
  gl_vao : Z;
  gl_uniforms : gmap Z (gmap Z (UValue R));
  gl_error : GLerror;
  gl_draws : list (DrawCall R);
  gl_objects : GLObjects;
  gl_viewport : Z * Z * Z * Z
}.
Arguments gl_locations {R} _. Arguments gl_program {R} _. Arguments gl_vao {R} _.
Arguments gl_uniforms {R} _. Arguments gl_error {R} _. Arguments gl_draws {R} _.
Arguments gl_objects {R} _. Arguments gl_viewport {R} _.

Definition GL_DEPTH_TEST : Z := 2929.

(** [SCR_WIDTH] and [SCR_HEIGHT] (lines 30-31), the size of the window
    [main] creates (line 81). *)
Definition SCR_WIDTH : Z := 1280.
Definition SCR_HEIGHT : Z := 1280.

(** The context once GLAD has loaded: nothing linked, bound or drawn; the
    viewport is the window's size, as when a context is first made
    current on a window (the framebuffer taken to be the window's size in
    pixels). *)
Definition gl_fresh {R} : GLState R :=
  {| gl_locations := ∅; gl_program := 0; gl_vao := 0; gl_uniforms := ∅;
     gl_error := GL_NO_ERROR; gl_draws := []; gl_objects := objects0;
     gl_viewport := (0, 0, SCR_WIDTH, SCR_HEIGHT) |}.

Section GLOps.
Context {R : Type}.

(** Record an error unless one is already pending. *)
Definition set_error (e : GLerror) (st : GLState R) : GLState R :=
  {| gl_locations := gl_locations st; gl_program := gl_program st; gl_vao := gl_vao st;
     gl_uniforms := gl_uniforms st;
     gl_error := if decide (gl_error st = GL_NO_ERROR) then e else gl_error st;
     gl_draws := gl_draws st; gl_objects := gl_objects st;
     gl_viewport := gl_viewport st |}.

(** The uniform values of program [p]. *)
Definition program_uniforms (st : GLState R) (p : Z) : gmap Z (UValue R) :=
  default ∅ (gl_uniforms st !! p).

Definition glGetUniformLocation (program : Z) (name : string) (st : GLState R)
  : Z * GLState R :=
  match gl_locations st !! program with
  | None => (-1, set_error GL_INVALID_VALUE st)
  | Some locs => (default (-1) (locs !! name), st)
  end.

Definition glUseProgram (program : Z) (st : GLState R) : GLState R :=
  if decide (program = 0 \/ is_Some (gl_locations st !! program)) then
    {| gl_locations := gl_locations st; gl_program := program; gl_vao := gl_vao st;
       gl_uniforms := gl_uniforms st; gl_error := gl_error st; gl_draws := gl_draws st;
       gl_objects := gl_objects st;
     gl_viewport := gl_viewport st |}
  else set_error GL_INVALID_OPERATION st.

(** [glBindVertexArray(vao)]: [vao] must be [0] or a vertex array name. *)
Definition glBindVertexArray (vao : Z) (st : GLState R) : GLState R :=
  if decide (vao = 0 \/ is_Some (ob_vaos (gl_objects st) !! vao)) then
    {| gl_locations := gl_locations st; gl_program := gl_program st; gl_vao := vao;
       gl_uniforms := gl_uniforms st; gl_error := gl_error st; gl_draws := gl_draws st;
       gl_objects := gl_objects st;
     gl_viewport := gl_viewport st |}
  else set_error GL_INVALID_OPERATION st.

(** [glEnable(cap)]: only [GL_DEPTH_TEST] is tracked; the other
    capabilities change nothing the model observes. *)
Definition glEnable (cap : Z) (st : GLState R) : GLState R :=
  if decide (cap = GL_DEPTH_TEST) then
    {| gl_locations := gl_locations st; gl_program := gl_program st; gl_vao := gl_vao st;
       gl_uniforms := gl_uniforms st; gl_error := gl_error st; gl_draws := gl_draws st;
       gl_objects := with_depth_test true (gl_objects st);
     gl_viewport := gl_viewport st |}
  else st.

(** Replace the objects. *)
Definition set_objects (ob : GLObjects) (st : GLState R) : GLState R :=
  {| gl_locations := gl_locations st; gl_program := gl_program st; gl_vao := gl_vao st;
     gl_uniforms := gl_uniforms st; gl_error := gl_error st; gl_draws := gl_draws st;
     gl_objects := ob;
     gl_viewport := gl_viewport st |}.

(** Is [loc] a uniform location of the current program? *)
Definition valid_location (st : GLState R) (loc : Z) : bool :=
  match gl_locations st !! gl_program st with
  | Some locs => bool_decide (loc ∈ (map_to_list locs).*2)
  | None => false
  end.

(** The common part of every [glUniform*] call. *)
Definition set_uniform (loc : Z) (v : UValue R) (st : GLState R) : GLState R :=
  if decide (loc = -1) then st
  else if valid_location st loc then
    {| gl_locations := gl_locations st; gl_program := gl_program st; gl_vao := gl_vao st;
       gl_uniforms := <[gl_program st := <[loc := v]> (program_uniforms st (gl_program st))]>
                        (gl_uniforms st);
       gl_error := gl_error st; gl_draws := gl_draws st; gl_objects := gl_objects st;
     gl_viewport := gl_viewport st |}
  else set_error GL_INVALID_OPERATION st.

(** [glUniformMatrix4fv(loc, 1, GL_FALSE, value_ptr(m))]. *)
Definition glUniformMatrix4fv (loc : Z) (m : mat4 R) (st : GLState R) : GLState R :=
  set_uniform loc (UMat4 m) st.

Definition glUniform4f (loc : Z) (x y z w : R) (st : GLState R) : GLState R :=
  set_uniform loc (UVec4 (Vec4 x y z w)) st.

Definition glUniform1i (loc : Z) (i : Z) (st : GLState R) : GLState R :=
  set_uniform loc (UInt i) st.

Definition glDrawArrays (mode first count : Z) (st : GLState R) : GLState R :=
  if decide (first < 0 \/ count < 0)%Z then set_error GL_INVALID_VALUE st
  else if decide (gl_vao st = 0) then set_error GL_INVALID_OPERATION st
  else
    {| gl_locations := gl_locations st; gl_program := gl_program st; gl_vao := gl_vao st;
       gl_uniforms := gl_uniforms st; gl_error := gl_error st;
       gl_draws := gl_draws st ++
         [{| dc_mode := mode; dc_first := first; dc_count := count;
             dc_program := gl_program st;
             dc_uniforms := program_uniforms st (gl_program st) |}];
       gl_objects := gl_objects st;
     gl_viewport := gl_viewport st |}.
(** Replace the viewport. *)
Definition set_viewport (vp : Z * Z * Z * Z) (st : GLState R) : GLState R :=
  {| gl_locations := gl_locations st; gl_program := gl_program st; gl_vao := gl_vao st;
     gl_uniforms := gl_uniforms st; gl_error := gl_error st; gl_draws := gl_draws st;
     gl_objects := gl_objects st; gl_viewport := vp |}.

(** [glViewport(x, y, width, height)]: a negative width or height flags
    [GL_INVALID_VALUE].  (The clamp to [GL_MAX_VIEWPORT_DIMS], at least
    the size of the largest framebuffer, does not apply to a framebuffer
    size.) *)
Definition glViewport (x y w h : Z) (st : GLState R) : GLState R :=
  if decide (w < 0 \/ h < 0)%Z then set_error GL_INVALID_VALUE st
  else set_viewport (x, y, w, h) st.

Lemma set_objects_id (st : GLState R) : set_objects (gl_objects st) st = st.
Proof. by destruct st. Qed.
End GLOps.

(** ** The calls under the generator's contract *)

Section GLLemmas.
Context {R : Type}.
Implicit Types st : GLState R.

(** Program [p] has the uniform [name] at location [loc]. *)
Definition has_uniform st (p : Z) (name : string) (loc : Z) : Prop :=
  exists locs, gl_locations st !! p = Some locs /\ locs !! name = Some loc.

(** What uniform uploads and draws never change. *)
Definition same_binding st st' : Prop :=
  gl_locations st' = gl_locations st /\ gl_program st' = gl_program st /\
  gl_vao st' = gl_vao st.

Lemma same_binding_refl st : same_binding st st.
Proof. repeat split. Qed.

Lemma same_binding_trans st1 st2 st3 :
  same_binding st1 st2 -> same_binding st2 st3 -> same_binding st1 st3.
Proof. intros (?&?&?) (?&?&?). repeat split; congruence. Qed.

Lemma has_uniform_binding st st' p name loc :
  same_binding st st' -> has_uniform st p name loc -> has_uniform st' p name loc.
Proof. intros (Hl&_&_) (locs&?&?). exists locs. rewrite Hl. auto. Qed.

Lemma glGetUniformLocation_found st p name loc :
  has_uniform st p name loc -> glGetUniformLocation p name st = (loc, st).
Proof. intros (locs&Hp&Hn). unfold glGetUniformLocation. now rewrite Hp, Hn. Qed.

Lemma valid_location_found st name loc :
  has_uniform st (gl_program st) name loc -> valid_location st loc = true.
Proof.
  intros (locs&Hp&Hn). unfold valid_location. rewrite Hp. apply bool_decide_eq_true.
  apply list_elem_of_fmap. exists (name, loc). split; [done|].
  by apply elem_of_map_to_list.
Qed.

(** A valid upload changes exactly the uniform [loc] of the current
    program. *)
Lemma set_uniform_found st name loc (v : UValue R) :
  has_uniform st (gl_program st) name loc -> loc <> -1 ->
  same_binding st (set_uniform loc v st) /\
  gl_error (set_uniform loc v st) = gl_error st /\
  gl_draws (set_uniform loc v st) = gl_draws st /\
  program_uniforms (set_uniform loc v st) (gl_program st) =
    <[loc := v]> (program_uniforms st (gl_program st)).
Proof.
  intros Hu Hne. unfold set_uniform. rewrite decide_False by done.
  rewrite (valid_location_found st name loc Hu).
  split; [repeat split|]. split; [done|]. split; [done|].
  unfold program_uniforms at 1. simpl. now rewrite lookup_insert_eq.
Qed.

Lemma program_uniforms_same st st' p :
  gl_uniforms st' = gl_uniforms st -> program_uniforms st' p = program_uniforms st p.
Proof. intros Hu. unfold program_uniforms. now rewrite Hu. Qed.

(** A draw with a valid range and a bound vertex array is logged with the
    current uniforms, and changes nothing else. *)
Lemma glDrawArrays_ok st mode first count :
  (0 <= first)%Z -> (0 <= count)%Z -> gl_vao st <> 0 ->
  same_binding st (glDrawArrays mode first count st) /\
  gl_error (glDrawArrays mode first count st) = gl_error st /\
  gl_uniforms (glDrawArrays mode first count st) = gl_uniforms st /\
  gl_draws (glDrawArrays mode first count st) =
    gl_draws st ++ [{| dc_mode := mode; dc_first := first; dc_count := count;
                       dc_program := gl_program st;
                       dc_uniforms := program_uniforms st (gl_program st) |}].
Proof.
  intros Hf Hc Hv. unfold glDrawArrays.
  rewrite decide_False by lia. rewrite decide_False by done.
  repeat split.
Qed.
End GLLemmas.

(** ** What each call does to each field

    Rewrite rules for the fields of the state after a call, collected in
    the rewrite database [gl_rw], so that the state reached through a
    sequence of calls simplifies field by field. *)

Create Rewrite HintDb gl_rw.

Section Fields.
Context {R : Type}.
Implicit Types st : GLState R.

Lemma set_error_locations e st : gl_locations (set_error e st) = gl_locations st.
Proof. reflexivity. Qed.
Lemma set_error_program e st : gl_program (set_error e st) = gl_program st.
Proof. reflexivity. Qed.
Lemma set_error_vao e st : gl_vao (set_error e st) = gl_vao st.
Proof. reflexivity. Qed.
Lemma set_error_uniforms e st : gl_uniforms (set_error e st) = gl_uniforms st.
Proof. reflexivity. Qed.
Lemma set_error_draws e st : gl_draws (set_error e st) = gl_draws st.
Proof. reflexivity. Qed.

Lemma set_uniform_locations l (v : UValue R) st :
  gl_locations (set_uniform l v st) = gl_locations st.
Proof. unfold set_uniform. by repeat case_match. Qed.
Lemma set_uniform_program l (v : UValue R) st : gl_program (set_uniform l v st) = gl_program st.
Proof. unfold set_uniform. by repeat case_match. Qed.
Lemma set_uniform_vao l (v : UValue R) st : gl_vao (set_uniform l v st) = gl_vao st.
Proof. unfold set_uniform. by repeat case_match. Qed.
Lemma set_uniform_draws l (v : UValue R) st : gl_draws (set_uniform l v st) = gl_draws st.
Proof. unfold set_uniform. by repeat case_match. Qed.

Lemma set_error_objects e st : gl_objects (set_error e st) = gl_objects st.
Proof. reflexivity. Qed.
Lemma set_uniform_objects l (v : UValue R) st : gl_objects (set_uniform l v st) = gl_objects st.
Proof. unfold set_uniform. by repeat case_match. Qed.

Lemma glBindVertexArray_locations vao st : gl_locations (glBindVertexArray vao st) = gl_locations st.
Proof. unfold glBindVertexArray. by case_decide. Qed.
Lemma glBindVertexArray_program vao st : gl_program (glBindVertexArray vao st) = gl_program st.
Proof. unfold glBindVertexArray. by case_decide. Qed.
Lemma glBindVertexArray_uniforms vao st : gl_uniforms (glBindVertexArray vao st) = gl_uniforms st.
Proof. unfold glBindVertexArray. by case_decide. Qed.
Lemma glBindVertexArray_draws vao st : gl_draws (glBindVertexArray vao st) = gl_draws st.
Proof. unfold glBindVertexArray. by case_decide. Qed.
Lemma glBindVertexArray_objects vao st : gl_objects (glBindVertexArray vao st) = gl_objects st.
Proof. unfold glBindVertexArray. by case_decide. Qed.

(** Binding an existing vertex array succeeds. *)
Lemma glBindVertexArray_exists vao st :
  is_Some (ob_vaos (gl_objects st) !! vao) ->
  gl_vao (glBindVertexArray vao st) = vao /\ gl_error (glBindVertexArray vao st) = gl_error st.
Proof. intros Hv. unfold glBindVertexArray. rewrite decide_True; [done | by right]. Qed.

Lemma glUseProgram_locations p st : gl_locations (glUseProgram p st) = gl_locations st.
Proof. unfold glUseProgram. by case_decide. Qed.
Lemma glUseProgram_vao p st : gl_vao (glUseProgram p st) = gl_vao st.
Proof. unfold glUseProgram. by case_decide. Qed.
Lemma glUseProgram_uniforms p st : gl_uniforms (glUseProgram p st) = gl_uniforms st.
Proof. unfold glUseProgram. by case_decide. Qed.
Lemma glUseProgram_draws p st : gl_draws (glUseProgram p st) = gl_draws st.
Proof. unfold glUseProgram. by case_decide. Qed.
Lemma glUseProgram_objects p st : gl_objects (glUseProgram p st) = gl_objects st.
Proof. unfold glUseProgram. by case_decide. Qed.
Lemma glDrawArrays_objects mode first count st :
  gl_objects (glDrawArrays mode first count st) = gl_objects st.
Proof. unfold glDrawArrays. by repeat case_decide. Qed.

Lemma glGetUniformLocation_objects p name st :
  gl_objects (glGetUniformLocation p name st).2 = gl_objects st.
Proof. unfold glGetUniformLocation. by case_match. Qed.

Lemma set_error_viewport e st : gl_viewport (set_error e st) = gl_viewport st.
Proof. reflexivity. Qed.
Lemma set_uniform_viewport l (v : UValue R) st : gl_viewport (set_uniform l v st) = gl_viewport st.
Proof. unfold set_uniform. by repeat case_match. Qed.
Lemma glBindVertexArray_viewport vao st : gl_viewport (glBindVertexArray vao st) = gl_viewport st.
Proof. unfold glBindVertexArray. by case_decide. Qed.
Lemma glUseProgram_viewport p st : gl_viewport (glUseProgram p st) = gl_viewport st.
Proof. unfold glUseProgram. by case_decide. Qed.
Lemma glDrawArrays_viewport mode first count st :
  gl_viewport (glDrawArrays mode first count st) = gl_viewport st.
Proof. unfold glDrawArrays. by repeat case_decide. Qed.
Lemma set_objects_viewport ob st : gl_viewport (set_objects ob st) = gl_viewport st.
Proof. reflexivity. Qed.

Lemma set_viewport_locations vp st : gl_locations (set_viewport vp st) = gl_locations st.
Proof. reflexivity. Qed.
Lemma set_viewport_program vp st : gl_program (set_viewport vp st) = gl_program st.
Proof. reflexivity. Qed.
Lemma set_viewport_vao vp st : gl_vao (set_viewport vp st) = gl_vao st.
Proof. reflexivity. Qed.
Lemma set_viewport_uniforms vp st : gl_uniforms (set_viewport vp st) = gl_uniforms st.
Proof. reflexivity. Qed.
Lemma set_viewport_error vp st : gl_error (set_viewport vp st) = gl_error st.
Proof. reflexivity. Qed.
Lemma set_viewport_draws vp st : gl_draws (set_viewport vp st) = gl_draws st.
Proof. reflexivity. Qed.
Lemma set_viewport_objects vp st : gl_objects (set_viewport vp st) = gl_objects st.
Proof. reflexivity. Qed.
Lemma set_viewport_viewport vp st : gl_viewport (set_viewport vp st) = vp.
Proof. reflexivity. Qed.

(** A framebuffer size is never negative: the call only sets the viewport. *)
Lemma glViewport_N x y (w h : N) st :
  glViewport x y (Z.of_N w) (Z.of_N h) st = set_viewport (x, y, Z.of_N w, Z.of_N h) st.
Proof. unfold glViewport. rewrite decide_False by lia. reflexivity. Qed.

(** A linked program becomes current without error. *)
Lemma glUseProgram_linked p st (L : gmap string Z) :
  gl_locations st !! p = Some L ->
  gl_program (glUseProgram p st) = p /\ gl_error (glUseProgram p st) = gl_error st.
Proof. intros HL. unfold glUseProgram. rewrite decide_True; [done|]. right. by rewrite HL. Qed.

(** In a linked program, the location of [name] is its entry, or [-1]. *)
Lemma glGetUniformLocation_linked st p (L : gmap string Z) name :
  gl_locations st !! p = Some L ->
  glGetUniformLocation p name st = (default (-1) (L !! name), st).
Proof. intros HL. unfold glGetUniformLocation. by rewrite HL. Qed.
End Fields.

#[export] Hint Rewrite @set_error_locations @set_error_program @set_error_vao
  @set_error_uniforms @set_error_draws @set_error_objects
  @set_uniform_locations @set_uniform_program @set_uniform_vao @set_uniform_draws
  @set_uniform_objects
  @glBindVertexArray_locations @glBindVertexArray_program
  @glBindVertexArray_uniforms @glBindVertexArray_draws @glBindVertexArray_objects
  @glUseProgram_locations @glUseProgram_vao @glUseProgram_uniforms @glUseProgram_draws
  @glUseProgram_objects @glDrawArrays_objects
  @set_error_viewport @set_uniform_viewport @glBindVertexArray_viewport @glUseProgram_viewport
  @glDrawArrays_viewport @set_objects_viewport @glViewport_N
  @set_viewport_locations @set_viewport_program @set_viewport_vao @set_viewport_uniforms
  @set_viewport_error @set_viewport_draws @set_viewport_objects @set_viewport_viewport
  : gl_rw.

(** ** Uploads by name to a linked program *)

(** The uniform table of a linked program: one non-negative [int]
    location per active uniform name. *)
Definition well_linked (L : gmap string Z) : Prop :=
  (forall n l, L !! n = Some l -> 0 <= l <= INT_MAX) /\
  (forall n1 n2 l, L !! n1 = Some l -> L !! n2 = Some l -> n1 = n2).

(** The uniform values after uploading [v] to the uniform [name]: a name
    the program does not have has location [-1], and the upload is
    ignored. *)
Definition uniform_after {R} (L : gmap string Z) (name : string) (v : UValue R)
    (U : gmap Z (UValue R)) : gmap Z (UValue R) :=
  match L !! name with
  | Some l => <[l := v]> U
  | None => U
  end.

Section ByName.
Context {R : Type}.
Implicit Types st : GLState R.

Lemma well_linked_loc_range (L : gmap string Z) name :
  well_linked L -> (INT_MIN <= default (-1) (L !! name) <= INT_MAX)%Z.
Proof.
  intros [Hr _]. destruct (L !! name) as [l|] eqn:E; simpl; [|int32_lia].
  specialize (Hr _ _ E). int32_lia.
Qed.

Lemma set_uniform_by_name st (L : gmap string Z) name (v : UValue R) :
  gl_locations st !! gl_program st = Some L -> well_linked L ->
  gl_error (set_uniform (default (-1) (L !! name)) v st) = gl_error st /\
  program_uniforms (set_uniform (default (-1) (L !! name)) v st) (gl_program st) =
    uniform_after L name v (program_uniforms st (gl_program st)).
Proof.
  intros HL [Hr _]. unfold uniform_after. destruct (L !! name) as [l|] eqn:E; simpl.
  - assert (Hl : l <> -1) by (specialize (Hr _ _ E); lia).
    destruct (set_uniform_found st name l v) as (_&He&_&Hu); [|done|done].
    exists L. done.
  - unfold set_uniform. rewrite decide_True by done. done.
Qed.

Lemma uniform_after_same (L : gmap string Z) name l (v : UValue R) U :
  L !! name = Some l -> uniform_after L name v U !! l = Some v.
Proof. intros E. unfold uniform_after. rewrite E. apply lookup_insert_eq. Qed.

Lemma uniform_after_other (L : gmap string Z) name name' l (v : UValue R) U :
  well_linked L -> L !! name = Some l -> name' <> name ->
  uniform_after L name' v U !! l = U !! l.
Proof.
  intros [_ Hi] E Hne. unfold uniform_after. destruct (L !! name') as [l'|] eqn:E'; [|done].
  apply lookup_insert_ne. intros ->. apply Hne. eauto.
Qed.
End ByName.

(** [well_linked] from two checks a concrete table can compute. *)
Lemma well_linked_check (L : gmap string Z) :
  map_Forall (fun _ l => 0 <= l <= INT_MAX) L ->
  map_Forall (fun n1 l1 => map_Forall (fun n2 l2 => l1 = l2 -> n1 = n2) L) L ->
  well_linked L.
Proof.
  intros Hr Hi. split.
  - intros n l E. exact (map_Forall_lookup_1 _ _ _ _ Hr E).
  - intros n1 n2 l E1 E2.
    exact (map_Forall_lookup_1 _ _ _ _ (map_Forall_lookup_1 _ _ _ _ Hi E1) E2 eq_refl).
Qed.
