(* ===== verification/Mesh.v ===== *)
(** * The mesh: vertex table, corner offsets, vertex layout

    [main] uploads the 60 floats of [vertices] (12 vertices of 5 floats:
    a position and two texture coordinates, the four faces C D B, C D A,
    B A D, B C A of a regular tetrahedron of edge 1) into one buffer, and
    declares two vertex attributes over it (lines 160-164).  The global
    [translations] (lines 36-41) are the corner offsets the generator
    translates by.

    [vertices] is computed as the code computes it: [a / 2] in [float];
    [float(a * sqrt(3)) / 6] with [sqrt] of an [int], i.e. in [double],
    rounded to [float], then divided in [float].  [translations] is
    computed in the scalar type of the development ([sqrt(3.0f)] is the
    scalar square root): [float32] for the program, [R] for the ideal
    geometry.

    The vertex fetch [fetch_attrib] reads attribute components from the
    buffer by byte offset [offset + k * stride], one [float] (4 bytes) per
    component, and fails ([None]) where a component lies past the end of
    the buffer: the range checks of every [glDrawArrays] rest on it. *)

From stdpp Require Import base list.
From S2P Require Import Prelude Scalar Glm GL.

Local Open Scope Z_scope.
Open Scope gfx_scope.

(** ** Corner offsets *)

Section Translations.
Context {R : Type} `{GlmField R}.

Definition translations : list (vec3 R) :=
  [ Vec3 (s_lit 0 0) (s_opp (s_lit 2 0) *s s_sqrt (s_lit 3 0) /s s_lit 6 0) (s_lit 0 0);
    Vec3 (s_opp (s_lit 1 (-1))) (s_sqrt (s_lit 3 0) /s s_lit 6 0) (s_lit 0 0);
    Vec3 (s_lit 1 (-1)) (s_sqrt (s_lit 3 0) /s s_lit 6 0) (s_lit 0 0);
    Vec3 (s_lit 0 0) (s_lit 0 0) (s_sqrt (s_lit 6 0) /s s_lit 3 0) ].

(** [translations[i]]; the code only indexes it with [i < 4]. *)
Definition translation (i : nat) : vec3 R := nth i translations (Vec3 s_zero s_zero s_zero).
End Translations.

(** ** The vertex table of [main] (lines 121-143) *)

Section Vertices.
(** [float a = 1.0f;] *)
Definition a : float32 := s_lit 1 0.

(** [sqrt(3)], [sqrt(6)]: [sqrt] of an [int], computed in [double]. *)
Definition sqrt3_d : float64 := s_sqrt (f64_of_int 3).
Definition sqrt6_d : float64 := s_sqrt (f64_of_int 6).

(** [a / 2] and [-a / 2]. *)
Definition half_a : float32 := a /s f32_of_int 2.
Definition neg_half_a : float32 := s_opp a /s f32_of_int 2.
(** [float(a * sqrt(3)) / 6] *)
Definition y_top : float32 := f32_of_f64 (f64_of_f32 a *s sqrt3_d) /s f32_of_int 6.
(** [float(-a * 2 * sqrt(3)) / 6] *)
Definition y_bottom : float32 :=
  f32_of_f64 (f64_of_f32 (s_opp a *s f32_of_int 2) *s sqrt3_d) /s f32_of_int 6.
(** [float(a * sqrt(6)) / 3] *)
Definition z_apex : float32 := f32_of_f64 (f64_of_f32 a *s sqrt6_d) /s f32_of_int 3.

Definition f0 : float32 := s_lit 0 0.
Definition f1 : float32 := s_lit 1 0.

(** The four corners, named as the comments of the table name them. *)
Definition corner_C : vec3 float32 := Vec3 half_a y_top f0.
Definition corner_D : vec3 float32 := Vec3 neg_half_a y_top f0.
Definition corner_B : vec3 float32 := Vec3 f0 y_bottom f0.
Definition corner_A : vec3 float32 := Vec3 f0 f0 z_apex.

(** One row of the table: position, then two texture coordinates. *)
Definition vertex_row (p : vec3 float32) (u v : float32) : list float32 :=
  [v3x p; v3y p; v3z p; u; v].

Definition vertices : list float32 :=
  vertex_row corner_C f1 f1 ++ vertex_row corner_D f0 f0 ++ vertex_row corner_B f1 f0 ++
  vertex_row corner_C f1 f1 ++ vertex_row corner_D f0 f0 ++ vertex_row corner_A f1 f0 ++
  vertex_row corner_B f1 f1 ++ vertex_row corner_A f0 f0 ++ vertex_row corner_D f1 f0 ++
  vertex_row corner_B f1 f1 ++ vertex_row corner_C f1 f0 ++ vertex_row corner_A f0 f0.
End Vertices.

(** ** Vertex layout and vertex fetch *)

Definition sizeof_float : Z := 4.

(** [sizeof(vertices)], the size in bytes [glBufferData] uploads. *)
Definition buffer_bytes {A} (buf : list A) : Z := sizeof_float * Z.of_nat (length buf).

(** Line 160: the position, 3 floats at offset 0. *)
Definition attrib_position : AttribPointer :=
  {| ap_index := 0; ap_size := 3; ap_stride := 5 * sizeof_float; ap_offset := 0 |}.

(** Line 163: the texture coordinate, declared with 3 floats at offset 3
    floats (the table has 2 texture coordinates per vertex). *)
Definition attrib_texcoord : AttribPointer :=
  {| ap_index := 1; ap_size := 3; ap_stride := 5 * sizeof_float; ap_offset := 3 * sizeof_float |}.

Definition vertex_layout : list AttribPointer := [attrib_position; attrib_texcoord].

(** The float at byte offset [b] of the buffer, if inside it. *)
Definition fetch_float {A} (buf : list A) (b : Z) : option A :=
  if decide (0 <= b) then buf !! Z.to_nat (b / sizeof_float) else None.

(** The components of attribute [ap] of vertex [k]. *)
Definition fetch_attrib {A} (buf : list A) (ap : AttribPointer) (k : Z) : option (list A) :=
  mapM (fun c => fetch_float buf (ap_offset ap + k * ap_stride ap + c * sizeof_float))
       (seqZ 0 (ap_size ap)).

(** The attributes a [glDrawArrays(mode, first, count)] fetches, vertex by
    vertex; [None] when one of them lies outside the buffer. *)
Definition draw_fetch {A} (buf : list A) (layout : list AttribPointer) (first count : Z)
  : option (list (list (list A))) :=
  mapM (fun k => mapM (fun ap => fetch_attrib buf ap k) layout) (seqZ first count).

(** ** Reading the buffer *)

Lemma length_vertices : length vertices = 60%nat.
Proof. reflexivity. Qed.

Lemma fetch_float_is_Some {A} (buf : list A) (q : Z) :
  is_Some (fetch_float buf (q * sizeof_float)) <-> 0 <= q < Z.of_nat (length buf).
Proof.
  unfold fetch_float, sizeof_float. rewrite Z.div_mul by lia.
  case_decide.
  - rewrite lookup_lt_is_Some. lia.
  - split; [intros [? Hx]; discriminate | lia].
Qed.

(** An attribute whose offset and stride are whole floats ([o] and [s]
    floats) is inside the buffer exactly when each of its component
    indices [o + k * s + c] is. *)
Lemma fetch_attrib_is_Some {A} (buf : list A) (ap : AttribPointer) (k o s : Z) :
  ap_offset ap = o * sizeof_float -> ap_stride ap = s * sizeof_float ->
  is_Some (fetch_attrib buf ap k) <->
  (forall c, 0 <= c < ap_size ap -> 0 <= o + k * s + c < Z.of_nat (length buf)).
Proof.
  intros Ho Hs. unfold fetch_attrib. rewrite mapM_is_Some, Forall_seqZ, Ho, Hs.
  assert (Hb : forall c, (o * sizeof_float + k * (s * sizeof_float) + c * sizeof_float
                          = (o + k * s + c) * sizeof_float)%Z)
    by (intros; unfold sizeof_float; lia).
  split; intros Hc c Hrange; specialize (Hc c ltac:(lia)); simpl in *;
    rewrite Hb, fetch_float_is_Some in *; exact Hc.
Qed.

(** An attribute of the 5-float vertices at a whole-float offset [o],
    of [ap_size] floats, is inside the 60-float table exactly when its
    last component is. *)
Lemma vertex_attrib_range (ap : AttribPointer) (k o : Z) :
  ap_offset ap = o * sizeof_float -> ap_stride ap = 5 * sizeof_float ->
  0 <= o -> 0 < ap_size ap -> o < 5 ->
  is_Some (fetch_attrib vertices ap k) <-> 0 <= k /\ 5 * k + o + ap_size ap <= 60.
Proof.
  intros Ho Hs Hpos Hsz Ho5. rewrite (fetch_attrib_is_Some _ _ k o 5 Ho Hs), length_vertices.
  split; [intros H; pose proof (H 0 ltac:(lia)); pose proof (H (ap_size ap - 1) ltac:(lia)); lia
         | intros; lia].
Qed.

(** C10: the position attribute (line 160) is inside the 240-byte
    buffer exactly for the 12 vertices 0..11. *)
Theorem position_fetch_in_range (k : Z) :
  is_Some (fetch_attrib vertices attrib_position k) <-> 0 <= k < 12.
Proof. rewrite (vertex_attrib_range _ k 0) by (reflexivity || discriminate || lia). simpl. lia. Qed.

(** C6: the texture-coordinate attribute (line 163, 3 floats at offset
    12) is inside the buffer only for vertices 0..10: fetching it for the
    last vertex reads 4 bytes past the end of the buffer. *)
Theorem texcoord_fetch_in_range (k : Z) :
  is_Some (fetch_attrib vertices attrib_texcoord k) <-> 0 <= k < 11.
Proof. rewrite (vertex_attrib_range _ k 3) by (reflexivity || discriminate || lia). simpl. lia. Qed.

Lemma layout_fetch_is_Some (k : Z) :
  is_Some (mapM (fun ap => fetch_attrib vertices ap k) vertex_layout) <-> 0 <= k < 11.
Proof.
  rewrite mapM_is_Some. unfold vertex_layout. rewrite !Forall_cons. simpl.
  rewrite (vertex_attrib_range attrib_position k 0), (vertex_attrib_range attrib_texcoord k 3)
    by (reflexivity || discriminate || lia). simpl.
  split; [intros [? [? _]]; lia | intros; repeat split; auto; lia].
Qed.

(** The vertex range a draw can fetch inside the buffer. *)
Lemma draw_fetch_range (first count : Z) :
  is_Some (draw_fetch vertices vertex_layout first count) <->
  count <= 0 \/ (0 <= first /\ first + count <= 11).
Proof.
  unfold draw_fetch. rewrite mapM_is_Some, Forall_seqZ.
  split.
  - intros H. destruct (Z_le_gt_dec count 0) as [Hc | Hc]; [now left | right].
    pose proof (H first ltac:(lia)) as H1. pose proof (H (first + count - 1) ltac:(lia)) as H2.
    unfold compose in H1, H2. rewrite layout_fetch_is_Some in H1, H2. lia.
  - intros Hfc k Hk. unfold compose. rewrite layout_fetch_is_Some. lia.
Qed.

(** C11: with the layout of [main], [glDrawArrays(mode, first, count)]
    fetches only bytes inside the vertex buffer exactly when it draws
    nothing or its vertices lie in 0..10. *)
Theorem draw_fetch_in_range (first count : Z) :
  is_Some (draw_fetch vertices vertex_layout first count) <->
  count <= 0 \/ (0 <= first /\ first + count <= 11).
Proof. apply draw_fetch_range. Qed.

(** The corner offsets are, bit for bit, the corners B, D, C, A of
    the vertex table: [translations[i]] computed in [float] with
    [sqrt(3.0f)] equals the vertex computed through [double] and rounded. *)
Theorem translations_are_corners :
  translations (R := float32) = [corner_B; corner_D; corner_C; corner_A].
Proof. vm_compute. reflexivity. Qed.
