(* ===== verification/VertexArrays.v ===== *)
(** * Vertex arrays and buffers (lines 148-164)

    [main] creates a vertex array object and a buffer, binds both, uploads
    the vertex table into the buffer and records the two attribute
    pointers in the vertex array:
<<
    glGenVertexArrays(1, &VAO);  glGenBuffers(1, &VBO);
    glBindVertexArray(VAO);  glBindBuffer(GL_ARRAY_BUFFER, VBO);
    glBufferData(GL_ARRAY_BUFFER, sizeof(vertices), vertices, GL_DYNAMIC_DRAW);
    glVertexAttribPointer(0, 3, GL_FLOAT, GL_FALSE, 5 * sizeof(float), offset 0);
    glEnableVertexAttribArray(0);
    glVertexAttribPointer(1, 3, GL_FLOAT, GL_FALSE, 5 * sizeof(float), offset 3 * sizeof(float));
    glEnableVertexAttribArray(1);
>>
    The calls act on the objects of [GL.GLState] and follow the OpenGL 3.3
    core specification: [glGen*] hands out names not in use (here the
    counter [ob_next]) and creates the objects; binding a name that was not
    generated, setting an attribute pointer or enabling an attribute with
    no vertex array bound, and uploading with no buffer bound flag
    [GL_INVALID_OPERATION]; bad sizes and indices flag [GL_INVALID_VALUE],
    other targets and types [GL_INVALID_ENUM].  A flagged call changes
    nothing else.

    [draw_reads] is what a [glDrawArrays(mode, first, count)] fetches
    through the bound vertex array: for each vertex, each enabled
    attribute, in index order, read from the buffer its pointer was
    recorded with.  [glDeleteVertexArrays] and [glDeleteBuffers] (lines
    282-283) delete an object and release its bindings.  The theorems:
    [vertex_setup] keeps the name invariant of the objects
    ([objects_ok]), raises no error and builds
    a vertex array whose fetch is exactly [Mesh.draw_fetch vertices
    vertex_layout]: the state the code builds refines the layout [Mesh]
    describes. *)

From stdpp Require Import base gmap list.
From S2P Require Import Prelude Scalar Glm GL Mesh.

Local Open Scope Z_scope.

(** [gl.h] constants. *)
Definition GL_ARRAY_BUFFER : Z := 34962.
Definition GL_FLOAT : Z := 5126.
Definition GL_FALSE : Z := 0.
Definition GL_DYNAMIC_DRAW : Z := 35048.
(** [GL_MAX_VERTEX_ATTRIBS], the minimum the 3.3 core profile guarantees. *)
Definition GL_MAX_VERTEX_ATTRIBS : Z := 16.

Definition empty_vertex_array : VertexArray := {| va_pointers := ∅; va_enabled := ∅ |}.

Section Calls.
Context {R : Type}.
Implicit Types (st : GLState R).

Definition update_objects (f : GLObjects -> GLObjects) st : GLState R :=
  set_objects (f (gl_objects st)) st.

(** [glGenVertexArrays(1, &name)]. *)
Definition glGenVertexArrays st : Z * GLState R :=
  let ob := gl_objects st in
  let n := ob_next ob in
  (n, set_objects (with_vaos (<[n := empty_vertex_array]> (ob_vaos ob)) (with_next (n + 1) ob)) st).

(** [glGenBuffers(1, &name)]: a buffer with no data yet. *)
Definition glGenBuffers st : Z * GLState R :=
  let ob := gl_objects st in
  let n := ob_next ob in
  (n, set_objects (with_buffers (<[n := []]> (ob_buffers ob)) (with_next (n + 1) ob)) st).

Definition glBindBuffer (target b : Z) st : GLState R :=
  if decide (target <> GL_ARRAY_BUFFER) then set_error GL_INVALID_ENUM st
  else if decide (b = 0 \/ is_Some (ob_buffers (gl_objects st) !! b)) then
    update_objects (with_array_buffer b) st
  else set_error GL_INVALID_OPERATION st.

(** [glBufferData(target, size, data, usage)]: the buffer bound to
    [target] gets the first [size] bytes of [data], [size / 4] floats. *)
Definition glBufferData (target size : Z) (data : list float32) (usage : Z) st : GLState R :=
  let b := ob_array_buffer (gl_objects st) in
  if decide (target <> GL_ARRAY_BUFFER) then set_error GL_INVALID_ENUM st
  else if decide (size < 0) then set_error GL_INVALID_VALUE st
  else if decide (b = 0) then set_error GL_INVALID_OPERATION st
  else update_objects (fun ob => with_buffers (<[b := take (Z.to_nat (size / sizeof_float)) data]>
                                                 (ob_buffers ob)) ob) st.

(** The bound vertex array, updated by [f]; [GL_INVALID_OPERATION] when
    none is bound (core profile). *)
Definition update_vao (f : VertexArray -> VertexArray) st : GLState R :=
  match ob_vaos (gl_objects st) !! gl_vao st with
  | Some va => update_objects (fun ob => with_vaos (<[gl_vao st := f va]> (ob_vaos ob)) ob) st
  | None => set_error GL_INVALID_OPERATION st
  end.

Definition glVertexAttribPointer (index size type normalized stride offset : Z) st : GLState R :=
  if decide (type <> GL_FLOAT) then set_error GL_INVALID_ENUM st
  else if decide (index < 0 \/ GL_MAX_VERTEX_ATTRIBS <= index \/ size < 1 \/ 4 < size \/ stride < 0)
  then set_error GL_INVALID_VALUE st
  else if decide (ob_array_buffer (gl_objects st) = 0 /\ offset <> 0)
  then set_error GL_INVALID_OPERATION st
  else
    let ap := {| ap_index := index; ap_size := size; ap_stride := stride; ap_offset := offset |} in
    let b := ob_array_buffer (gl_objects st) in
    update_vao (fun va => {| va_pointers := <[index := (ap, b)]> (va_pointers va);
                             va_enabled := va_enabled va |}) st.

Definition glEnableVertexAttribArray (index : Z) st : GLState R :=
  if decide (index < 0 \/ GL_MAX_VERTEX_ATTRIBS <= index) then set_error GL_INVALID_VALUE st
  else update_vao (fun va => {| va_pointers := va_pointers va;
                                va_enabled := {[index]} ∪ va_enabled va |}) st.

(** Lines 148-164, with the table [vertices] of lines 123-143; returns the
    names of the vertex array and of the buffer. *)
Definition vertex_setup (vertices : list float32) st : Z * Z * GLState R :=
  let '(VAO, st) := glGenVertexArrays st in
  let '(VBO, st) := glGenBuffers st in
  let st := glBindVertexArray VAO st in
  let st := glBindBuffer GL_ARRAY_BUFFER VBO st in
  let st := glBufferData GL_ARRAY_BUFFER (buffer_bytes vertices) vertices GL_DYNAMIC_DRAW st in
  let st := glVertexAttribPointer 0 3 GL_FLOAT GL_FALSE (5 * sizeof_float) 0 st in
  let st := glEnableVertexAttribArray 0 st in
  let st := glVertexAttribPointer 1 3 GL_FLOAT GL_FALSE (5 * sizeof_float) (3 * sizeof_float) st in
  let st := glEnableVertexAttribArray 1 st in
  (VAO, VBO, st).

(** [glDeleteVertexArrays(1, &name)] (line 282): [0] and names that are
    not vertex arrays are ignored; deleting the bound vertex array binds
    [0]. *)
Definition glDeleteVertexArrays (vao : Z) st : GLState R :=
  if decide (vao = 0 \/ ob_vaos (gl_objects st) !! vao = None) then st
  else
    let st := update_objects (fun ob => with_vaos (delete vao (ob_vaos ob)) ob) st in
    if decide (gl_vao st = vao) then glBindVertexArray 0 st else st.

(** [glDeleteBuffers(1, &name)] (line 283): [0] and names that are not
    buffers are ignored; a deleted buffer bound to [GL_ARRAY_BUFFER] is
    unbound.  (Attribute pointers of the bound vertex array that name the
    buffer are not reset: [main] deletes the buffer once no vertex array
    is bound.) *)
Definition glDeleteBuffers (b : Z) st : GLState R :=
  if decide (b = 0 \/ ob_buffers (gl_objects st) !! b = None) then st
  else update_objects (fun ob =>
         with_array_buffer (if decide (ob_array_buffer ob = b) then 0 else ob_array_buffer ob)
           (with_buffers (delete b (ob_buffers ob)) ob)) st.

(** ** What a draw fetches *)

(** The enabled attributes of a vertex array, in index order. *)
Definition vao_attribs (va : VertexArray) : list (AttribPointer * Z) :=
  omap (fun i => if decide (i ∈ va_enabled va) then va_pointers va !! i else None)
       (seqZ 0 GL_MAX_VERTEX_ATTRIBS).

Definition attrib_fetch (ob : GLObjects) (p : AttribPointer * Z) (k : Z) : option (list float32) :=
  buf ← ob_buffers ob !! p.2; fetch_attrib buf p.1 k.

(** The attributes [glDrawArrays(mode, first, count)] fetches through the
    bound vertex array, vertex by vertex; [None] when one of them is
    outside its buffer or no vertex array is bound. *)
Definition vao_fetch (ob : GLObjects) (vao first count : Z) : option (list (list (list float32))) :=
  va ← ob_vaos ob !! vao;
  mapM (fun k => mapM (fun p => attrib_fetch ob p k) (vao_attribs va)) (seqZ first count).

Definition draw_reads st (first count : Z) : option (list (list (list float32))) :=
  vao_fetch (gl_objects st) (gl_vao st) first count.
End Calls.

(** The names of a context: [ob_next] is positive and above every name in
    use, so that [glGen*] hands out fresh non-zero names. *)
Definition objects_ok (ob : GLObjects) : Prop :=
  0 < ob_next ob /\
  (forall n, is_Some (ob_vaos ob !! n) -> 0 < n < ob_next ob) /\
  (forall n, is_Some (ob_buffers ob !! n) -> 0 < n < ob_next ob) /\
  (forall n, is_Some (ob_textures ob !! n) -> 0 < n < ob_next ob).

(** ** The calls one by one *)

Section Steps.
Context {R : Type}.
Implicit Types (st : GLState R).

(** The fields other than the objects. *)
Definition same_context st st' : Prop :=
  gl_locations st' = gl_locations st /\ gl_program st' = gl_program st /\
  gl_vao st' = gl_vao st /\ gl_uniforms st' = gl_uniforms st /\
  gl_error st' = gl_error st /\ gl_draws st' = gl_draws st.

Lemma same_context_refl st : same_context st st.
Proof. repeat split. Qed.

Lemma same_context_trans st1 st2 st3 :
  same_context st1 st2 -> same_context st2 st3 -> same_context st1 st3.
Proof. intros (?&?&?&?&?&?) (?&?&?&?&?&?). repeat split; congruence. Qed.

Lemma set_objects_context ob st : same_context st (set_objects ob st).
Proof. repeat split. Qed.

Lemma update_vao_ok (f : VertexArray -> VertexArray) st va :
  ob_vaos (gl_objects st) !! gl_vao st = Some va ->
  same_context st (update_vao f st) /\
  gl_objects (update_vao f st) = with_vaos (<[gl_vao st := f va]> (ob_vaos (gl_objects st))) (gl_objects st).
Proof. intros Hva. unfold update_vao. rewrite Hva. split; [apply set_objects_context | done]. Qed.

Lemma glBindBuffer_ok b st :
  is_Some (ob_buffers (gl_objects st) !! b) ->
  same_context st (glBindBuffer GL_ARRAY_BUFFER b st) /\
  gl_objects (glBindBuffer GL_ARRAY_BUFFER b st) = with_array_buffer b (gl_objects st).
Proof.
  intros Hb. unfold glBindBuffer. rewrite decide_False by (intros []; done).
  rewrite decide_True by (by right). split; [apply set_objects_context | done].
Qed.

Lemma glBufferData_ok size (data : list float32) usage st :
  0 <= size -> ob_array_buffer (gl_objects st) <> 0 ->
  same_context st (glBufferData GL_ARRAY_BUFFER size data usage st) /\
  gl_objects (glBufferData GL_ARRAY_BUFFER size data usage st) =
    with_buffers (<[ob_array_buffer (gl_objects st) := take (Z.to_nat (size / sizeof_float)) data]>
                    (ob_buffers (gl_objects st))) (gl_objects st).
Proof.
  intros Hs Hb. unfold glBufferData. rewrite decide_False by (intros []; done).
  rewrite decide_False by lia. rewrite decide_False by done.
  split; [apply set_objects_context | done].
Qed.

Lemma glVertexAttribPointer_ok index size normalized stride offset st va :
  0 <= index < GL_MAX_VERTEX_ATTRIBS -> 1 <= size <= 4 -> 0 <= stride ->
  ob_array_buffer (gl_objects st) <> 0 ->
  ob_vaos (gl_objects st) !! gl_vao st = Some va ->
  same_context st (glVertexAttribPointer index size GL_FLOAT normalized stride offset st) /\
  gl_objects (glVertexAttribPointer index size GL_FLOAT normalized stride offset st) =
    with_vaos (<[gl_vao st := {| va_pointers :=
        <[index := ({| ap_index := index; ap_size := size; ap_stride := stride;
                       ap_offset := offset |}, ob_array_buffer (gl_objects st))]> (va_pointers va);
        va_enabled := va_enabled va |}]> (ob_vaos (gl_objects st))) (gl_objects st).
Proof.
  intros Hi Hs Hst Hb Hva. unfold glVertexAttribPointer.
  rewrite decide_False by (intros []; done). rewrite decide_False by lia.
  rewrite decide_False by tauto. exact (update_vao_ok _ st va Hva).
Qed.

Lemma glEnableVertexAttribArray_ok index st va :
  0 <= index < GL_MAX_VERTEX_ATTRIBS ->
  ob_vaos (gl_objects st) !! gl_vao st = Some va ->
  same_context st (glEnableVertexAttribArray index st) /\
  gl_objects (glEnableVertexAttribArray index st) =
    with_vaos (<[gl_vao st := {| va_pointers := va_pointers va;
                                 va_enabled := {[index]} ∪ va_enabled va |}]>
                 (ob_vaos (gl_objects st))) (gl_objects st).
Proof.
  intros Hi Hva. unfold glEnableVertexAttribArray. rewrite decide_False by lia.
  exact (update_vao_ok _ st va Hva).
Qed.
End Steps.

(** Projections of updated objects. *)
Ltac ob_simpl_goal :=
  unfold with_next, with_vaos, with_buffers, with_textures, with_array_buffer,
    with_active_texture, with_texture_2d, with_depth_test;
  cbn [ob_next ob_vaos ob_buffers ob_textures ob_array_buffer ob_active_texture
       ob_texture_2d ob_depth_test].
Ltac ob_simpl :=
  unfold with_next, with_vaos, with_buffers, with_textures, with_array_buffer,
    with_active_texture, with_texture_2d, with_depth_test in *;
  cbn [ob_next ob_vaos ob_buffers ob_textures ob_array_buffer ob_active_texture
       ob_texture_2d ob_depth_test] in *.

Section Setup.
Context {R : Type}.
Implicit Types (st : GLState R).

(** The vertex array and the buffer lines 148-164 build. *)
Definition setup_vao (VBO : Z) : VertexArray :=
  {| va_pointers := <[1 := (attrib_texcoord, VBO)]> (<[0 := (attrib_position, VBO)]> ∅);
     va_enabled := {[1]} ∪ ({[0]} ∪ ∅) |}.

(** Its enabled attributes, in index order: the position, then the
    texture coordinate. *)
Lemma vao_attribs_setup (VBO : Z) :
  vao_attribs (setup_vao VBO) = [(attrib_position, VBO); (attrib_texcoord, VBO)].
Proof. reflexivity. Qed.

Lemma take_buffer_bytes (vertices : list float32) :
  take (Z.to_nat (buffer_bytes vertices / sizeof_float)) vertices = vertices.
Proof.
  unfold buffer_bytes, sizeof_float. rewrite Z.mul_comm, Z.div_mul by lia.
  rewrite Nat2Z.id. apply firstn_all.
Qed.

Lemma vertex_setup_spec (vertices : list float32) st :
  objects_ok (gl_objects st) ->
  let '(VAO, VBO, st') := vertex_setup vertices st in
  VAO = ob_next (gl_objects st) /\ VBO = VAO + 1 /\ gl_vao st' = VAO /\
  gl_locations st' = gl_locations st /\ gl_program st' = gl_program st /\
  gl_uniforms st' = gl_uniforms st /\ gl_error st' = gl_error st /\ gl_draws st' = gl_draws st /\
  ob_vaos (gl_objects st') = <[VAO := setup_vao VBO]> (ob_vaos (gl_objects st)) /\
  ob_buffers (gl_objects st') = <[VBO := vertices]> (ob_buffers (gl_objects st)) /\
  ob_next (gl_objects st') = VBO + 1 /\ ob_array_buffer (gl_objects st') = VBO /\
  ob_textures (gl_objects st') = ob_textures (gl_objects st) /\
  ob_active_texture (gl_objects st') = ob_active_texture (gl_objects st).
Proof.
  intros (Hn & Hv & Hb & Ht). unfold vertex_setup, glGenVertexArrays, glGenBuffers.
  cbn [fst snd gl_objects set_objects]. ob_simpl.
  set (ob := gl_objects st) in *. set (n := ob_next ob) in *.
  match goal with |- context [glBindVertexArray n ?s] => set (st2 := s) end.
  destruct (glBindVertexArray_exists n st2) as [Hv3 He3].
  { unfold st2. cbn [gl_objects set_objects]. ob_simpl. by rewrite lookup_insert_eq. }
  set (st3 := glBindVertexArray n st2) in *.
  destruct (glBindBuffer_ok (n + 1) st3) as [Hc4 Ho4].
  { unfold st3. rewrite glBindVertexArray_objects. unfold st2. cbn [gl_objects set_objects].
    ob_simpl. by rewrite lookup_insert_eq. }
  set (st4 := glBindBuffer GL_ARRAY_BUFFER (n + 1) st3) in *. clearbody st4.
  destruct (glBufferData_ok (buffer_bytes vertices) vertices GL_DYNAMIC_DRAW st4) as [Hc5 Ho5].
  { unfold buffer_bytes, sizeof_float. lia. }
  { rewrite Ho4. ob_simpl. lia. }
  set (st5 := glBufferData _ _ _ _ st4) in *. clearbody st5.
  destruct Hc4 as (Hl4 & Hp4 & Hv4 & Hu4 & He4 & Hd4).
  destruct Hc5 as (Hl5 & Hp5 & Hv5 & Hu5 & He5 & Hd5).
  assert (Hva5 : ob_vaos (gl_objects st5) !! gl_vao st5 = Some empty_vertex_array).
  { rewrite Ho5, Hv5, Hv4, Hv3, Ho4. ob_simpl. unfold st3. rewrite glBindVertexArray_objects.
    unfold st2. cbn [gl_objects set_objects]. ob_simpl. by rewrite lookup_insert_eq. }
  assert (Hab5 : ob_array_buffer (gl_objects st5) = n + 1) by (rewrite Ho5, Ho4; ob_simpl; done).
  destruct (glVertexAttribPointer_ok 0 3 GL_FALSE (5 * sizeof_float) 0 st5 _
              ltac:(unfold GL_MAX_VERTEX_ATTRIBS; lia) ltac:(lia)
              ltac:(unfold sizeof_float; lia) ltac:(rewrite Hab5; lia) Hva5) as [Hc6 Ho6].
  set (st6 := glVertexAttribPointer 0 3 _ _ _ _ st5) in *. clearbody st6.
  destruct Hc6 as (Hl6 & Hp6 & Hv6 & Hu6 & He6 & Hd6).
  destruct (glEnableVertexAttribArray_ok 0 st6 _ ltac:(unfold GL_MAX_VERTEX_ATTRIBS; lia)
              ltac:(rewrite Ho6, Hv6; ob_simpl; apply lookup_insert_eq)) as [Hc7 Ho7].
  set (st7 := glEnableVertexAttribArray 0 st6) in *. clearbody st7.
  destruct Hc7 as (Hl7 & Hp7 & Hv7 & Hu7 & He7 & Hd7).
  destruct (glVertexAttribPointer_ok 1 3 GL_FALSE (5 * sizeof_float) (3 * sizeof_float) st7 _
              ltac:(unfold GL_MAX_VERTEX_ATTRIBS; lia) ltac:(lia) ltac:(unfold sizeof_float; lia)
              ltac:(rewrite Ho7, Ho6, Hab5; ob_simpl; lia)
              ltac:(rewrite Ho7, Hv7; ob_simpl; apply lookup_insert_eq)) as [Hc8 Ho8].
  set (st8 := glVertexAttribPointer 1 3 _ _ _ _ st7) in *. clearbody st8.
  destruct Hc8 as (Hl8 & Hp8 & Hv8 & Hu8 & He8 & Hd8).
  destruct (glEnableVertexAttribArray_ok 1 st8 _ ltac:(unfold GL_MAX_VERTEX_ATTRIBS; lia)
              ltac:(rewrite Ho8, Hv8; ob_simpl; apply lookup_insert_eq)) as [Hc9 Ho9].
  set (st9 := glEnableVertexAttribArray 1 st8) in *. clearbody st9.
  destruct Hc9 as (Hl9 & Hp9 & Hv9 & Hu9 & He9 & Hd9).
  assert (Hc3 : gl_locations st3 = gl_locations st /\ gl_program st3 = gl_program st /\
                gl_uniforms st3 = gl_uniforms st /\ gl_draws st3 = gl_draws st /\
                gl_error st3 = gl_error st).
  { rewrite He3. unfold st3. rewrite glBindVertexArray_locations, glBindVertexArray_program,
      glBindVertexArray_uniforms, glBindVertexArray_draws. repeat split. }
  destruct Hc3 as (Hl3 & Hp3 & Hu3 & Hd3 & He3').
  assert (Ho3 : gl_objects st3 = gl_objects st2) by apply glBindVertexArray_objects.
  split; [done|]. split; [done|]. split; [congruence|].
  split; [congruence|]. split; [congruence|]. split; [congruence|]. split; [congruence|].
  split; [congruence|].
  rewrite Ho9; ob_simpl_goal. rewrite Ho8; ob_simpl_goal. rewrite Ho7; ob_simpl_goal.
  rewrite Ho6; ob_simpl_goal. rewrite Ho5; ob_simpl_goal. rewrite Ho4; ob_simpl_goal.
  rewrite Ho3. unfold st2. cbn [gl_objects set_objects]. ob_simpl_goal.
  rewrite Hv8, Hv7, Hv6, Hv5, Hv4, Hv3, !insert_insert_eq, take_buffer_bytes.
  repeat split.
Qed.

Lemma mapM_ext_eq {A B} (f g : A -> option B) (l : list A) :
  (forall x, f x = g x) -> mapM f l = mapM g l.
Proof. intros Hfg. induction l as [|x l IH]; simpl; [done|]. by rewrite Hfg, IH. Qed.

(** Reads through the vertex array lines 148-164 build. *)
Lemma setup_vao_fetch (ob : GLObjects) (VAO VBO : Z) (vertices : list float32) first count :
  ob_vaos ob !! VAO = Some (setup_vao VBO) -> ob_buffers ob !! VBO = Some vertices ->
  vao_fetch ob VAO first count = draw_fetch vertices vertex_layout first count.
Proof.
  intros Hva Hbuf. unfold vao_fetch, draw_fetch. rewrite Hva. simpl.
  apply mapM_ext_eq. intros k. rewrite vao_attribs_setup. unfold attrib_fetch. simpl.
  by rewrite Hbuf.
Qed.

(** Fetches depend on the vertex arrays and buffers only. *)
Lemma vao_fetch_same (ob ob' : GLObjects) vao first count :
  ob_vaos ob' = ob_vaos ob -> ob_buffers ob' = ob_buffers ob ->
  vao_fetch ob' vao first count = vao_fetch ob vao first count.
Proof. intros Hv Hb. unfold vao_fetch, attrib_fetch. by rewrite Hv, Hb. Qed.

(** C23: refinement of the layout.  From any context whose names are in
    order, lines 148-164 raise no error, leave a fresh non-zero vertex
    array bound, and through it every [glDrawArrays(mode, first, count)]
    fetches exactly what [Mesh.draw_fetch] computes for the vertex table
    and the layout [vertex_layout]: the position and the texture
    coordinate of each vertex, or [None] when one lies outside the
    buffer. *)
Theorem vertex_setup_fetch (vertices : list float32) st :
  objects_ok (gl_objects st) ->
  let '(VAO, VBO, st') := vertex_setup vertices st in
  gl_error st' = gl_error st /\ gl_vao st' = VAO /\ 0 < VAO /\
  forall first count, draw_reads st' first count = draw_fetch vertices vertex_layout first count.
Proof.
  intros Hok. pose proof (vertex_setup_spec vertices st Hok) as Hs.
  destruct (vertex_setup vertices st) as [[VAO VBO] st'].
  destruct Hs as (-> & -> & Hv & _ & _ & _ & He & _ & Hvaos & Hbufs & _).
  split; [done|]. split; [done|]. split; [exact (proj1 Hok)|].
  intros first count. unfold draw_reads. rewrite Hv.
  apply (setup_vao_fetch _ _ (ob_next (gl_objects st) + 1));
    [rewrite Hvaos | rewrite Hbufs]; apply lookup_insert_eq.
Qed.
End Setup.

Section Teardown.
Context {R : Type}.
Implicit Types (st : GLState R).

(** Line 282 on the bound vertex array: it is deleted and [0] bound. *)
Lemma glDeleteVertexArrays_bound vao st va :
  vao <> 0 -> ob_vaos (gl_objects st) !! vao = Some va -> gl_vao st = vao ->
  gl_vao (glDeleteVertexArrays vao st) = 0 /\
  gl_error (glDeleteVertexArrays vao st) = gl_error st /\
  gl_draws (glDeleteVertexArrays vao st) = gl_draws st /\
  gl_objects (glDeleteVertexArrays vao st) = with_vaos (delete vao (ob_vaos (gl_objects st))) (gl_objects st).
Proof.
  intros H0 Hva Hb. unfold glDeleteVertexArrays.
  rewrite decide_False by (intros [? | ?]; congruence).
  cbn [update_objects set_objects gl_vao]. rewrite decide_True by done.
  unfold glBindVertexArray. rewrite decide_True by by left. done.
Qed.

(** Line 283 with no vertex array bound: the buffer is deleted and the
    array-buffer binding released if it named it. *)
Lemma glDeleteBuffers_unbound b st :
  b <> 0 -> is_Some (ob_buffers (gl_objects st) !! b) ->
  same_context st (glDeleteBuffers b st) /\
  gl_objects (glDeleteBuffers b st) =
    with_array_buffer (if decide (ob_array_buffer (gl_objects st) = b) then 0
                       else ob_array_buffer (gl_objects st))
      (with_buffers (delete b (ob_buffers (gl_objects st))) (gl_objects st)).
Proof.
  intros H0 [x Hb]. unfold glDeleteBuffers.
  rewrite decide_False by (intros [? | ?]; congruence).
  split; [apply set_objects_context | done].
Qed.
End Teardown.

(** Lines 147-164 keep the name invariant of the objects: from a
    context in which every vertex array, buffer and texture has a
    non-zero name below the counter [ob_next], the set-up leaves a
    context in which this still holds, so the names [glGen*] hands out
    later are fresh. *)
Theorem vertex_setup_objects_ok {R} (vertices : list float32) (st : GLState R) :
  objects_ok (gl_objects st) -> objects_ok (gl_objects (vertex_setup vertices st).2).
Proof.
  intros Hok. pose proof (vertex_setup_spec vertices st Hok) as Hs.
  destruct (vertex_setup vertices st) as [[VAO VBO] st'].
  destruct Hs as (-> & -> & _ & _ & _ & _ & _ & _ & Hv & Hb & Hn & _ & Ht & _).
  destruct Hok as (Hn0 & Hv0 & Hb0 & Ht0). cbn [snd].
  split; [lia|]. rewrite Hv, Hb, Hn, Ht. split; [|split].
  - intros k [x Hx]. destruct (decide (k = ob_next (gl_objects st))) as [->|Hk]; [lia|].
    rewrite lookup_insert_ne in Hx by congruence. specialize (Hv0 k (ex_intro _ x Hx)). lia.
  - intros k [x Hx]. destruct (decide (k = ob_next (gl_objects st) + 1)) as [->|Hk]; [lia|].
    rewrite lookup_insert_ne in Hx by congruence. specialize (Hb0 k (ex_intro _ x Hx)). lia.
  - intros k Hk. specialize (Ht0 k Hk). lia.
Qed.

Lemma objects0_ok : objects_ok objects0.
Proof.
  split; [reflexivity|].
  split; [|split]; intros k [x Hx]; cbn in Hx; rewrite lookup_empty in Hx; discriminate.
Qed.


Lemma vertex_setup_fetch_witness :
  let '(VAO, VBO, st') := vertex_setup vertices (gl_fresh (R:=float32)) in
  gl_error st' = gl_error (gl_fresh (R:=float32)) /\ gl_vao st' = VAO /\ 0 < VAO /\
  forall first count, draw_reads st' first count = draw_fetch vertices vertex_layout first count.
Proof. apply (vertex_setup_fetch vertices gl_fresh). exact objects0_ok. Defined.
