(* ===== verification/Textures.v ===== *)
(** * The texture (lines 168-198)

    [main] creates [texture1], binds it to [GL_TEXTURE_2D] of the active
    unit, sets its wrap modes and filters, loads [res/textures/stone.jpg]
    with stb_image and, when that succeeds, defines level 0 and generates
    the mipmaps; a failure is only printed.  It then sets the wrap modes
    and the filters again, this time with [GL_LINEAR] as minification
    filter.

    The calls act on the texture objects of [GL.GLState] as the OpenGL
    3.3 core specification describes: [glBindTexture] of a name that was
    not generated flags [GL_INVALID_OPERATION]; [glTexImage2D] with a
    negative level or size or a non-zero border flags [GL_INVALID_VALUE];
    [glGenerateMipmap] with no level 0 flags [GL_INVALID_OPERATION]; other
    targets and parameter values flag [GL_INVALID_ENUM].  The pixels are
    not modelled, only which levels exist and their sizes.

    Completeness (3.3 core, section 3.8.14) decides what a shader
    samples: a texture whose level 0 is missing, or whose minification
    filter uses mipmaps while a level is missing, is incomplete, and
    sampling it returns [(0, 0, 0, 1)] (section 2.11.7); [sample] says
    which of the two a sampler reading a unit gets.  What stb_image
    returns is the argument [image] of [texture_setup]: the image size,
    or [None] when the file cannot be loaded. *)

From stdpp Require Import base gmap list.
From S2P Require Import Prelude Scalar Glm GL Mesh VertexArrays.

Local Open Scope Z_scope.

(** [gl.h] constants. *)
Definition GL_TEXTURE_2D : Z := 3553.
Definition GL_TEXTURE0 : Z := 33984.
Definition GL_TEXTURE_MAG_FILTER : Z := 10240.
Definition GL_TEXTURE_MIN_FILTER : Z := 10241.
Definition GL_TEXTURE_WRAP_S : Z := 10242.
Definition GL_TEXTURE_WRAP_T : Z := 10243.
Definition GL_NEAREST : Z := 9728.
Definition GL_LINEAR : Z := 9729.
Definition GL_NEAREST_MIPMAP_NEAREST : Z := 9984.
Definition GL_LINEAR_MIPMAP_NEAREST : Z := 9985.
Definition GL_NEAREST_MIPMAP_LINEAR : Z := 9986.
Definition GL_LINEAR_MIPMAP_LINEAR : Z := 9987.
Definition GL_REPEAT : Z := 10497.
Definition GL_CLAMP_TO_EDGE : Z := 33071.
Definition GL_CLAMP_TO_BORDER : Z := 33069.
Definition GL_MIRRORED_REPEAT : Z := 33648.
Definition GL_RGB : Z := 6407.
Definition GL_UNSIGNED_BYTE : Z := 5121.
(** [GL_MAX_COMBINED_TEXTURE_IMAGE_UNITS], the 3.3 core minimum. *)
Definition GL_MAX_COMBINED_TEXTURE_IMAGE_UNITS : Z := 48.

Definition empty_texture : Texture := {| tex_params := ∅; tex_levels := ∅ |}.

(** A parameter of a texture, or its initial value. *)
Definition tex_param (t : Texture) (pname : Z) : Z :=
  default (if decide (pname = GL_TEXTURE_MIN_FILTER) then GL_NEAREST_MIPMAP_LINEAR
           else if decide (pname = GL_TEXTURE_MAG_FILTER) then GL_LINEAR else GL_REPEAT)
          (tex_params t !! pname).

(** The accepted values of each parameter the program sets. *)
Definition param_ok (pname param : Z) : bool :=
  if decide (pname = GL_TEXTURE_MIN_FILTER) then
    bool_decide (param ∈ [GL_NEAREST; GL_LINEAR; GL_NEAREST_MIPMAP_NEAREST;
                          GL_LINEAR_MIPMAP_NEAREST; GL_NEAREST_MIPMAP_LINEAR; GL_LINEAR_MIPMAP_LINEAR])
  else if decide (pname = GL_TEXTURE_MAG_FILTER) then bool_decide (param ∈ [GL_NEAREST; GL_LINEAR])
  else if decide (pname = GL_TEXTURE_WRAP_S \/ pname = GL_TEXTURE_WRAP_T) then
    bool_decide (param ∈ [GL_REPEAT; GL_CLAMP_TO_EDGE; GL_CLAMP_TO_BORDER; GL_MIRRORED_REPEAT])
  else false.

(** Mipmap level [i] of a [w x h] level 0, and the last level. *)
Definition level_size (w h i : Z) : Z * Z := (Z.max 1 (w / 2 ^ i), Z.max 1 (h / 2 ^ i)).
Definition max_level (w h : Z) : Z := Z.log2 (Z.max w h).

Definition mipmap_filter (f : Z) : bool :=
  bool_decide (f ∈ [GL_NEAREST_MIPMAP_NEAREST; GL_LINEAR_MIPMAP_NEAREST;
                    GL_NEAREST_MIPMAP_LINEAR; GL_LINEAR_MIPMAP_LINEAR]).

(** Texture completeness for a 2D texture. *)
Definition texture_complete (t : Texture) : bool :=
  match tex_levels t !! 0 with
  | Some (w, h) =>
    (0 <? w) && (0 <? h) &&
    (if mipmap_filter (tex_param t GL_TEXTURE_MIN_FILTER) then
       forallb (fun i => bool_decide (tex_levels t !! i = Some (level_size w h i)))
               (seqZ 1 (max_level w h))
     else true)
  | None => false
  end.

(** What a sampler gets from a texture: its texels, or the constant
    [(0, 0, 0, 1)] of an incomplete texture. *)
Inductive Sample := SampleTexels | SampleBlack.

#[export] Instance Sample_eq_dec : EqDecision Sample.
Proof. solve_decision. Defined.

Section Calls.
Context {R : Type}.
Implicit Types (st : GLState R).

(** The name bound to [GL_TEXTURE_2D] of a unit ([0] is the default
    texture). *)
Definition unit_texture st (unit : Z) : Z := default 0 (ob_texture_2d (gl_objects st) !! unit).

Definition bound_texture st : Z := unit_texture st (ob_active_texture (gl_objects st)).

(** The texture a sampler reading texture unit [unit] samples. *)
Definition sample st (unit : Z) : Sample :=
  if texture_complete (default empty_texture (ob_textures (gl_objects st) !! unit_texture st unit))
  then SampleTexels else SampleBlack.

Definition glGenTextures st : Z * GLState R :=
  let ob := gl_objects st in
  let n := ob_next ob in
  (n, set_objects (with_textures (<[n := empty_texture]> (ob_textures ob)) (with_next (n + 1) ob)) st).

Definition glActiveTexture (unit : Z) st : GLState R :=
  if decide (unit < GL_TEXTURE0 \/ GL_TEXTURE0 + GL_MAX_COMBINED_TEXTURE_IMAGE_UNITS <= unit)
  then set_error GL_INVALID_ENUM st
  else update_objects (with_active_texture unit) st.

Definition glBindTexture (target t : Z) st : GLState R :=
  if decide (target <> GL_TEXTURE_2D) then set_error GL_INVALID_ENUM st
  else if decide (t = 0 \/ is_Some (ob_textures (gl_objects st) !! t)) then
    update_objects (fun ob => with_texture_2d (<[ob_active_texture ob := t]> (ob_texture_2d ob)) ob) st
  else set_error GL_INVALID_OPERATION st.

(** The texture bound to [GL_TEXTURE_2D] of the active unit, updated by [f]. *)
Definition update_bound_texture (f : Texture -> Texture) st : GLState R :=
  let t := bound_texture st in
  update_objects (fun ob => with_textures
    (<[t := f (default empty_texture (ob_textures ob !! t))]> (ob_textures ob)) ob) st.

Definition glTexParameteri (target pname param : Z) st : GLState R :=
  if decide (target <> GL_TEXTURE_2D \/ param_ok pname param = false) then set_error GL_INVALID_ENUM st
  else update_bound_texture (fun t => {| tex_params := <[pname := param]> (tex_params t);
                                         tex_levels := tex_levels t |}) st.

Definition glTexImage2D (target level internalformat width height border format type : Z) st
  : GLState R :=
  if decide (target <> GL_TEXTURE_2D) then set_error GL_INVALID_ENUM st
  else if decide (level < 0 \/ width < 0 \/ height < 0 \/ border <> 0) then set_error GL_INVALID_VALUE st
  else update_bound_texture (fun t => {| tex_params := tex_params t;
                                         tex_levels := <[level := (width, height)]> (tex_levels t) |}) st.

(** Levels [0 .. max_level] of a [w x h] level 0. *)
Definition mipmap_levels (w h : Z) : gmap Z (Z * Z) :=
  list_to_map ((fun i => (i, level_size w h i)) <$> seqZ 0 (max_level w h + 1)).

Definition glGenerateMipmap (target : Z) st : GLState R :=
  if decide (target <> GL_TEXTURE_2D) then set_error GL_INVALID_ENUM st
  else match tex_levels (default empty_texture (ob_textures (gl_objects st) !! bound_texture st)) !! 0 with
       | None => set_error GL_INVALID_OPERATION st
       | Some (w, h) =>
         update_bound_texture (fun t => {| tex_params := tex_params t;
                                           tex_levels := mipmap_levels w h |}) st
       end.

(** Lines 168-198, with what [stbi_load] returns; gives the name of the
    texture. *)
Definition texture_setup (image : option (Z * Z)) st : Z * GLState R :=
  let '(texture1, st) := glGenTextures st in
  let st := glBindTexture GL_TEXTURE_2D texture1 st in
  let st := glTexParameteri GL_TEXTURE_2D GL_TEXTURE_WRAP_S GL_REPEAT st in
  let st := glTexParameteri GL_TEXTURE_2D GL_TEXTURE_WRAP_T GL_REPEAT st in
  let st := glTexParameteri GL_TEXTURE_2D GL_TEXTURE_MIN_FILTER GL_LINEAR_MIPMAP_LINEAR st in
  let st := glTexParameteri GL_TEXTURE_2D GL_TEXTURE_MAG_FILTER GL_LINEAR st in
  let st := match image with
            | Some (width, height) =>
              let st := glTexImage2D GL_TEXTURE_2D 0 GL_RGB width height 0 GL_RGB GL_UNSIGNED_BYTE st in
              glGenerateMipmap GL_TEXTURE_2D st
            | None => st
            end in
  let st := glTexParameteri GL_TEXTURE_2D GL_TEXTURE_WRAP_S GL_REPEAT st in
  let st := glTexParameteri GL_TEXTURE_2D GL_TEXTURE_WRAP_T GL_REPEAT st in
  let st := glTexParameteri GL_TEXTURE_2D GL_TEXTURE_MIN_FILTER GL_LINEAR st in
  let st := glTexParameteri GL_TEXTURE_2D GL_TEXTURE_MAG_FILTER GL_LINEAR st in
  (texture1, st).
End Calls.

(** ** The calls one by one *)

Section Steps.
Context {R : Type}.
Implicit Types (st : GLState R).

(** Texture [t], with contents [T], is bound to [GL_TEXTURE_2D] of the
    active unit. *)
Definition tex_state st (t : Z) (T : Texture) : Prop :=
  bound_texture st = t /\ ob_textures (gl_objects st) !! t = Some T.

(** What the texture calls leave alone: the rest of the context, the
    vertex arrays and buffers, and which unit is active. *)
Definition tex_frame st st' : Prop :=
  same_context st st' /\ ob_vaos (gl_objects st') = ob_vaos (gl_objects st) /\
  ob_buffers (gl_objects st') = ob_buffers (gl_objects st) /\
  ob_array_buffer (gl_objects st') = ob_array_buffer (gl_objects st) /\
  ob_next (gl_objects st') = ob_next (gl_objects st) /\
  ob_active_texture (gl_objects st') = ob_active_texture (gl_objects st).

Lemma tex_frame_trans st1 st2 st3 : tex_frame st1 st2 -> tex_frame st2 st3 -> tex_frame st1 st3.
Proof.
  intros (Hc1&?&?&?&?&?) (Hc2&?&?&?&?&?).
  split; [exact (same_context_trans _ _ _ Hc1 Hc2)|]. repeat split; congruence.
Qed.

(** A call that replaces the bound texture's contents by [f T]. *)
Lemma update_bound_texture_ok (f : Texture -> Texture) st t T :
  tex_state st t T ->
  tex_state (update_bound_texture f st) t (f T) /\ tex_frame st (update_bound_texture f st).
Proof.
  intros [Hb HT]. unfold update_bound_texture, update_objects, tex_state, bound_texture, unit_texture in *.
  cbn [gl_objects set_objects]. ob_simpl. rewrite Hb, HT. simpl.
  split; [split; [done | apply lookup_insert_eq]|].
  split; [apply set_objects_context|]. cbn [gl_objects set_objects]. ob_simpl. repeat split.
Qed.

Lemma glTexParameteri_ok pname param st t T :
  param_ok pname param = true -> tex_state st t T ->
  tex_state (glTexParameteri GL_TEXTURE_2D pname param st) t
            {| tex_params := <[pname := param]> (tex_params T); tex_levels := tex_levels T |} /\
  tex_frame st (glTexParameteri GL_TEXTURE_2D pname param st).
Proof.
  intros Hp Hs. unfold glTexParameteri. rewrite decide_False by (intros [[] | ?]; congruence).
  exact (update_bound_texture_ok _ st t T Hs).
Qed.

Lemma glTexImage2D_ok level ifmt w h fmt ty st t T :
  0 <= level -> 0 <= w -> 0 <= h -> tex_state st t T ->
  tex_state (glTexImage2D GL_TEXTURE_2D level ifmt w h 0 fmt ty st) t
            {| tex_params := tex_params T; tex_levels := <[level := (w, h)]> (tex_levels T) |} /\
  tex_frame st (glTexImage2D GL_TEXTURE_2D level ifmt w h 0 fmt ty st).
Proof.
  intros Hl Hw Hh Hs. unfold glTexImage2D. rewrite decide_False by (intros []; done).
  rewrite decide_False by lia. exact (update_bound_texture_ok _ st t T Hs).
Qed.

Lemma glGenerateMipmap_ok st t T w h :
  tex_state st t T -> tex_levels T !! 0 = Some (w, h) ->
  tex_state (glGenerateMipmap GL_TEXTURE_2D st) t
            {| tex_params := tex_params T; tex_levels := mipmap_levels w h |} /\
  tex_frame st (glGenerateMipmap GL_TEXTURE_2D st).
Proof.
  intros Hs H0. pose proof Hs as [Hb HT]. unfold glGenerateMipmap.
  rewrite decide_False by (intros []; done). rewrite Hb, HT. simpl. rewrite H0.
  exact (update_bound_texture_ok _ st t T Hs).
Qed.

Lemma glBindTexture_ok t T st :
  ob_textures (gl_objects st) !! t = Some T ->
  tex_state (glBindTexture GL_TEXTURE_2D t st) t T /\ tex_frame st (glBindTexture GL_TEXTURE_2D t st).
Proof.
  intros HT. unfold glBindTexture. rewrite decide_False by (intros []; done).
  rewrite ?decide_True by (right; by rewrite HT).
  unfold update_objects, tex_state, tex_frame, bound_texture, unit_texture.
  cbn [gl_objects set_objects]. ob_simpl. rewrite lookup_insert_eq. simpl.
  split; [done|]. split; [apply set_objects_context|]. repeat split.
Qed.

Lemma param_ok_setup :
  param_ok GL_TEXTURE_WRAP_S GL_REPEAT = true /\ param_ok GL_TEXTURE_WRAP_T GL_REPEAT = true /\
  param_ok GL_TEXTURE_MIN_FILTER GL_LINEAR_MIPMAP_LINEAR = true /\
  param_ok GL_TEXTURE_MAG_FILTER GL_LINEAR = true /\ param_ok GL_TEXTURE_MIN_FILTER GL_LINEAR = true.
Proof. repeat split. Qed.
End Steps.

(** ** What lines 168-198 leave *)

Section Setup.
Context {R : Type}.
Implicit Types (st : GLState R).

(** The parameters [texture1] ends with: those of lines 171-175, then
    those of lines 194-198 over them. *)
Definition setup_params : gmap Z Z :=
  <[GL_TEXTURE_MAG_FILTER := GL_LINEAR]> (<[GL_TEXTURE_MIN_FILTER := GL_LINEAR]>
  (<[GL_TEXTURE_WRAP_T := GL_REPEAT]> (<[GL_TEXTURE_WRAP_S := GL_REPEAT]>
  (<[GL_TEXTURE_MAG_FILTER := GL_LINEAR]> (<[GL_TEXTURE_MIN_FILTER := GL_LINEAR_MIPMAP_LINEAR]>
  (<[GL_TEXTURE_WRAP_T := GL_REPEAT]> (<[GL_TEXTURE_WRAP_S := GL_REPEAT]> ∅))))))).

(** [texture1] after lines 168-198: its levels are the mipmap chain of the
    loaded image, or none. *)
Definition setup_texture (image : option (Z * Z)) : Texture :=
  {| tex_params := setup_params;
     tex_levels := match image with Some (w, h) => mipmap_levels w h | None => ∅ end |}.

Lemma glGenTextures_ok st :
  let '(t, st') := glGenTextures st in
  t = ob_next (gl_objects st) /\ ob_textures (gl_objects st') !! t = Some empty_texture /\
  same_context st st' /\ ob_vaos (gl_objects st') = ob_vaos (gl_objects st) /\
  ob_buffers (gl_objects st') = ob_buffers (gl_objects st) /\
  ob_array_buffer (gl_objects st') = ob_array_buffer (gl_objects st) /\
  ob_next (gl_objects st') = t + 1 /\
  ob_active_texture (gl_objects st') = ob_active_texture (gl_objects st).
Proof.
  unfold glGenTextures. cbn [gl_objects set_objects]. ob_simpl.
  split; [done|]. split; [apply lookup_insert_eq|]. split; [apply set_objects_context|].
  repeat split.
Qed.

Lemma texture_setup_spec (image : option (Z * Z)) st :
  (forall w h, image = Some (w, h) -> 0 <= w /\ 0 <= h) ->
  let '(t, st') := texture_setup image st in
  t = ob_next (gl_objects st) /\ tex_state st' t (setup_texture image) /\
  same_context st st' /\ ob_vaos (gl_objects st') = ob_vaos (gl_objects st) /\
  ob_buffers (gl_objects st') = ob_buffers (gl_objects st) /\
  ob_array_buffer (gl_objects st') = ob_array_buffer (gl_objects st) /\
  ob_next (gl_objects st') = t + 1 /\
  ob_active_texture (gl_objects st') = ob_active_texture (gl_objects st).
Proof.
  intros Himg. unfold texture_setup.
  pose proof (glGenTextures_ok st) as Hg. destruct (glGenTextures st) as [t st1].
  destruct Hg as (-> & HT1 & Hc1 & Hv1 & Hb1 & Ha1 & Hn1 & Hact1).
  destruct param_ok_setup as (Pws & Pwt & Pmin & Pmag & Pmin').
  destruct (glBindTexture_ok _ _ st1 HT1) as [S2 F2].
  destruct (glTexParameteri_ok _ _ _ _ _ Pws S2) as [S3 F3].
  destruct (glTexParameteri_ok _ _ _ _ _ Pwt S3) as [S4 F4].
  destruct (glTexParameteri_ok _ _ _ _ _ Pmin S4) as [S5 F5].
  destruct (glTexParameteri_ok _ _ _ _ _ Pmag S5) as [S6 F6].
  cbn [tex_params tex_levels empty_texture] in S6.
  set (st6 := glTexParameteri _ _ _ (glTexParameteri _ _ _ (glTexParameteri _ _ _
                (glTexParameteri _ _ _ (glBindTexture _ _ st1))))) in *.
  assert (F26 : tex_frame st1 st6)
    by (apply (tex_frame_trans _ _ _ F2), (tex_frame_trans _ _ _ F3), (tex_frame_trans _ _ _ F4),
          (tex_frame_trans _ _ _ F5); exact F6).
  match goal with
  | |- context [match image with Some _ => _ | None => st6 end] =>
      set (st7 := match image with Some _ => _ | None => st6 end)
  end.
  assert (S7 : tex_state st7 (ob_next (gl_objects st))
                 {| tex_params := <[GL_TEXTURE_MAG_FILTER := GL_LINEAR]> (<[GL_TEXTURE_MIN_FILTER :=
                      GL_LINEAR_MIPMAP_LINEAR]> (<[GL_TEXTURE_WRAP_T := GL_REPEAT]>
                      (<[GL_TEXTURE_WRAP_S := GL_REPEAT]> ∅)));
                    tex_levels := tex_levels (setup_texture image) |} /\ tex_frame st6 st7).
  { unfold st7. destruct image as [[w h]|].
    - destruct (Himg w h eq_refl) as [Hw Hh].
      destruct (glTexImage2D_ok 0 GL_RGB w h GL_RGB GL_UNSIGNED_BYTE _ _ _ ltac:(lia) Hw Hh S6)
        as [S7a F7a].
      destruct (glGenerateMipmap_ok _ _ _ w h S7a ltac:(apply lookup_insert_eq)) as [S7b F7b].
      split; [exact S7b | exact (tex_frame_trans _ _ _ F7a F7b)].
    - split; [exact S6 | repeat split]. }
  destruct S7 as [S7 F7].
  destruct (glTexParameteri_ok _ _ _ _ _ Pws S7) as [S8 F8].
  destruct (glTexParameteri_ok _ _ _ _ _ Pwt S8) as [S9 F9].
  destruct (glTexParameteri_ok _ _ _ _ _ Pmin' S9) as [S10 F10].
  destruct (glTexParameteri_ok _ _ _ _ _ Pmag S10) as [S11 F11].
  assert (F : tex_frame st1 (glTexParameteri GL_TEXTURE_2D GL_TEXTURE_MAG_FILTER GL_LINEAR
                (glTexParameteri GL_TEXTURE_2D GL_TEXTURE_MIN_FILTER GL_LINEAR
                (glTexParameteri GL_TEXTURE_2D GL_TEXTURE_WRAP_T GL_REPEAT
                (glTexParameteri GL_TEXTURE_2D GL_TEXTURE_WRAP_S GL_REPEAT st7)))))
    by (apply (tex_frame_trans _ _ _ F26), (tex_frame_trans _ _ _ F7), (tex_frame_trans _ _ _ F8),
          (tex_frame_trans _ _ _ F9), (tex_frame_trans _ _ _ F10); exact F11).
  destruct F as (Fc & Fv & Fb & Fa & Fn & Fact).
  split; [done|]. split; [exact S11|].
  split; [exact (same_context_trans _ _ _ Hc1 Fc)|]. repeat split; congruence.
Qed.
End Setup.

Lemma setup_min_filter (image : option (Z * Z)) :
  tex_param (setup_texture image) GL_TEXTURE_MIN_FILTER = GL_LINEAR.
Proof. reflexivity. Qed.

Lemma mipmap_levels_0 (w h : Z) : 0 < w -> 0 < h -> mipmap_levels w h !! 0 = Some (w, h).
Proof.
  intros Hw Hh. unfold mipmap_levels, max_level.
  assert (Hq : 0 <= Z.log2 (Z.max w h)) by apply Z.log2_nonneg.
  rewrite seqZ_cons by lia. simpl. rewrite lookup_insert_eq. unfold level_size.
  rewrite Z.pow_0_r, !Z.div_1_r. do 2 f_equal; lia.
Qed.

(** Whether a texture with the final parameters is complete: only its
    level 0 matters, since [GL_LINEAR] does not use mipmaps. *)
Lemma setup_params_complete (levels : gmap Z (Z * Z)) :
  texture_complete {| tex_params := setup_params; tex_levels := levels |} =
  match levels !! 0 with Some (w, h) => (0 <? w) && (0 <? h) | None => false end.
Proof.
  unfold texture_complete. cbn [tex_levels]. destruct (levels !! 0) as [[w h]|]; [|done].
  replace (mipmap_filter _) with false by reflexivity. by rewrite andb_true_r.
Qed.

(** [texture1] is complete exactly when the image was loaded. *)
Lemma setup_texture_complete (image : option (Z * Z)) :
  (forall w h, image = Some (w, h) -> 0 < w /\ 0 < h) ->
  texture_complete (setup_texture image) = if image is Some _ then true else false.
Proof.
  intros Himg. unfold setup_texture. rewrite setup_params_complete. cbn [tex_levels].
  destruct image as [[w h]|]; [|done]. destruct (Himg w h eq_refl) as [Hw Hh].
  rewrite mipmap_levels_0 by done.
  by rewrite (proj2 (Z.ltb_lt 0 w) Hw), (proj2 (Z.ltb_lt 0 h) Hh).
Qed.

Section Claims.
Context {R : Type}.
Implicit Types (st : GLState R).

(** C24: a texture that fails to load leaves the shader sampling black.
    When [stbi_load] fails, lines 168-198 raise no OpenGL error, but
    [texture1] has no level 0, so it is incomplete and a sampler reading
    the active unit gets [(0, 0, 0, 1)] ([SampleBlack]), not a default
    texture. *)
Theorem texture_missing_black st :
  let '(t, st') := texture_setup None st in
  gl_error st' = gl_error st /\ unit_texture st' (ob_active_texture (gl_objects st)) = t /\
  sample st' (ob_active_texture (gl_objects st)) = SampleBlack.
Proof.
  pose proof (texture_setup_spec None st ltac:(discriminate)) as Hs.
  destruct (texture_setup None st) as [t st'].
  destruct Hs as (_ & [Hb HT] & (_&_&_&_&He&_) & _ & _ & _ & _ & Hact).
  unfold bound_texture in Hb. rewrite Hact in Hb.
  split; [done|]. split; [done|]. unfold sample. rewrite Hb, HT. reflexivity.
Qed.

(** C25: a loaded texture is complete, and its mipmaps are never used.
    When [stbi_load] returns a [w x h] image, lines 168-198 raise no
    OpenGL error, [texture1] holds the whole mipmap chain generated at
    line 184 and samples its texels; but the minification filter in force
    is the [GL_LINEAR] of line 197, which overrides the
    [GL_LINEAR_MIPMAP_LINEAR] of line 174, so the texture would be as
    complete, and sampled alike, with level 0 alone. *)
Theorem texture_loaded_complete (w h : Z) st :
  0 < w -> 0 < h ->
  let '(t, st') := texture_setup (Some (w, h)) st in
  gl_error st' = gl_error st /\ unit_texture st' (ob_active_texture (gl_objects st)) = t /\
  sample st' (ob_active_texture (gl_objects st)) = SampleTexels /\
  ob_textures (gl_objects st') !! t = Some (setup_texture (Some (w, h))) /\
  tex_levels (setup_texture (Some (w, h))) = mipmap_levels w h /\
  tex_param (setup_texture (Some (w, h))) GL_TEXTURE_MIN_FILTER = GL_LINEAR /\
  texture_complete {| tex_params := setup_params; tex_levels := {[0 := (w, h)]} |} = true.
Proof.
  intros Hw Hh.
  pose proof (texture_setup_spec (Some (w, h)) st ltac:(intros ?? [= -> ->]; lia)) as Hs.
  destruct (texture_setup (Some (w, h)) st) as [t st'].
  destruct Hs as (_ & [Hb HT] & (_&_&_&_&He&_) & _ & _ & _ & _ & Hact).
  unfold bound_texture in Hb. rewrite Hact in Hb.
  split; [done|]. split; [done|]. split.
  - unfold sample. rewrite Hb, HT. simpl.
    by rewrite setup_texture_complete by (intros ?? [= <- <-]; lia).
  - split; [done|]. split; [done|]. split; [reflexivity|].
    rewrite setup_params_complete, lookup_singleton_eq.
    by rewrite (proj2 (Z.ltb_lt 0 w) Hw), (proj2 (Z.ltb_lt 0 h) Hh).
Qed.
End Claims.

(** ** Witness: a 512 x 512 image in a fresh context *)

Lemma texture_loaded_complete_witness :
  let st := gl_fresh (R:=float32) in
  let '(t, st') := texture_setup (Some (512, 512)) st in
  gl_error st' = gl_error st /\ unit_texture st' (ob_active_texture (gl_objects st)) = t /\
  sample st' (ob_active_texture (gl_objects st)) = SampleTexels /\
  ob_textures (gl_objects st') !! t = Some (setup_texture (Some (512, 512))) /\
  tex_levels (setup_texture (Some (512, 512))) = mipmap_levels 512 512 /\
  tex_param (setup_texture (Some (512, 512))) GL_TEXTURE_MIN_FILTER = GL_LINEAR /\
  texture_complete {| tex_params := setup_params; tex_levels := {[0 := (512, 512)]} |} = true.
Proof. apply (texture_loaded_complete 512 512 gl_fresh); lia. Defined.
