(* ===== verification/Objects.v ===== *)
(** * The OpenGL calls of the program as a state machine

    Every OpenGL call [main] makes is a constructor of [GLCall], with the
    arguments the C call takes; [run_call] runs it on the context with the
    definitions of [GL.v], [VertexArrays.v] and [Textures.v]; [gl_step] is
    the step relation of the machine and [reachable] the contexts some
    sequence of calls leads to from the one GLAD hands over.

    [gl_typed] is the well-formedness of a context that the OpenGL 3.3 core
    specification keeps by rejecting bad arguments: object names are below
    the name counter ([0] only for the default texture), every attribute
    pointer of a vertex array has an index below
    [GL_MAX_VERTEX_ATTRIBS], a size of 1 to 4 components and a
    non-negative stride, every texture parameter has an accepted value
    and every level a non-negative number and size, and every binding
    (vertex array, array buffer, 2D texture of each unit, active unit)
    names a live object or [0].  The theorems: every call, with any
    arguments, keeps [gl_typed], so every reachable context is typed; and
    the set-ups of lines 147-198 ([vertex_setup], [texture_setup]) keep
    it, which [Lifecycle.v] extends to the whole of [main]. *)

From stdpp Require Import base gmap list relations.
From S2P Require Import Prelude Scalar Glm GL Mesh VertexArrays Textures.

Local Open Scope Z_scope.

(** ** The calls *)

Inductive GLCall (R : Type) :=
  | CUseProgram (program : Z)
  | CUniform (loc : Z) (v : UValue R)
  | CDrawArrays (mode first count : Z)
  | CEnable (cap : Z)
  | CViewport (x y width height : Z)
  | CGenVertexArrays
  | CGenBuffers
  | CGenTextures
  | CBindVertexArray (vao : Z)
  | CBindBuffer (target buffer : Z)
  | CBufferData (target size : Z) (data : list float32) (usage : Z)
  | CVertexAttribPointer (index size type normalized stride offset : Z)
  | CEnableVertexAttribArray (index : Z)
  | CDeleteVertexArrays (vao : Z)
  | CDeleteBuffers (buffer : Z)
  | CActiveTexture (unit : Z)
  | CBindTexture (target texture : Z)
  | CTexParameteri (target pname param : Z)
  | CTexImage2D (target level internalformat width height border format type : Z)
  | CGenerateMipmap (target : Z).
Arguments CUseProgram {R} _. Arguments CUniform {R} _ _. Arguments CDrawArrays {R} _ _ _.
Arguments CEnable {R} _. Arguments CViewport {R} _ _ _ _. Arguments CGenVertexArrays {R}.
Arguments CGenBuffers {R}. Arguments CGenTextures {R}. Arguments CBindVertexArray {R} _.
Arguments CBindBuffer {R} _ _. Arguments CBufferData {R} _ _ _ _.
Arguments CVertexAttribPointer {R} _ _ _ _ _ _. Arguments CEnableVertexAttribArray {R} _.
Arguments CDeleteVertexArrays {R} _. Arguments CDeleteBuffers {R} _.
Arguments CActiveTexture {R} _. Arguments CBindTexture {R} _ _.
Arguments CTexParameteri {R} _ _ _. Arguments CTexImage2D {R} _ _ _ _ _ _ _ _.
Arguments CGenerateMipmap {R} _.

Section Machine.
Context {R : Type}.
Implicit Types (st : GLState R) (c : GLCall R).

Definition run_call c st : GLState R :=
  match c with
  | CUseProgram p => glUseProgram p st
  | CUniform loc v => set_uniform loc v st
  | CDrawArrays mode first count => glDrawArrays mode first count st
  | CEnable cap => glEnable cap st
  | CViewport x y w h => glViewport x y w h st
  | CGenVertexArrays => (glGenVertexArrays st).2
  | CGenBuffers => (glGenBuffers st).2
  | CGenTextures => (glGenTextures st).2
  | CBindVertexArray vao => glBindVertexArray vao st
  | CBindBuffer target b => glBindBuffer target b st
  | CBufferData target size data usage => glBufferData target size data usage st
  | CVertexAttribPointer i size ty norm stride off => glVertexAttribPointer i size ty norm stride off st
  | CEnableVertexAttribArray i => glEnableVertexAttribArray i st
  | CDeleteVertexArrays vao => glDeleteVertexArrays vao st
  | CDeleteBuffers b => glDeleteBuffers b st
  | CActiveTexture unit => glActiveTexture unit st
  | CBindTexture target t => glBindTexture target t st
  | CTexParameteri target pname param => glTexParameteri target pname param st
  | CTexImage2D target level ifmt w h border fmt ty =>
      glTexImage2D target level ifmt w h border fmt ty st
  | CGenerateMipmap target => glGenerateMipmap target st
  end.

Definition run_calls (cs : list (GLCall R)) st : GLState R := foldl (fun st c => run_call c st) st cs.

Inductive gl_step : relation (GLState R) :=
  | gl_step_call c st : gl_step st (run_call c st).

Definition reachable st : Prop := rtc gl_step gl_fresh st.
End Machine.

(** ** Well-formed contexts *)

Definition attrib_wf (i : Z) (p : AttribPointer * Z) : Prop :=
  0 <= i < GL_MAX_VERTEX_ATTRIBS /\ ap_index p.1 = i /\ 1 <= ap_size p.1 <= 4 /\ 0 <= ap_stride p.1.

Definition vao_wf (va : VertexArray) : Prop :=
  map_Forall attrib_wf (va_pointers va) /\
  set_Forall (fun i => 0 <= i < GL_MAX_VERTEX_ATTRIBS) (va_enabled va).

Definition texture_wf (T : Texture) : Prop :=
  map_Forall (fun pname v => param_ok pname v = true) (tex_params T) /\
  map_Forall (fun level wh => 0 <= level /\ 0 <= wh.1 /\ 0 <= wh.2) (tex_levels T).

Definition objects_typed (ob : GLObjects) : Prop :=
  0 < ob_next ob /\
  map_Forall (fun n va => 0 < n < ob_next ob /\ vao_wf va) (ob_vaos ob) /\
  map_Forall (fun n _ => 0 < n < ob_next ob) (ob_buffers ob) /\
  map_Forall (fun n T => (n = 0 \/ 0 < n < ob_next ob) /\ texture_wf T) (ob_textures ob) /\
  (ob_array_buffer ob = 0 \/ is_Some (ob_buffers ob !! ob_array_buffer ob)) /\
  GL_TEXTURE0 <= ob_active_texture ob < GL_TEXTURE0 + GL_MAX_COMBINED_TEXTURE_IMAGE_UNITS /\
  map_Forall (fun _ t => t = 0 \/ is_Some (ob_textures ob !! t)) (ob_texture_2d ob).

Definition gl_typed {R} (st : GLState R) : Prop :=
  objects_typed (gl_objects st) /\
  (gl_vao st = 0 \/ is_Some (ob_vaos (gl_objects st) !! gl_vao st)).

(** ** Every call keeps the context well-formed *)

Section Typing.
Context {R : Type}.
Implicit Types (st : GLState R).

Lemma empty_vertex_array_wf : vao_wf empty_vertex_array.
Proof. split; [apply map_Forall_empty | apply set_Forall_empty]. Qed.

Lemma empty_texture_wf : texture_wf empty_texture.
Proof. split; apply map_Forall_empty. Qed.

(** A call that leaves the objects and the vertex-array binding alone. *)
Lemma typed_frame st st' :
  gl_objects st' = gl_objects st -> gl_vao st' = gl_vao st -> gl_typed st -> gl_typed st'.
Proof. intros Ho Hv. unfold gl_typed. by rewrite Ho, Hv. Qed.

Lemma typed_set_error e st : gl_typed st -> gl_typed (set_error e st).
Proof. by apply typed_frame. Qed.

(** New objects with the binding of the vertex array kept. *)
Lemma typed_set_objects ob st :
  objects_typed ob -> (gl_vao st = 0 \/ is_Some (ob_vaos ob !! gl_vao st)) ->
  gl_typed (set_objects ob st).
Proof. by split. Qed.

Lemma typed_glUseProgram p st : gl_typed st -> gl_typed (glUseProgram p st).
Proof. apply typed_frame; [apply glUseProgram_objects | apply glUseProgram_vao]. Qed.

Lemma typed_set_uniform loc (v : UValue R) st : gl_typed st -> gl_typed (set_uniform loc v st).
Proof. apply typed_frame; [apply set_uniform_objects | apply set_uniform_vao]. Qed.

Lemma typed_glDrawArrays mode first count st : gl_typed st -> gl_typed (glDrawArrays mode first count st).
Proof.
  apply typed_frame; [apply glDrawArrays_objects|]. unfold glDrawArrays. by repeat case_decide.
Qed.

Lemma typed_glViewport x y w h st : gl_typed st -> gl_typed (glViewport x y w h st).
Proof. apply typed_frame; unfold glViewport; by case_decide. Qed.

Lemma typed_glEnable cap st : gl_typed st -> gl_typed (glEnable cap st).
Proof. unfold glEnable. case_decide; [|done]. intros [Ho Hv]. by split. Qed.

Lemma typed_glBindVertexArray vao st : gl_typed st -> gl_typed (glBindVertexArray vao st).
Proof.
  intros Hst. unfold glBindVertexArray. case_decide as Hd; [|by apply typed_set_error].
  split; [apply Hst | exact Hd].
Qed.

Lemma typed_glGenVertexArrays st : gl_typed st -> gl_typed (glGenVertexArrays st).2.
Proof.
  intros [(Hn & Hv & Hb & Ht & Hab & Hact & H2d) Hbound]. unfold glGenVertexArrays. cbv zeta. cbn [snd].
  apply typed_set_objects; unfold objects_typed; ob_simpl.
  - split; [lia|]. split; [|split; [|split]]; [..|done].
    + apply map_Forall_insert_2; [split; [lia | apply empty_vertex_array_wf]|].
      eapply map_Forall_impl; [exact Hv|]. intros k va [? ?]. split; [lia | done].
    + eapply map_Forall_impl; [exact Hb|]. intros k x Hk. cbv beta in Hk. lia.
    + eapply map_Forall_impl; [exact Ht|]. intros k T [? ?]. split; [lia | done].
  - destruct Hbound as [-> | Hs]; [by left | right]. rewrite lookup_insert_is_Some'. by right.
Qed.

Lemma typed_glGenBuffers st : gl_typed st -> gl_typed (glGenBuffers st).2.
Proof.
  intros [(Hn & Hv & Hb & Ht & Hab & Hact & H2d) Hbound]. unfold glGenBuffers. cbv zeta. cbn [snd].
  apply typed_set_objects; unfold objects_typed; ob_simpl; [|exact Hbound].
  split; [lia|]. split; [|split; [|split; [|split]]]; [..|done].
  - eapply map_Forall_impl; [exact Hv|]. intros k va [? ?]. split; [lia | done].
  - apply map_Forall_insert_2; [lia|]. eapply map_Forall_impl; [exact Hb|]. intros k x Hk. cbv beta in Hk. lia.
  - eapply map_Forall_impl; [exact Ht|]. intros k T [? ?]. split; [lia | done].
  - destruct Hab as [-> | Hs]; [by left | right]. rewrite lookup_insert_is_Some'. by right.
Qed.

Lemma typed_glGenTextures st : gl_typed st -> gl_typed (glGenTextures st).2.
Proof.
  intros [(Hn & Hv & Hb & Ht & Hab & Hact & H2d) Hbound]. unfold glGenTextures. cbv zeta. cbn [snd].
  apply typed_set_objects; unfold objects_typed; ob_simpl; [|exact Hbound].
  split; [lia|]. split; [|split; [|split; [|split; [|split]]]].
  - eapply map_Forall_impl; [exact Hv|]. intros k va [? ?]. split; [lia | done].
  - eapply map_Forall_impl; [exact Hb|]. intros k x Hk. cbv beta in Hk. lia.
  - apply map_Forall_insert_2; [split; [lia | apply empty_texture_wf]|].
    eapply map_Forall_impl; [exact Ht|]. intros k T [? ?]. split; [lia | done].
  - exact Hab.
  - exact Hact.
  - eapply map_Forall_impl; [exact H2d|]. intros u t [-> | Hs]; [by left | right].
    rewrite lookup_insert_is_Some'. by right.
Qed.

(** The calls on the bound vertex array keep the typing when their update
    does. *)
Lemma typed_update_vao (f : VertexArray -> VertexArray) st :
  (forall va, vao_wf va -> vao_wf (f va)) -> gl_typed st -> gl_typed (update_vao f st).
Proof.
  intros Hf Hst. pose proof Hst as [(Hn & Hv & Hb & Ht & Hab & Hact & H2d) Hbound].
  unfold update_vao.
  destruct (ob_vaos (gl_objects st) !! gl_vao st) as [va|] eqn:E; [|by apply typed_set_error].
  destruct (map_Forall_lookup_1 _ _ _ _ Hv E) as [Hva Hwf].
  unfold update_objects. apply typed_set_objects; unfold objects_typed; ob_simpl.
  - split; [done|]. split; [|do 4 (split; [assumption|]); assumption].
    apply map_Forall_insert_2; [split; [done | by apply Hf] | exact Hv].
  - right. rewrite lookup_insert_is_Some'. by left.
Qed.

(** The texture bound to the active unit is [0] or a live name. *)
Lemma bound_texture_name st :
  gl_typed st -> bound_texture st = 0 \/ 0 < bound_texture st < ob_next (gl_objects st).
Proof.
  intros [(Hn & Hv & Hb & Ht & Hab & Hact & H2d) _]. unfold bound_texture, unit_texture.
  destruct (ob_texture_2d (gl_objects st) !! ob_active_texture (gl_objects st)) as [t|] eqn:E;
    cbn [default]; [|by left].
  destruct (map_Forall_lookup_1 _ _ _ _ H2d E) as [-> | [T HT]]; [by left|].
  destruct (map_Forall_lookup_1 _ _ _ _ Ht HT) as [? _]. done.
Qed.

(** The calls on the bound texture keep the typing when their update
    does. *)
Lemma typed_update_bound_texture (f : Texture -> Texture) st :
  (forall T, texture_wf T -> texture_wf (f T)) -> gl_typed st -> gl_typed (update_bound_texture f st).
Proof.
  intros Hf Hst. pose proof (bound_texture_name st Hst) as Hname.
  destruct Hst as [(Hn & Hv & Hb & Ht & Hab & Hact & H2d) Hbound].
  unfold update_bound_texture, update_objects. set (t := bound_texture st) in *.
  apply typed_set_objects; unfold objects_typed; ob_simpl; [|exact Hbound].
  do 3 (split; [assumption|]). split; [|split; [assumption|]; split; [assumption|]].
  - apply map_Forall_insert_2; [|exact Ht]. split; [exact Hname|]. apply Hf.
    destruct (ob_textures (gl_objects st) !! t) as [T|] eqn:E; cbn [default];
      [exact (proj2 (map_Forall_lookup_1 _ _ _ _ Ht E)) | apply empty_texture_wf].
  - eapply map_Forall_impl; [exact H2d|]. intros u t' [-> | Hs]; [by left | right].
    rewrite lookup_insert_is_Some'. by right.
Qed.

Lemma typed_glBindBuffer target b st : gl_typed st -> gl_typed (glBindBuffer target b st).
Proof.
  intros Hst. unfold glBindBuffer. case_decide; [by apply typed_set_error|].
  case_decide as Hb'; [|by apply typed_set_error].
  destruct Hst as [(Hn & Hv & Hb & Ht & Hab & Hact & H2d) Hbound].
  unfold update_objects. apply typed_set_objects; unfold objects_typed; ob_simpl; [|exact Hbound].
  do 4 (split; [assumption|]). split; [exact Hb' | split; assumption].
Qed.

Lemma typed_glBufferData target size data usage st :
  gl_typed st -> gl_typed (glBufferData target size data usage st).
Proof.
  intros Hst. unfold glBufferData. do 3 (case_decide; [by apply typed_set_error|]).
  destruct Hst as [(Hn & Hv & Hb & Ht & Hab & Hact & H2d) Hbound].
  destruct Hab as [? | [x Hx]]; [done|].
  unfold update_objects. apply typed_set_objects; unfold objects_typed; ob_simpl; [|exact Hbound].
  do 2 (split; [assumption|]). split.
  - apply map_Forall_insert_2; [exact (map_Forall_lookup_1 _ _ _ _ Hb Hx) | exact Hb].
  - split; [assumption|]. split; [right; rewrite lookup_insert_is_Some'; by left | split; assumption].
Qed.

Lemma typed_glVertexAttribPointer index size type normalized stride offset st :
  gl_typed st -> gl_typed (glVertexAttribPointer index size type normalized stride offset st).
Proof.
  intros Hst. unfold glVertexAttribPointer.
  case_decide; [by apply typed_set_error|].
  case_decide as Hargs; [by apply typed_set_error|].
  case_decide; [by apply typed_set_error|].
  apply typed_update_vao; [|exact Hst]. intros va [Hp He]. split; [|exact He].
  apply map_Forall_insert_2; [|exact Hp]. unfold attrib_wf; cbn. lia.
Qed.

Lemma typed_glEnableVertexAttribArray index st :
  gl_typed st -> gl_typed (glEnableVertexAttribArray index st).
Proof.
  intros Hst. unfold glEnableVertexAttribArray. case_decide; [by apply typed_set_error|].
  apply typed_update_vao; [|exact Hst]. intros va [Hp He]. split; [exact Hp|]. cbn.
  apply set_Forall_union; [apply set_Forall_singleton; lia | exact He].
Qed.

Lemma typed_glDeleteVertexArrays vao st : gl_typed st -> gl_typed (glDeleteVertexArrays vao st).
Proof.
  intros Hst. unfold glDeleteVertexArrays. case_decide; [exact Hst|].
  destruct Hst as [(Hn & Hv & Hb & Ht & Hab & Hact & H2d) Hbound].
  assert (Hdel : objects_typed (with_vaos (delete vao (ob_vaos (gl_objects st))) (gl_objects st))).
  { unfold objects_typed; ob_simpl. split; [assumption|].
    split; [by apply map_Forall_delete | do 4 (split; [assumption|]); assumption]. }
  cbn [update_objects set_objects gl_vao]. case_decide.
  - unfold glBindVertexArray. rewrite decide_True by by left. split; [exact Hdel | by left].
  - apply typed_set_objects; [exact Hdel|]. ob_simpl. destruct Hbound as [-> | Hs]; [by left|].
    right. rewrite lookup_delete_is_Some. done.
Qed.

Lemma typed_glDeleteBuffers b st : gl_typed st -> gl_typed (glDeleteBuffers b st).
Proof.
  intros Hst. unfold glDeleteBuffers. case_decide; [exact Hst|].
  destruct Hst as [(Hn & Hv & Hb & Ht & Hab & Hact & H2d) Hbound].
  unfold update_objects. apply typed_set_objects; unfold objects_typed; ob_simpl; [|exact Hbound].
  do 2 (split; [assumption|]). split; [by apply map_Forall_delete|].
  split; [assumption|]. split; [|split; assumption].
  case_decide as Hab'; [by left|]. destruct Hab as [-> | Hs]; [by left | right].
  rewrite lookup_delete_is_Some. done.
Qed.

Lemma typed_glActiveTexture unit st : gl_typed st -> gl_typed (glActiveTexture unit st).
Proof.
  intros Hst. unfold glActiveTexture. case_decide; [by apply typed_set_error|].
  destruct Hst as [(Hn & Hv & Hb & Ht & Hab & Hact & H2d) Hbound].
  unfold update_objects. apply typed_set_objects; unfold objects_typed; ob_simpl; [|exact Hbound].
  do 5 (split; [assumption|]). split; [lia | assumption].
Qed.

Lemma typed_glBindTexture target t st : gl_typed st -> gl_typed (glBindTexture target t st).
Proof.
  intros Hst. unfold glBindTexture. case_decide; [by apply typed_set_error|].
  case_decide as Ht'; [|by apply typed_set_error].
  destruct Hst as [(Hn & Hv & Hb & Ht & Hab & Hact & H2d) Hbound].
  unfold update_objects. apply typed_set_objects; unfold objects_typed; ob_simpl; [|exact Hbound].
  do 6 (split; [assumption|]). by apply map_Forall_insert_2.
Qed.

Lemma typed_glTexParameteri target pname param st :
  gl_typed st -> gl_typed (glTexParameteri target pname param st).
Proof.
  intros Hst. unfold glTexParameteri. case_decide as Hp; [by apply typed_set_error|].
  apply typed_update_bound_texture; [|exact Hst]. intros T [HP HL]. split; [cbn|exact HL].
  apply map_Forall_insert_2; [|exact HP]. destruct (param_ok pname param); [done | tauto].
Qed.

Lemma typed_glTexImage2D target level internalformat width height border format type st :
  gl_typed st -> gl_typed (glTexImage2D target level internalformat width height border format type st).
Proof.
  intros Hst. unfold glTexImage2D. do 2 (case_decide; [by apply typed_set_error|]).
  apply typed_update_bound_texture; [|exact Hst]. intros T [HP HL]. split; [exact HP|cbn].
  apply map_Forall_insert_2; [cbn; lia | exact HL].
Qed.

(** Every level [glGenerateMipmap] defines has a non-negative number and
    a size of at least one texel each way. *)
Lemma mipmap_levels_wf w h :
  map_Forall (fun level wh => 0 <= level /\ 0 <= wh.1 /\ 0 <= wh.2) (mipmap_levels w h).
Proof.
  intros i wh Hi. apply elem_of_list_to_map_2, list_elem_of_fmap in Hi as (j & Hj & Hin).
  simplify_eq. apply elem_of_seqZ in Hin. unfold level_size; cbn. lia.
Qed.

Lemma typed_glGenerateMipmap target st : gl_typed st -> gl_typed (glGenerateMipmap target st).
Proof.
  intros Hst. unfold glGenerateMipmap. case_decide; [by apply typed_set_error|].
  destruct (tex_levels _ !! 0) as [[w h]|]; [|by apply typed_set_error].
  apply typed_update_bound_texture; [|exact Hst]. intros T [HP _]. split; [exact HP|].
  apply mipmap_levels_wf.
Qed.

Lemma typed_glGetUniformLocation p name st :
  gl_typed st -> gl_typed (glGetUniformLocation p name st).2.
Proof. unfold glGetUniformLocation. case_match; [done | by apply typed_set_error]. Qed.

Lemma typed_glUniformMatrix4fv loc m st : gl_typed st -> gl_typed (glUniformMatrix4fv loc m st).
Proof. apply typed_set_uniform. Qed.

Lemma typed_glUniform4f loc x y z w st : gl_typed st -> gl_typed (glUniform4f loc x y z w st).
Proof. apply typed_set_uniform. Qed.

Lemma typed_glUniform1i loc i st : gl_typed st -> gl_typed (glUniform1i loc i st).
Proof. apply typed_set_uniform. Qed.
End Typing.

Create HintDb gl_typed.
#[export] Hint Resolve typed_glUseProgram typed_set_uniform typed_glDrawArrays typed_glViewport
  typed_glEnable typed_glBindVertexArray typed_glGenVertexArrays typed_glGenBuffers
  typed_glGenTextures typed_glBindBuffer typed_glBufferData typed_glVertexAttribPointer
  typed_glEnableVertexAttribArray typed_glDeleteVertexArrays typed_glDeleteBuffers
  typed_glActiveTexture typed_glBindTexture typed_glTexParameteri typed_glTexImage2D
  typed_glGenerateMipmap typed_glGetUniformLocation typed_glUniformMatrix4fv typed_glUniform4f
  typed_glUniform1i : gl_typed.

(** Through a chain of calls, some of which also return a value: each
    [let '(x, st) := e in ...] is split, the state it binds shown typed
    from the one before, and the calls in between discharged by the
    hints; pairs of plain values are split as they are.  [gl_chain]
    carries any property [P] of contexts this way. *)
Ltac gl_chain P solve :=
  repeat match goal with
  | |- context [match ?e with (_, _) => _ end] =>
    let x := fresh "x" in let s := fresh "st" in let E := fresh "E" in
    destruct e as [x s] eqn:E;
    assert (P _ s) by (replace s with e.2 by (rewrite E; reflexivity); solve);
    clear E
  | |- context [match ?e with (_, _) => _ end] => destruct e
  end; cbv zeta; cbn [fst snd]; solve.

Ltac typed_chain := gl_chain @gl_typed ltac:(auto 30 with gl_typed).

Section Reachable.
Context {R : Type}.
Implicit Types (st : GLState R) (c : GLCall R).

(** Every call keeps the context well formed. *)
Lemma run_call_typed c st : gl_typed st -> gl_typed (run_call c st).
Proof. destruct c; cbn [run_call]; auto with gl_typed. Qed.

Lemma run_calls_typed cs st : gl_typed st -> gl_typed (run_calls cs st).
Proof.
  revert st. induction cs as [|c cs IH]; intros st Hst; [exact Hst|].
  apply IH, run_call_typed, Hst.
Qed.

Lemma gl_fresh_typed : gl_typed (@gl_fresh R).
Proof.
  split; [|by left]. unfold objects_typed; cbn. split; [lia|].
  do 3 (split; [apply map_Forall_empty|]). split; [by left|].
  split; [unfold GL_TEXTURE0, GL_MAX_COMBINED_TEXTURE_IMAGE_UNITS; lia | apply map_Forall_empty].
Qed.

(** The states a sequence of calls reaches from the fresh context. *)
Lemma reachable_run_calls cs st : reachable st -> reachable (run_calls cs st).
Proof.
  revert st. induction cs as [|c cs IH]; intros st Hst; [exact Hst|].
  apply IH. eapply rtc_r; [exact Hst | constructor].
Qed.

Lemma typed_vertex_setup (vertices : list float32) st :
  gl_typed st -> gl_typed (vertex_setup vertices st).2.
Proof. intros Hst. unfold vertex_setup. typed_chain. Qed.

Lemma typed_texture_setup (image : option (Z * Z)) st :
  gl_typed st -> gl_typed (texture_setup image st).2.
Proof. intros Hst. unfold texture_setup. destruct image as [[w h]|]; typed_chain. Qed.
End Reachable.

#[export] Hint Resolve typed_vertex_setup typed_texture_setup : gl_typed.

Section ReachableTyped.
Context {R : Type}.
Implicit Types (st : GLState R) (c : GLCall R).

(** The context is always well typed: in every state the calls can reach
    from a fresh context, by induction on the reachability relation. *)
Lemma reachable_typed st : reachable st -> gl_typed st.
Proof.
  revert st. apply rtc_ind_r; [apply gl_fresh_typed|].
  intros st1 st2 _ Hstep IH. destruct Hstep. by apply run_call_typed.
Qed.

Lemma reachable_call c st : reachable st -> reachable (run_call c st).
Proof. intros Hst. eapply rtc_r; [exact Hst | constructor]. Qed.
End ReachableTyped.

(** Each call the set-ups make, recognised as a step of the machine. *)
Create HintDb gl_reach.
#[export] Hint Extern 1 (reachable (glGenVertexArrays ?s).2) =>
  apply (reachable_call CGenVertexArrays s) : gl_reach.
#[export] Hint Extern 1 (reachable (glGenBuffers ?s).2) =>
  apply (reachable_call CGenBuffers s) : gl_reach.
#[export] Hint Extern 1 (reachable (glGenTextures ?s).2) =>
  apply (reachable_call CGenTextures s) : gl_reach.
#[export] Hint Extern 1 (reachable (glBindVertexArray ?a ?s)) =>
  apply (reachable_call (CBindVertexArray a) s) : gl_reach.
#[export] Hint Extern 1 (reachable (glBindBuffer ?t ?b ?s)) =>
  apply (reachable_call (CBindBuffer t b) s) : gl_reach.
#[export] Hint Extern 1 (reachable (glBufferData ?t ?n ?d ?u ?s)) =>
  apply (reachable_call (CBufferData t n d u) s) : gl_reach.
#[export] Hint Extern 1 (reachable (glVertexAttribPointer ?i ?n ?ty ?nm ?str ?o ?s)) =>
  apply (reachable_call (CVertexAttribPointer i n ty nm str o) s) : gl_reach.
#[export] Hint Extern 1 (reachable (glEnableVertexAttribArray ?i ?s)) =>
  apply (reachable_call (CEnableVertexAttribArray i) s) : gl_reach.
#[export] Hint Extern 1 (reachable (glBindTexture ?t ?n ?s)) =>
  apply (reachable_call (CBindTexture t n) s) : gl_reach.
#[export] Hint Extern 1 (reachable (glTexParameteri ?t ?p ?v ?s)) =>
  apply (reachable_call (CTexParameteri t p v) s) : gl_reach.
#[export] Hint Extern 1 (reachable (glTexImage2D ?t ?l ?f ?w ?h ?b ?fm ?ty ?s)) =>
  apply (reachable_call (CTexImage2D t l f w h b fm ty) s) : gl_reach.
#[export] Hint Extern 1 (reachable (glGenerateMipmap ?t ?s)) =>
  apply (reachable_call (CGenerateMipmap t) s) : gl_reach.

Section Setup.
Context {R : Type}.
Implicit Types (st : GLState R).

Lemma reachable_vertex_setup (vertices : list float32) st :
  reachable st -> reachable (vertex_setup vertices st).2.
Proof. intros Hst. unfold vertex_setup. gl_chain @reachable ltac:(auto 20 with gl_reach nocore). Qed.

Lemma reachable_texture_setup (image : option (Z * Z)) st :
  reachable st -> reachable (texture_setup image st).2.
Proof.
  intros Hst. unfold texture_setup.
  destruct image as [[w h]|]; gl_chain @reachable ltac:(auto 20 with gl_reach nocore).
Qed.

(** The set-up of lines 147-198 is a run of the OpenGL call machine
    and leaves the context well typed.  From any context the calls can
    reach, the contexts after [vertex_setup] and then [texture_setup]
    are reachable too, and so they are typed: the name counter is
    positive and above every live vertex array, buffer and texture;
    every attribute pointer has its index below 16 and 1 to 4
    components; every texture parameter has an accepted value and every
    texture level a non-negative number and size; the active unit is one
    of the 48; and the bound vertex array, array buffer and per-unit
    textures are 0 or live objects. *)
Theorem setup_reachable_typed (vertices : list float32) (image : option (Z * Z)) st :
  reachable st ->
  reachable (vertex_setup vertices st).2 /\
  reachable (texture_setup image (vertex_setup vertices st).2).2 /\
  gl_typed (vertex_setup vertices st).2 /\
  gl_typed (texture_setup image (vertex_setup vertices st).2).2.
Proof.
  intros Hst. pose proof (reachable_vertex_setup vertices st Hst) as H1.
  pose proof (reachable_texture_setup image _ H1) as H2.
  split; [exact H1 | split; [exact H2 | split; by apply reachable_typed]].
Qed.
End Setup.

