(* ===== verification/Sierpinski.v ===== *)
(** * The fractal generator [generateSierpinskiTriangle] (main.cpp 43-63)

    [generate_fuel] is the recursive function, state passing on the GL
    context: the base case ([curRec >= maxRec]) uploads [model] and draws
    vertices 0..11; otherwise the root call ([curRec == 0]) first uploads
    the identity and draws vertices 12..17, and then the [for] loop over
    [i = 0..3] recurses on [child model i] (lines 59-60) with [curRec + 1],
    threading the GL state.  The fuel bounds the recursion;
    [generateSierpinskiTriangle] supplies [1 + (maxRec - curRec)], which
    the theorems show is enough and more than enough changes nothing.

    The abstract specification [sierp_spec] lists the draws the call should
    issue, as (first vertex, vertex count, model transform): the outer
    triangle at the root when there is something to subdivide, then one
    12-vertex draw per path of the 4-ary recursion tree, in lexicographic
    order of the paths, with the transform [descend model p].  The caller's
    contract [contract] (the shader is the current program, has a [model]
    uniform, and a vertex array is bound) is what [main] establishes
    before the call (lines 257, 274). *)

From stdpp Require Import base gmap strings list.
From S2P Require Import Prelude Scalar Glm GL Mesh.

Local Open Scope Z_scope.
Open Scope gfx_scope.

(** The [Shader] object of [learnopengl/shader_m.h], passed by value: its
    program id. *)
Record Shader := { ID : Z }.

Section Generator.
Context {R : Type} `{GlmField R}.

(** Lines 45-47 and 52-55: look up the [model] uniform, upload [m], draw
    [count] vertices from [first]. *)
Definition upload_and_draw (newShader : Shader) (m : mat4 R) (first count : Z)
  (st : GLState R) : GLState R :=
  let '(modelLoc, st) := glGetUniformLocation (ID newShader) "model" st in
  let st := glUniformMatrix4fv modelLoc m st in
  glDrawArrays GL_TRIANGLES first count st.

(** Lines 59-60: the transform of child [i],
    [translate(scale(model, vec3(0.5f)), translations[i])]. *)
Definition child (model : mat4 R) (i : nat) : mat4 R :=
  glm_translate (glm_scale model (vec3_splat s_half)) (translation i).

Fixpoint generate_fuel (fuel : nat) (newShader : Shader) (model : mat4 R)
  (maxRec curRec : Z) (st : GLState R) : option (GLState R) :=
  match fuel with
  | O => None
  | S fuel' =>
    if curRec >=? maxRec then
      Some (upload_and_draw newShader model 0 12 st)
    else
      let st := if curRec =? 0
                then upload_and_draw newShader (mat4_diag (s_lit 1 0)) 12 6 st
                else st in
      fold_left
        (fun acc i =>
           match acc with
           | None => None
           | Some st => generate_fuel fuel' newShader (child model i) maxRec (curRec +i 1) st
           end)
        (seq 0 4) (Some st)
  end.

Definition generateSierpinskiTriangle (newShader : Shader) (model : mat4 R)
  (maxRec curRec : Z) (st : GLState R) : option (GLState R) :=
  generate_fuel (S (Z.to_nat (maxRec - curRec))) newShader model maxRec curRec st.

(** ** The specification *)

(** The paths of the 4-ary tree of depth [d], in lexicographic order. *)
Fixpoint paths (d : nat) : list (list nat) :=
  match d with
  | O => [[]]
  | S d => flat_map (fun i => map (cons i) (paths d)) (seq 0 4)
  end.

(** The transform at the end of path [p]. *)
Fixpoint descend (model : mat4 R) (p : list nat) : mat4 R :=
  match p with
  | [] => model
  | i :: p => descend (child model i) p
  end.

Definition leaf_draws (model : mat4 R) (d : nat) : list (Z * Z * mat4 R) :=
  map (fun p => (0, 12, descend model p)) (paths d).

Definition sierp_spec (model : mat4 R) (maxRec curRec : Z) : list (Z * Z * mat4 R) :=
  (if (curRec <? maxRec) && (curRec =? 0) then [(12, 6, mat4_diag (s_lit 1 0))] else []) ++
  leaf_draws model (Z.to_nat (maxRec - curRec)).

(** ** The caller's contract and the draws a call emits *)

Definition contract (sh : Shader) (loc : Z) (st : GLState R) : Prop :=
  gl_program st = ID sh /\ has_uniform st (ID sh) "model" loc /\ loc <> -1 /\ gl_vao st <> 0.

(** The uniforms of the shader other than [model]. *)
Definition base_uniforms (sh : Shader) (loc : Z) (st : GLState R) : gmap Z (UValue R) :=
  delete loc (program_uniforms st (ID sh)).

(** The log entry of a specified draw. *)
Definition draw_of (sh : Shader) (loc : Z) (U : gmap Z (UValue R)) (d : Z * Z * mat4 R)
  : DrawCall R :=
  let '(first, count, m) := d in
  {| dc_mode := GL_TRIANGLES; dc_first := first; dc_count := count; dc_program := ID sh;
     dc_uniforms := <[loc := UMat4 m]> U |}.

(** Going from [st] to [st'] keeps the contract, the program table, the
    error flag and the other uniforms, and appends exactly the draws [D]. *)
Definition emits (sh : Shader) (loc : Z) (st st' : GLState R) (D : list (Z * Z * mat4 R))
  : Prop :=
  contract sh loc st' /\ gl_locations st' = gl_locations st /\ gl_error st' = gl_error st /\
  base_uniforms sh loc st' = base_uniforms sh loc st /\
  gl_draws st' = gl_draws st ++ map (draw_of sh loc (base_uniforms sh loc st)) D.
End Generator.

(** ** Emitting draws *)

Section Emits.
Context {R : Type} `{GlmField R}.
Implicit Types (st : GLState R) (sh : Shader).

Lemma emits_refl sh loc st : contract sh loc st -> emits sh loc st st [].
Proof. intros Hc. repeat split; try apply Hc. simpl. by rewrite app_nil_r. Qed.

Lemma emits_trans sh loc st1 st2 st3 D1 D2 :
  emits sh loc st1 st2 D1 -> emits sh loc st2 st3 D2 -> emits sh loc st1 st3 (D1 ++ D2).
Proof.
  intros (_&Hl1&He1&Hb1&Hd1) (Hc3&Hl2&He2&Hb2&Hd2).
  split; [done|]. split; [congruence|]. split; [congruence|]. split; [congruence|].
  rewrite Hd2, Hd1, Hb1, map_app. by rewrite app_assoc.
Qed.

(** Lines 45-47 under the contract: one draw, with the uploaded [m]. *)
Lemma upload_and_draw_emits sh loc st (m : mat4 R) first count :
  contract sh loc st -> 0 <= first -> 0 <= count ->
  emits sh loc st (upload_and_draw sh m first count st) [(first, count, m)].
Proof.
  intros (Hp&Hu&Hl&Hv) Hf Hn. unfold upload_and_draw.
  rewrite (glGetUniformLocation_found st _ _ loc Hu).
  rewrite <- Hp in Hu.
  destruct (set_uniform_found st "model" loc (UMat4 m) Hu Hl) as ((Hl1&Hp1&Hv1)&He1&Hd1&Hu1).
  unfold glUniformMatrix4fv.
  set (st1 := set_uniform loc (UMat4 m) st) in *.
  destruct (glDrawArrays_ok st1 GL_TRIANGLES first count Hf Hn ltac:(congruence))
    as ((Hl2&Hp2&Hv2)&He2&Hu2&Hd2).
  assert (Hbind : same_binding st (glDrawArrays GL_TRIANGLES first count st1))
    by (repeat split; congruence).
  rewrite Hp in Hu1.
  assert (Hpu : program_uniforms (glDrawArrays GL_TRIANGLES first count st1) (ID sh) =
                <[loc := UMat4 m]> (program_uniforms st (ID sh)))
    by (rewrite (program_uniforms_same st1) by done; done).
  split; [|split; [congruence|split; [congruence|split]]].
  - repeat split; [congruence| |done|congruence].
    apply (has_uniform_binding st); [done|]. congruence.
  - unfold base_uniforms. rewrite Hpu. apply delete_insert_eq.
  - rewrite Hd2, Hd1. simpl. rewrite Hp1, Hp, Hu1. unfold base_uniforms.
    by rewrite insert_delete_eq.
Qed.

(** The [for] loop: children that each emit their draws emit, in
    sequence, the concatenation. *)
Lemma fold_children_emits sh loc (f : nat -> GLState R -> option (GLState R))
    (D : nat -> list (Z * Z * mat4 R)) (l : list nat) st :
  contract sh loc st ->
  (forall i st, In i l -> contract sh loc st ->
     exists st', f i st = Some st' /\ emits sh loc st st' (D i)) ->
  exists st', fold_left (fun acc i => match acc with None => None | Some st => f i st end)
                        l (Some st) = Some st' /\ emits sh loc st st' (flat_map D l).
Proof.
  revert st. induction l as [|i l IH]; intros st Hc Hf; simpl.
  - exists st. split; [done|]. by apply emits_refl.
  - destruct (Hf i st (or_introl eq_refl) Hc) as (st1&->&He1).
    destruct (IH st1 ltac:(apply He1) ltac:(intros; apply Hf; [right|]; auto)) as (st2&->&He2).
    exists st2. split; [done|]. by apply (emits_trans _ _ _ st1).
Qed.
End Emits.

(** ** The generator refines its specification *)

Section Refinement.
Context {R : Type} `{GlmField R}.
Implicit Types (st : GLState R) (sh : Shader) (model : mat4 R).

Lemma leaf_draws_succ model (d : nat) :
  leaf_draws model (S d) = flat_map (fun i => leaf_draws (child model i) d) (seq 0 4).
Proof.
  unfold leaf_draws. cbn [paths]. generalize (seq 0 4) as l.
  induction l as [|i l IH]; simpl; [done|].
  by rewrite map_app, IH, map_map.
Qed.

(** Below the root nothing but leaves. *)
Lemma sierp_spec_below_root model (maxRec curRec : Z) :
  0 <= curRec ->
  sierp_spec model maxRec (curRec + 1) = leaf_draws model (Z.to_nat (maxRec - (curRec + 1))).
Proof.
  intros Hpos. unfold sierp_spec. rewrite (proj2 (Z.eqb_neq (curRec + 1) 0)) by lia.
  by rewrite andb_false_r.
Qed.

Lemma sierp_spec_base model (maxRec curRec : Z) :
  maxRec <= curRec -> sierp_spec model maxRec curRec = [(0, 12, model)].
Proof.
  intros Hge. unfold sierp_spec. rewrite (proj2 (Z.ltb_ge curRec maxRec)) by lia.
  replace (Z.to_nat (maxRec - curRec)) with 0%nat by lia. done.
Qed.

(** The outer-triangle step of a non-base call. *)
Lemma outer_step_emits sh loc model (maxRec curRec : Z) st :
  contract sh loc st -> curRec < maxRec ->
  emits sh loc st
    (if curRec =? 0 then upload_and_draw sh (mat4_diag (s_lit 1 0)) 12 6 st else st)
    (if (curRec <? maxRec) && (curRec =? 0) then [(12, 6, mat4_diag (s_lit 1 0))] else []).
Proof.
  intros Hc Hlt. rewrite (proj2 (Z.ltb_lt _ _) Hlt). simpl.
  destruct (curRec =? 0); [apply upload_and_draw_emits; auto; lia | by apply emits_refl].
Qed.

Theorem generate_fuel_refines sh loc model (maxRec curRec : Z) st (fuel : nat) :
  contract sh loc st -> 0 <= curRec -> maxRec <= INT_MAX ->
  (Z.to_nat (maxRec - curRec) < fuel)%nat ->
  exists st', generate_fuel fuel sh model maxRec curRec st = Some st' /\
              emits sh loc st st' (sierp_spec model maxRec curRec).
Proof.
  revert model curRec st.
  induction fuel as [|fuel IH]; intros model curRec st Hc Hpos Hmax Hfuel; [lia|].
  simpl. rewrite Z.geb_leb. destruct (Z.leb_spec maxRec curRec) as [Hge | Hlt].
  - eexists. split; [reflexivity|]. rewrite sierp_spec_base by done.
    apply upload_and_draw_emits; auto; lia.
  - rewrite int_add_no_wrap by int32_lia.
    pose proof (outer_step_emits sh loc model maxRec curRec st Hc Hlt) as He1.
    edestruct (fold_children_emits sh loc
                 (fun i st => generate_fuel fuel sh (child model i) maxRec (curRec + 1) st)
                 (fun i => leaf_draws (child model i) (Z.to_nat (maxRec - (curRec + 1))))
                 (seq 0 4))
      as (st2 & Hrun & He2); [apply He1 | |].
    + intros i st' _ Hc'. rewrite <- sierp_spec_below_root by done. apply IH; auto; lia.
    + exists st2. split; [exact Hrun|].
      unfold sierp_spec at 1.
      replace (Z.to_nat (maxRec - curRec)) with (S (Z.to_nat (maxRec - (curRec + 1)))) by lia.
      rewrite leaf_draws_succ. eapply emits_trans; eauto.
Qed.

(** The refinement, for the clients of the generator. *)
Lemma generate_emits sh loc model (maxRec curRec : Z) st :
  contract sh loc st -> 0 <= curRec -> maxRec <= INT_MAX ->
  exists st', generateSierpinskiTriangle sh model maxRec curRec st = Some st' /\
              emits sh loc st st' (sierp_spec model maxRec curRec).
Proof. intros Hc Hpos Hmax. apply generate_fuel_refines; auto. Qed.

(** C1: refinement.  Called as [main] calls it, under the caller's
    contract, [generateSierpinskiTriangle] returns, keeps the contract,
    the error flag and the other uniforms, and appends to the draw log
    exactly the draws of [sierp_spec], in its order, each carrying its
    transform in the [model] uniform. *)
Theorem generateSierpinskiTriangle_refines sh loc model (maxRec curRec : Z) st :
  contract sh loc st -> 0 <= curRec -> maxRec <= INT_MAX ->
  exists st', generateSierpinskiTriangle sh model maxRec curRec st = Some st' /\
              emits sh loc st st' (sierp_spec model maxRec curRec).
Proof. intros Hc Hpos Hmax. apply generate_fuel_refines; auto. Qed.
End Refinement.

(** ** Termination: the fuel [generateSierpinskiTriangle] supplies is enough *)

Section Termination.
Context {R : Type} `{GlmField R}.
Implicit Types (st : GLState R) (sh : Shader) (model : mat4 R).

Lemma fold_children_agree (f g : nat -> GLState R -> option (GLState R)) (l : list nat)
    (o : option (GLState R)) :
  (forall i st, In i l -> f i st = g i st /\ is_Some (f i st)) -> is_Some o ->
  fold_left (fun acc i => match acc with None => None | Some st => f i st end) l o =
  fold_left (fun acc i => match acc with None => None | Some st => g i st end) l o /\
  is_Some (fold_left (fun acc i => match acc with None => None | Some st => f i st end) l o).
Proof.
  revert o. induction l as [|i l IH]; intros o Hf [st ->]; simpl; [eauto|].
  destruct (Hf i st (or_introl eq_refl)) as [Heq [st' Hs]].
  rewrite <- Heq, Hs. apply IH; [intros; apply Hf; by right | eauto].
Qed.

Lemma generate_fuel_agree sh model (maxRec curRec : Z) st (fuel1 fuel2 : nat) :
  INT_MIN <= curRec -> maxRec <= INT_MAX ->
  (Z.to_nat (maxRec - curRec) < fuel1)%nat -> (Z.to_nat (maxRec - curRec) < fuel2)%nat ->
  generate_fuel fuel1 sh model maxRec curRec st = generate_fuel fuel2 sh model maxRec curRec st /\
  is_Some (generate_fuel fuel1 sh model maxRec curRec st).
Proof.
  revert fuel2 model curRec st.
  induction fuel1 as [|fuel1 IH]; intros [|fuel2] model curRec st Hmin Hmax H1 H2; try lia.
  cbn [generate_fuel]. destruct (curRec >=? maxRec) eqn:Hge; [eauto|].
  rewrite Z.geb_leb, Z.leb_gt in Hge. rewrite int_add_no_wrap by int32_lia.
  apply (fold_children_agree
           (fun i st => generate_fuel fuel1 sh (child model i) maxRec (curRec + 1) st)
           (fun i st => generate_fuel fuel2 sh (child model i) maxRec (curRec + 1) st)
           (seq 0 4)); [|eauto].
  intros i st' _. apply IH; lia.
Qed.

(** The generator returns from any state. *)
Lemma generate_is_Some sh model (maxRec curRec : Z) st :
  INT_MIN <= curRec -> maxRec <= INT_MAX ->
  is_Some (generateSierpinskiTriangle sh model maxRec curRec st).
Proof.
  intros Hmin Hmax. unfold generateSierpinskiTriangle.
  apply (generate_fuel_agree sh model maxRec curRec st (S (Z.to_nat (maxRec - curRec)))
           (S (Z.to_nat (maxRec - curRec))) Hmin Hmax); lia.
Qed.

(** C2: termination.  From any GL state, [generateSierpinskiTriangle]
    returns (the fuel [1 + (maxRec - curRec)] never runs out), and any
    larger fuel computes the same state: the recursion depth is bounded by
    [maxRec - curRec]. *)
Theorem generate_terminates sh model (maxRec curRec : Z) st (fuel : nat) :
  INT_MIN <= curRec -> maxRec <= INT_MAX -> (Z.to_nat (maxRec - curRec) < fuel)%nat ->
  is_Some (generateSierpinskiTriangle sh model maxRec curRec st) /\
  generate_fuel fuel sh model maxRec curRec st =
    generateSierpinskiTriangle sh model maxRec curRec st.
Proof.
  intros Hmin Hmax Hfuel. unfold generateSierpinskiTriangle.
  destruct (generate_fuel_agree sh model maxRec curRec st fuel
              (S (Z.to_nat (maxRec - curRec))) Hmin Hmax Hfuel ltac:(lia)) as [Heq Hs].
  rewrite <- Heq. auto.
Qed.

(** The generator only uploads uniforms and draws: the objects of the
    context (vertex arrays, buffers, textures) and the bound vertex array
    are left as they are. *)
Lemma upload_and_draw_objects sh (m : mat4 R) first count st :
  gl_objects (upload_and_draw sh m first count st) = gl_objects st /\
  gl_vao (upload_and_draw sh m first count st) = gl_vao st /\
  gl_viewport (upload_and_draw sh m first count st) = gl_viewport st.
Proof.
  unfold upload_and_draw, glUniformMatrix4fv, glGetUniformLocation.
  destruct (gl_locations st !! ID sh); cbn [fst snd]; unfold glDrawArrays;
    repeat case_decide; autorewrite with gl_rw; auto.
Qed.

Lemma generate_fuel_objects sh model (maxRec curRec : Z) st st' (fuel : nat) :
  generate_fuel fuel sh model maxRec curRec st = Some st' ->
  gl_objects st' = gl_objects st /\ gl_vao st' = gl_vao st /\ gl_viewport st' = gl_viewport st.
Proof.
  revert model curRec st st'. induction fuel as [|fuel IH]; intros model curRec st st'; [done|].
  cbn [generate_fuel]. destruct (curRec >=? maxRec).
  - intros [= <-]. apply upload_and_draw_objects.
  - set (st0 := if curRec =? 0 then _ else st).
    assert (Hst0 : gl_objects st0 = gl_objects st /\ gl_vao st0 = gl_vao st /\
                   gl_viewport st0 = gl_viewport st)
      by (unfold st0; destruct (curRec =? 0); [apply upload_and_draw_objects | done]).
    destruct Hst0 as (<- & <- & <-). clearbody st0. revert st0.
    generalize (seq 0 4) as l. induction l as [|i l IHl]; intros st0; simpl; [by intros [= ->]|].
    destruct (generate_fuel fuel sh (child model i) maxRec (curRec +i 1) st0) as [st1|] eqn:E.
    + intros Hf. destruct (IHl st1 Hf) as (-> & -> & ->). exact (IH _ _ _ _ E).
    + intros Hf. exfalso. clear IHl. revert Hf. induction l as [|j l IHl]; simpl; [done | exact IHl].
Qed.
End Termination.

(** ** Exact arithmetic: the child transform *)

Section ExactChild.
Context {R : Type} `{GlmField R} {HR : GlmRing R}.
Add Ring child_ring : s_ring.
Implicit Types (model : mat4 R).


Lemma half_double (a : R) : s_half *s (a +s a) = a.
Proof.
  transitivity ((s_half +s s_half) *s a); [ring|]. rewrite s_half_twice. ring.
Qed.

(** C9: in exact arithmetic child [i] keeps its corner: the offset
    [translations[i]] is mapped where the parent maps it, so the four
    children are the half-size copies anchored at the four corners. *)
Theorem child_fixes_corner model (i : nat) :
  mat4_mul_vec (child model i) (point (translation i)) =
  mat4_mul_vec model (point (translation i)).
Proof.
  unfold child. rewrite scale_translate_point. destruct (translation i) as [x y z].
  cbv [v3_scale v3_add v3x v3y v3z]. by rewrite !half_double.
Qed.
End ExactChild.

(** ** A linked program, for concrete runs

    The program [main] links from [texture.vert]/[texture.frag], with the
    uniform names the code uses, made current with a vertex array bound:
    the state the render loop reaches before the call at line 276. *)

Definition demo_shader : Shader := {| ID := 1 |}.

(** The uniform table of the linked [texture.vert]/[texture.frag]. *)
Definition demo_locations : gmap string Z :=
  {[ "model" := 0; "view" := 1; "projection" := 2; "fractalColor" := 3; "texture1" := 4 ]}.

(** A context with one (empty) vertex array, name [1], and one (empty)
    texture, name [2], bound to unit [GL_TEXTURE0]. *)
Definition demo_objects : GLObjects :=
  {| ob_next := 3; ob_vaos := {[ 1 := {| va_pointers := ∅; va_enabled := ∅ |} ]};
     ob_buffers := ∅; ob_textures := {[ 2 := {| tex_params := ∅; tex_levels := ∅ |} ]};
     ob_array_buffer := 0; ob_active_texture := 33984;
     ob_texture_2d := {[ 33984 := 2 ]}; ob_depth_test := false |}.

Definition demo_gl (R : Type) : GLState R :=
  {| gl_locations := {[ 1 := demo_locations ]};
     gl_program := 1; gl_vao := 1; gl_uniforms := ∅; gl_error := GL_NO_ERROR;
     gl_draws := []; gl_objects := demo_objects; gl_viewport := (0, 0, SCR_WIDTH, SCR_HEIGHT) |}.

Definition demo_state : GLState float32 := demo_gl float32.

Lemma demo_contract : contract demo_shader 0 demo_state.
Proof.
  split; [reflexivity|]. split; [|split; discriminate].
  eexists. split; reflexivity.
Qed.

Lemma generateSierpinskiTriangle_refines_witness :
  exists st', generateSierpinskiTriangle demo_shader mat4_identity 2 0 demo_state = Some st' /\
              emits demo_shader 0 demo_state st' (sierp_spec mat4_identity 2 0).
Proof.
  apply (generateSierpinskiTriangle_refines demo_shader 0 mat4_identity 2 0 demo_state
           demo_contract); unfold INT_MAX; lia.
Defined.

Lemma generate_terminates_witness :
  is_Some (generateSierpinskiTriangle demo_shader mat4_identity 2 0 demo_state) /\
  generate_fuel 7 demo_shader mat4_identity 2 0 demo_state =
    generateSierpinskiTriangle demo_shader mat4_identity 2 0 demo_state.
Proof.
  apply (generate_terminates demo_shader mat4_identity 2 0 demo_state 7);
    [unfold INT_MIN; lia | unfold INT_MAX; lia | simpl; lia].
Defined.

Lemma child_fixes_corner_witness :
  mat4_mul_vec (child (R := Rdefinitions.R) mat4_identity 3) (point (translation 3)) =
  mat4_mul_vec mat4_identity (point (translation 3)).
Proof. apply child_fixes_corner. Defined.

