(* ===== verification/Draws.v ===== *)
(** * What the generator draws

    The observable behaviour of [generateSierpinskiTriangle], read off its
    specification through the refinement theorem of [Sierpinski.v]: which
    paths the leaves are drawn along, how many draws a call issues, which
    vertex ranges they read (and that both read past the vertex buffer),
    the scale of every leaf transform in any arithmetic, and, in exact
    arithmetic, where each leaf transform maps a point. *)

From Stdlib Require Import Finite.
From stdpp Require Import base gmap strings list.
From S2P Require Import Prelude Scalar Glm GL Mesh Sierpinski.

Local Open Scope Z_scope.
Open Scope gfx_scope.

(** ** The paths of the recursion tree *)

Lemma in_paths (d : nat) (p : list nat) :
  In p (paths d) <-> length p = d /\ Forall (fun i => (i < 4)%nat) p.
Proof.
  revert p. induction d as [|d IH]; intros p; cbn [paths].
  - split; [intros [<-|[]]; split; constructor|].
    intros [Hl _]. destruct p; [now left | discriminate].
  - rewrite in_flat_map. split.
    + intros (i & Hi & Hp). apply in_map_iff in Hp as (q & <- & Hq).
      apply IH in Hq as [Hl Hf]. simpl. split; [lia|]. constructor; [|done].
      apply in_seq in Hi. lia.
    + intros [Hl Hf]. destruct p as [|i q]; [discriminate|].
      inversion Hf as [|? ? Hi Hq]; subst. exists i. split; [apply in_seq; lia|].
      apply in_map. apply IH. simpl in Hl. split; [lia|done].
Qed.

Lemma NoDup_cons_images (P : list (list nat)) (l : list nat) :
  NoDup l -> NoDup P -> NoDup (flat_map (fun i => map (cons i) P) l).
Proof.
  intros Hl HP. induction Hl as [|i l Hi Hl IH]; simpl; [constructor|].
  apply NoDup_app. split; [|split; [|done]].
  - apply NoDup_ListNoDup, Finite.Injective_map_NoDup; [intros ? ? Heq; by injection Heq|].
    by apply NoDup_ListNoDup.
  - intros x Hx Hx'. apply list_elem_of_In, in_map_iff in Hx as (q & <- & _).
    apply list_elem_of_In, in_flat_map in Hx' as (j & Hj & Hq).
    apply in_map_iff in Hq as (q' & Heq & _). injection Heq as ->.
    apply Hi, list_elem_of_In, Hj.
Qed.

Lemma length_paths (d : nat) : length (paths d) = (4 ^ d)%nat.
Proof.
  induction d as [|d IH]; [done|]. cbn [paths].
  rewrite (length_flat_map_const (4 ^ d)); [simpl; lia|].
  intros. by rewrite length_map.
Qed.

(** the leaves of a call of depth [d] are drawn along every path
    of [d] choices among the four corners, each exactly once, and nothing
    else: the children of each node use the four offsets, all distinct. *)
Theorem paths_enumerate (d : nat) :
  NoDup (paths d) /\ length (paths d) = (4 ^ d)%nat /\
  (forall p, In p (paths d) <-> length p = d /\ Forall (fun i => (i < 4)%nat) p).
Proof.
  split; [|split; [apply length_paths | apply in_paths]].
  induction d as [|d IH]; cbn [paths]; [repeat constructor; set_solver|].
  apply NoDup_cons_images; [apply NoDup_seq | done].
Qed.

(** ** Draws of a call *)

(** The draws a call appended to the log. *)
Definition new_draws {R} (st st' : GLState R) : list (DrawCall R) :=
  drop (length (gl_draws st)) (gl_draws st').

Section Observed.
Context {R : Type} `{GlmField R}.
Implicit Types (st : GLState R) (sh : Shader) (model : mat4 R).

Lemma length_sierp_spec model (maxRec curRec : Z) :
  length (sierp_spec model maxRec curRec) =
  ((if (curRec <? maxRec)%Z && (curRec =? 0)%Z then 1 else 0) + 4 ^ Z.to_nat (maxRec - curRec))%nat.
Proof.
  unfold sierp_spec, leaf_draws. rewrite length_app, length_map, length_paths.
  by destruct (_ && _).
Qed.

(** The draws appended by a call that [emits] [D]. *)
Lemma emits_new_draws sh loc st st' D :
  emits sh loc st st' D -> new_draws st st' = map (draw_of sh loc (base_uniforms sh loc st)) D.
Proof. intros (_&_&_&_&Hd). unfold new_draws. by rewrite Hd, drop_app_length. Qed.

(** A call that [emits] only appends to the log. *)
Lemma emits_log sh loc st st' D :
  emits sh loc st st' D -> gl_draws st' = gl_draws st ++ new_draws st st'.
Proof. intros (_&_&_&_&Hd). unfold new_draws. by rewrite Hd, drop_app_length. Qed.

(** C3: a call from [main] ([curRec = 0]) issues [4 ^ maxRec] leaf
    draws, plus one draw of the outer triangle when [maxRec > 0]. *)
Theorem generate_draw_count sh loc model (maxRec : Z) st :
  contract sh loc st -> maxRec <= INT_MAX ->
  exists st', generateSierpinskiTriangle sh model maxRec 0 st = Some st' /\
    length (new_draws st st') = ((if (0 <? maxRec)%Z then 1 else 0) + 4 ^ Z.to_nat maxRec)%nat.
Proof.
  intros Hc Hmax.
  destruct (generate_emits sh loc model maxRec 0 st Hc ltac:(lia) Hmax)
    as (st' & Hrun & He).
  exists st'. split; [done|].
  by rewrite (emits_new_draws _ _ _ _ _ He), length_map, length_sierp_spec, Z.sub_0_r, andb_true_r.
Qed.

(** C4: with [maxRec <= 0] the call issues one draw, the 12-vertex
    draw with [model]; the base case returns before the root's outer
    triangle is drawn. *)
Theorem generate_depth0_single_draw sh loc model (maxRec : Z) st :
  contract sh loc st -> maxRec <= 0 ->
  exists st', generateSierpinskiTriangle sh model maxRec 0 st = Some st' /\
    new_draws st st' =
      [{| dc_mode := GL_TRIANGLES; dc_first := 0; dc_count := 12; dc_program := ID sh;
          dc_uniforms := <[loc := UMat4 model]> (base_uniforms sh loc st) |}].
Proof.
  intros Hc Hle.
  destruct (generate_emits sh loc model maxRec 0 st Hc ltac:(lia)
              ltac:(unfold INT_MAX; lia)) as (st' & Hrun & He).
  exists st'. split; [done|]. by rewrite (emits_new_draws _ _ _ _ _ He), sierp_spec_base.
Qed.
End Observed.

(** ** Vertex ranges: every draw reads past the vertex buffer *)

Section Ranges.
Context {R : Type} `{GlmField R}.
Implicit Types (st : GLState R) (sh : Shader) (model : mat4 R).

(** The specified draws are the leaves, vertices 0..11, and the outer
    triangle, vertices 12..17. *)
Lemma sierp_spec_ranges model (maxRec curRec : Z) :
  Forall (fun '(first, count, _) => (first, count) = (0, 12) \/ (first, count) = (12, 6))
         (sierp_spec model maxRec curRec).
Proof.
  unfold sierp_spec, leaf_draws. apply Forall_app. split.
  - destruct (_ && _); [apply Forall_singleton; by right | constructor].
  - apply Forall_forall. intros x Hx. apply list_elem_of_In, in_map_iff in Hx as (p & <- & _). by left.
Qed.

Lemma leaf_and_outer_overrun (first count : Z) :
  (first, count) = (0, 12) \/ (first, count) = (12, 6) ->
  draw_fetch vertices vertex_layout first count = None.
Proof.
  intros Hfc. apply eq_None_not_Some. rewrite draw_fetch_range.
  destruct Hfc as [Hfc | Hfc]; injection Hfc as -> ->; lia.
Qed.

(** C5: with the vertex layout of [main], every draw a call issues
    fetches vertex data past the end of the 240-byte buffer: a leaf draw
    reads the texture attribute of vertex 11 four bytes past the end, the
    outer-triangle draw reads vertices 12..17, which the buffer does not
    have. *)
Theorem generate_draws_overrun sh loc model (maxRec curRec : Z) st :
  contract sh loc st -> 0 <= curRec -> maxRec <= INT_MAX ->
  exists st', generateSierpinskiTriangle sh model maxRec curRec st = Some st' /\
    Forall (fun d => draw_fetch vertices vertex_layout (dc_first d) (dc_count d) = None)
           (new_draws st st').
Proof.
  intros Hc Hpos Hmax.
  destruct (generate_emits sh loc model maxRec curRec st Hc Hpos Hmax)
    as (st' & Hrun & He). exists st'. split; [done|].
  rewrite (emits_new_draws _ _ _ _ _ He). apply Forall_fmap.
  eapply Forall_impl; [apply sierp_spec_ranges|].
  intros [[f c] m] Hfc. by apply leaf_and_outer_overrun.
Qed.
End Ranges.

(** ** The transforms of the leaves *)

Section Scale.
Context {R : Type} `{GlmField R}.
Implicit Types (st : GLState R) (sh : Shader) (model : mat4 R).

(** One level of [glm::scale(model, vec3(0.5f))] on the linear columns. *)
Definition halve_linear (l : vec4 R * vec4 R * vec4 R) : vec4 R * vec4 R * vec4 R :=
  let '(c0, c1, c2) := l in (v4_scale c0 s_half, v4_scale c1 s_half, v4_scale c2 s_half).

Lemma child_linear model (i : nat) :
  linear_part (child model i) = halve_linear (linear_part model).
Proof. unfold child. by rewrite glm_translate_linear, glm_scale_linear. Qed.

Lemma descend_linear model (p : list nat) :
  linear_part (descend model p) = Nat.iter (length p) halve_linear (linear_part model).
Proof.
  revert model. induction p as [|i p IH]; intros model; [done|].
  simpl. rewrite IH, child_linear. apply Nat.iter_swap.
Qed.

(** C7: scale invariant, in any arithmetic.  Every leaf draw of a
    call of depth [d = maxRec - curRec] carries a [model] uniform whose
    first three columns are the root's, multiplied by [0.5f] [d] times,
    component by component, exactly as [glm::scale] computes them. *)
Theorem generate_leaf_scale sh loc model (maxRec curRec : Z) st :
  contract sh loc st -> 0 <= curRec -> maxRec <= INT_MAX ->
  exists st', generateSierpinskiTriangle sh model maxRec curRec st = Some st' /\
    Forall (fun d => dc_first d = 0 ->
              exists m, dc_uniforms d !! loc = Some (UMat4 m) /\
                linear_part m = Nat.iter (Z.to_nat (maxRec - curRec)) halve_linear (linear_part model))
           (new_draws st st').
Proof.
  intros Hc Hpos Hmax.
  destruct (generate_emits sh loc model maxRec curRec st Hc Hpos Hmax)
    as (st' & Hrun & He). exists st'. split; [done|].
  rewrite (emits_new_draws _ _ _ _ _ He). apply Forall_fmap.
  unfold sierp_spec, leaf_draws. apply Forall_app. split.
  - destruct (_ && _); repeat constructor. simpl. discriminate.
  - apply Forall_forall. intros x Hx. apply list_elem_of_In, in_map_iff in Hx as (p & <- & Hp).
    intros _. eexists. simpl. split; [apply lookup_insert_eq|].
    rewrite descend_linear. apply in_paths in Hp as [-> _]. done.
Qed.
End Scale.

(** ** Exact arithmetic: each leaf is a homothetic copy *)

Section Exact.
Context {R : Type} `{GlmField R} {HR : GlmRing R}.
Add Ring draws_ring : s_ring.
Implicit Types (model : mat4 R).

(** The point of the root's frame that the end of path [p] maps [x] to:
    [x -> (x + t) / 2] for each corner offset [t] on the path, innermost
    first. *)
Fixpoint path_point (p : list nat) (x : vec3 R) : vec3 R :=
  match p with
  | [] => x
  | i :: p => v3_scale s_half (v3_add (path_point p x) (translation i))
  end.

(** C8: in exact arithmetic the transform at the end of a path maps
    a point [x] where the root transform maps [path_point p x]: each level
    is the homothety of ratio 1/2 centred on its corner offset, composed
    with the parent's transform. *)
Theorem descend_point model (p : list nat) (x : vec3 R) :
  mat4_mul_vec (descend model p) (point x) = mat4_mul_vec model (point (path_point p x)).
Proof.
  revert model. induction p as [|i p IH]; intros model; [done|].
  simpl. rewrite IH. unfold child. apply scale_translate_point.
Qed.

End Exact.

(** ** Witnesses on the linked program of [Sierpinski.demo_state] *)

Lemma generate_draw_count_witness :
  exists st', generateSierpinskiTriangle demo_shader mat4_identity 2 0 demo_state = Some st' /\
    length (new_draws demo_state st') = (1 + 4 ^ 2)%nat.
Proof.
  apply (generate_draw_count demo_shader 0 mat4_identity 2 demo_state demo_contract).
  unfold INT_MAX. lia.
Defined.

Lemma generate_depth0_single_draw_witness :
  exists st', generateSierpinskiTriangle demo_shader mat4_identity 0 0 demo_state = Some st' /\
    new_draws demo_state st' =
      [{| dc_mode := GL_TRIANGLES; dc_first := 0; dc_count := 12; dc_program := ID demo_shader;
          dc_uniforms := <[0 := UMat4 mat4_identity]> (base_uniforms demo_shader 0 demo_state) |}].
Proof.
  apply (generate_depth0_single_draw demo_shader 0 mat4_identity 0 demo_state demo_contract).
  lia.
Defined.

Lemma generate_draws_overrun_witness :
  exists st', generateSierpinskiTriangle demo_shader mat4_identity 1 0 demo_state = Some st' /\
    Forall (fun d => draw_fetch vertices vertex_layout (dc_first d) (dc_count d) = None)
           (new_draws demo_state st').
Proof.
  apply (generate_draws_overrun demo_shader 0 mat4_identity 1 0 demo_state demo_contract);
    unfold INT_MAX; lia.
Defined.

Lemma generate_leaf_scale_witness :
  exists st', generateSierpinskiTriangle demo_shader mat4_identity 2 0 demo_state = Some st' /\
    Forall (fun d => dc_first d = 0 ->
              exists m, dc_uniforms d !! 0 = Some (UMat4 m) /\
                linear_part m = Nat.iter (Z.to_nat (2 - 0)) halve_linear (linear_part mat4_identity))
           (new_draws demo_state st').
Proof.
  apply (generate_leaf_scale demo_shader 0 mat4_identity 2 0 demo_state demo_contract);
    unfold INT_MAX; lia.
Defined.

Lemma descend_point_witness :
  mat4_mul_vec (descend (R := Rdefinitions.R) mat4_identity [3%nat; 0%nat]) (point (Vec3 (s_zero : Rdefinitions.R) s_zero s_zero)) =
  mat4_mul_vec mat4_identity (point (path_point [3%nat; 0%nat] (Vec3 s_zero s_zero s_zero))).
Proof. apply descend_point. Defined.

