(* ===== verification/RenderLoop.v ===== *)
(** * The render loop of [main] (lines 205-279)

    Each iteration of [while (!glfwWindowShouldClose(window))] is
    [render_frame]: it uploads the [fractalColor] of the previous frame,
    runs the four ImGui widgets on the function-local statics [recursion],
    [xAxis], [yAxis], [fractalColor] (lines 218-226), builds the model,
    view and projection matrices (228-237), binds [texture1] to texture
    unit 0 (253-254), makes the shader current, uploads [texture1],
    [model], [view] and [projection] (257-272), binds
    the vertex array and calls the generator (274-276).  The statics are
    the record [UIState], threaded from frame to frame; what the user does
    with the widgets in a frame is the record [FrameInput].  [render_loop]
    runs one frame per input, until the window is closed (the end of the
    input list).

    The calls whose effect is outside the modelled GL state are left out:
    event polling, [ImGui::NewFrame]/[Render], the viewport and clear
    calls, and [ImGui_ImplOpenGL3_RenderDrawData], which saves and
    restores the program, vertex array and texture bindings it changes.
    [frame_ready] is what [main]'s start-up establishes about the GL
    objects (the vertex array exists, [texture1] is bound to the active
    unit 0); under it the texture rebind changes nothing and a frame
    leaves the objects as they were.
    The ImGui widgets are modelled from their documented behaviour: a
    slider the user drags stores the dragged value clamped to its range,
    a number typed into it (ctrl+click) is stored unclamped, and
    [ColorEdit3] edits the first three floats of the colour.

    The theorems: every frame returns, whatever the user does, and the
    statics stay in the sliders' ranges when the sliders are only dragged
    ([Invariant]); under [main]'s setup a frame issues exactly the
    generator's specified draws with the frame's uniforms, the colour of
    the previous frame, and [4 ^ recursion] leaf draws, bounded only when
    the recursion slider is dragged ([FrameDraws]); and in exact
    arithmetic the model matrix is rigid ([FrameGeometry]). *)

From Stdlib Require Import Reals Lra.
From stdpp Require Import base gmap strings list.
From S2P Require Import Prelude Scalar Glm GL Mesh VertexArrays Textures Sierpinski Draws.

Local Open Scope Z_scope.
Open Scope gfx_scope.

(** ** ImGui widgets *)

(** What the user does with a slider in a frame: drags it to a value, or
    ctrl+clicks it and types a number in. *)
Inductive SliderInput :=
  | SliderDrag (u : Z)
  | SliderTyped (u : Z).

(** [ImGui::SliderInt(label, &v, v_min, v_max)]: [user] is the user's
    action on the slider in this frame, if any.  A drag stores its value
    clamped to [v_min .. v_max].  A typed number is stored as the [int]
    it denotes, without clamping: imgui.h says of the sliders that
    "manually input values aren't clamped, can go off-bounds".  Any
    integer may be typed; [wrap32] makes it the [int] stored, so every
    [int] value is reachable. *)
Definition SliderInt (v : Z) (user : option SliderInput) (v_min v_max : Z) : Z :=
  match user with
  | None => v
  | Some (SliderDrag u) => Z.max v_min (Z.min v_max u)
  | Some (SliderTyped u) => wrap32 u
  end.

(** Was the slider left alone or dragged (not typed into)? *)
Definition slider_dragged (user : option SliderInput) : bool :=
  match user with Some (SliderTyped _) => false | _ => true end.

(** [ImGui::ColorEdit3(label, color)] on the [ImVec4] seen as a float
    array: edits [x], [y], [z] and leaves [w]. *)
Definition ColorEdit3 {R} (c : vec4 R) (user : option (R * R * R)) : vec4 R :=
  match user with
  | None => c
  | Some (r, g, b) => Vec4 r g b (v4w c)
  end.

(** ** The statics of the loop and the user's actions in a frame *)

Record UIState (R : Type) := {
  recursion : Z;
  xAxis : Z;
  yAxis : Z;
  fractalColor : vec4 R
}.
Arguments recursion {R} _. Arguments xAxis {R} _. Arguments yAxis {R} _.
Arguments fractalColor {R} _.

Record FrameInput (R : Type) := {
  in_xAxis : option SliderInput;
  in_yAxis : option SliderInput;
  in_recursion : option SliderInput;
  in_color : option (R * R * R);
  in_framebuffer : N * N
}.
Arguments in_xAxis {R} _. Arguments in_yAxis {R} _. Arguments in_recursion {R} _.
Arguments in_color {R} _. Arguments in_framebuffer {R} _.

Section Frame.
Context {R : Type} `{GlmField R} {HT : GlmTrig R}.

(** Lines 218-219: [static int recursion = 0, xAxis = 0, yAxis = 0;
    static ImVec4 fractalColor = ImVec4(2.0f, 0.1f, 1.4f, 1.5f);]. *)
Definition ui_init : UIState R :=
  {| recursion := 0; xAxis := 0; yAxis := 0;
     fractalColor := Vec4 (s_dec 20 (-1)) (s_dec 1 (-1)) (s_dec 14 (-1)) (s_dec 15 (-1)) |}.

(** Lines 223-226. *)
Definition run_widgets (inp : FrameInput R) (ui : UIState R) : UIState R :=
  {| xAxis := SliderInt (xAxis ui) (in_xAxis inp) 1 360;
     yAxis := SliderInt (yAxis ui) (in_yAxis inp) 1 360;
     recursion := SliderInt (recursion ui) (in_recursion inp) 0 10;
     fractalColor := ColorEdit3 (fractalColor ui) (in_color inp) |}.

(** Lines 228-234: [model] rotated by [xAxis] degrees about the y axis,
    then by [yAxis] degrees about the x axis. *)
Definition frame_model (ui : UIState R) : mat4 R :=
  let model := mat4_diag (s_lit 1 0) in
  let model := glm_rotate model (glm_radians (s_lit (xAxis ui) 0))
                          (Vec3 (s_lit 0 0) (s_lit 1 0) (s_lit 0 0)) in
  glm_rotate model (glm_radians (s_lit (yAxis ui) 0)) (Vec3 (s_lit 1 0) (s_lit 0 0) (s_lit 0 0)).

(** Line 236. *)
Definition frame_view : mat4 R :=
  glm_translate (mat4_diag (s_lit 1 0)) (Vec3 (s_lit 0 0) (s_lit 0 0) (s_opp (s_lit 3 0))).

(** Line 237. *)
Definition frame_projection : mat4 R :=
  glm_perspective (glm_radians (s_lit 45 0)) (s_lit 800 0 /s s_lit 600 0) (s_dec 1 (-1))
                  (s_lit 100 0).

(** [Shader::use()] and [Shader::setMat4(name, mat)] of
    [learnopengl/shader_m.h]. *)
Definition use (sh : Shader) (st : GLState R) : GLState R := glUseProgram (ID sh) st.

Definition setMat4 (sh : Shader) (name : string) (m : mat4 R) (st : GLState R) : GLState R :=
  let '(loc, st) := glGetUniformLocation (ID sh) name st in
  glUniformMatrix4fv loc m st.

(** Lines 245-246: the viewport the frame sets, from the framebuffer size
    [glfwGetFramebufferSize] reports. *)
Definition frame_viewport (inp : FrameInput R) : Z * Z * Z * Z :=
  (0, 0, Z.of_N (fst (in_framebuffer inp)), Z.of_N (snd (in_framebuffer inp))).

(** Where a vertex the shader places at clip coordinates [c] lands in the
    window: perspective division, then the viewport transform
    [x_w = (w / 2) x_d + (x + w / 2)] (OpenGL 3.3 core, 2.12.1). *)
Definition window_coords (vp : Z * Z * Z * Z) (c : vec4 R) : R * R :=
  let '(x, y, w, h) := vp in
  (s_lit w (-1) *s (v4x c /s v4w c) +s (s_lit x 0 +s s_lit w (-1)),
   s_lit h (-1) *s (v4y c /s v4w c) +s (s_lit y 0 +s s_lit h (-1))).

(** One iteration of the loop body. *)
Definition render_frame (ourShader : Shader) (VAO texture1 : Z) (inp : FrameInput R)
    (ui : UIState R) (st : GLState R) : option (UIState R * GLState R) :=
  let '(colorLoc, st) := glGetUniformLocation (ID ourShader) "fractalColor" st in
  let c := fractalColor ui in
  let st := glUniform4f colorLoc (v4x c) (v4y c) (v4z c) (v4w c) st in
  let ui := run_widgets inp ui in
  let model := frame_model ui in
  let view := frame_view in
  let projection := frame_projection in
  let '(display_w, display_h) := in_framebuffer inp in
  let st := glViewport 0 0 (Z.of_N display_w) (Z.of_N display_h) st in
  let st := glActiveTexture GL_TEXTURE0 st in
  let st := glBindTexture GL_TEXTURE_2D texture1 st in
  let st := use ourShader st in
  let '(textureLoc, st) := glGetUniformLocation (ID ourShader) "texture1" st in
  let st := glUniform1i textureLoc 0 st in
  let '(modelLoc, st) := glGetUniformLocation (ID ourShader) "model" st in
  let modelLoc := to_uint32 modelLoc in
  let '(viewLoc, st) := glGetUniformLocation (ID ourShader) "view" st in
  let viewLoc := to_uint32 viewLoc in
  let st := glUniformMatrix4fv (wrap32 modelLoc) model st in
  let st := glUniformMatrix4fv (wrap32 viewLoc) view st in
  let st := setMat4 ourShader "projection" projection st in
  let st := glBindVertexArray VAO st in
  match generateSierpinskiTriangle ourShader model (recursion ui) 0 st with
  | Some st => Some (ui, st)
  | None => None
  end.

(** The loop: one frame per input, until the window closes. *)
Fixpoint render_loop (ourShader : Shader) (VAO texture1 : Z) (inputs : list (FrameInput R))
    (ui : UIState R) (st : GLState R) : option (UIState R * GLState R) :=
  match inputs with
  | [] => Some (ui, st)
  | inp :: inputs =>
    match render_frame ourShader VAO texture1 inp ui st with
    | Some (ui, st) => render_loop ourShader VAO texture1 inputs ui st
    | None => None
    end
  end.
End Frame.

(** ** The statics stay in range and every frame completes *)

Section Invariant.
Context {R : Type} `{GlmField R} {HT : GlmTrig R}.

(** The statics are [int]s. *)
Definition ui_ok (ui : UIState R) : Prop :=
  INT_MIN <= recursion ui <= INT_MAX /\ INT_MIN <= xAxis ui <= INT_MAX /\
  INT_MIN <= yAxis ui <= INT_MAX.

(** The range the sliders' drags keep: the recursion slider's range, and
    for the angles either their initial [0] or the sliders' range. *)
Definition ui_in_range (ui : UIState R) : Prop :=
  0 <= recursion ui <= 10 /\
  (xAxis ui = 0 \/ 1 <= xAxis ui <= 360) /\ (yAxis ui = 0 \/ 1 <= yAxis ui <= 360).

(** No slider of the frame was typed into. *)
Definition frame_dragged (inp : FrameInput R) : bool :=
  slider_dragged (in_xAxis inp) && slider_dragged (in_yAxis inp) &&
  slider_dragged (in_recursion inp).

Lemma SliderInt_int v user lo hi :
  INT_MIN <= lo <= hi -> hi <= INT_MAX -> INT_MIN <= v <= INT_MAX ->
  INT_MIN <= SliderInt v user lo hi <= INT_MAX.
Proof. intros. destruct user as [[u|u]|]; simpl; [lia | apply wrap32_range | lia]. Qed.

Lemma SliderInt_cases v user lo hi :
  lo <= hi -> slider_dragged user = true ->
  SliderInt v user lo hi = v \/ lo <= SliderInt v user lo hi <= hi.
Proof. intros Hle Hd. destruct user as [[u|u]|]; simpl; [right; lia | done | now left]. Qed.

Lemma run_widgets_ok inp ui : ui_ok ui -> ui_ok (run_widgets inp ui).
Proof.
  intros (Hr & Hx & Hy). unfold ui_ok, run_widgets. cbn [recursion xAxis yAxis].
  split; [|split]; apply SliderInt_int; unfold INT_MIN, INT_MAX in *; lia.
Qed.

Lemma run_widgets_in_range inp ui :
  frame_dragged inp = true -> ui_in_range ui -> ui_in_range (run_widgets inp ui).
Proof.
  unfold frame_dragged. intros Hd (Hr & Hx & Hy). apply andb_prop in Hd as [Hd Hdr].
  apply andb_prop in Hd as [Hdx Hdy]. unfold ui_in_range, run_widgets. cbn [recursion xAxis yAxis].
  pose proof (SliderInt_cases (recursion ui) (in_recursion inp) 0 10 ltac:(lia) Hdr).
  pose proof (SliderInt_cases (xAxis ui) (in_xAxis inp) 1 360 ltac:(lia) Hdx).
  pose proof (SliderInt_cases (yAxis ui) (in_yAxis inp) 1 360 ltac:(lia) Hdy).
  lia.
Qed.

Lemma ui_init_ok : ui_ok ui_init.
Proof. unfold ui_ok; simpl; int32_lia. Qed.

Lemma ui_init_in_range : ui_in_range ui_init.
Proof. unfold ui_in_range; simpl; lia. Qed.

(** Split the [let '(x, st) := ... in] of the loop body. *)
Ltac split_lets :=
  repeat match goal with
         | |- context [match ?e with pair _ _ => _ end] => destruct e
         end.

(** Every frame returns, with the statics updated by the widgets. *)
Lemma render_frame_returns sh VAO texture1 inp ui st :
  ui_ok ui -> exists st', render_frame sh VAO texture1 inp ui st = Some (run_widgets inp ui, st').
Proof.
  intros Hok. destruct (run_widgets_ok inp ui Hok) as (Hr & _).
  unfold render_frame. split_lets.
  match goal with
  | |- context [generateSierpinskiTriangle ?sh' ?m ?r 0 ?s] =>
      destruct (generate_is_Some sh' m r 0 s) as [st' Hs]
  end; [int32_lia | int32_lia |].
  rewrite Hs. eauto.
Qed.

(** The statics after a run of frames. *)
Definition loop_ui (inputs : list (FrameInput R)) (ui : UIState R) : UIState R :=
  foldl (fun ui inp => run_widgets inp ui) ui inputs.

(** The loop returns from any statics, with the statics the widgets
    leave. *)
Lemma render_loop_returns sh VAO texture1 (inputs : list (FrameInput R)) ui st :
  ui_ok ui -> exists st', render_loop sh VAO texture1 inputs ui st = Some (loop_ui inputs ui, st') /\
    ui_ok (loop_ui inputs ui).
Proof.
  revert ui st. induction inputs as [|inp inputs IH]; intros ui st Hok; simpl; [eauto|].
  destruct (render_frame_returns sh VAO texture1 inp ui st Hok) as [st' ->].
  apply IH. by apply run_widgets_ok.
Qed.

Lemma loop_ui_in_range (inputs : list (FrameInput R)) ui :
  forallb frame_dragged inputs = true -> ui_in_range ui -> ui_in_range (loop_ui inputs ui).
Proof.
  revert ui. induction inputs as [|inp inputs IH]; intros ui Hd Hr; [exact Hr|].
  cbn in Hd. apply andb_prop in Hd as [Hd1 Hd2]. apply IH; [exact Hd2|].
  by apply run_widgets_in_range.
Qed.

(** C12: the render loop runs every frame to completion, whatever the
    user does, and leaves the statics the widgets set, each an [int].
    They stay in the sliders' ranges ([recursion] in [0..10], each angle
    [0] until its slider is first moved and in [1..360] from then on)
    when the user only drags the sliders; a number typed into a slider
    is kept as typed. *)
Theorem render_loop_runs sh VAO texture1 (inputs : list (FrameInput R)) st :
  exists st', render_loop sh VAO texture1 inputs ui_init st = Some (loop_ui inputs ui_init, st') /\
    ui_ok (loop_ui inputs ui_init) /\
    (forallb frame_dragged inputs = true -> ui_in_range (loop_ui inputs ui_init)).
Proof.
  destruct (render_loop_returns sh VAO texture1 inputs ui_init st ui_init_ok) as (st' & Hrun & Hok).
  exists st'. split; [exact Hrun|]. split; [exact Hok|].
  intros Hd. exact (loop_ui_in_range inputs ui_init Hd ui_init_in_range).
Qed.
End Invariant.

(** ** What a frame uploads and draws *)

Section FrameDraws.
Context {R : Type} `{GlmField R} {HT : GlmTrig R}.
Implicit Types (st : GLState R) (sh : Shader) (L : gmap string Z).

(** The uniform values of the shader after lines 220-272: the colour of
    the previous frame, [texture1 = 0], and this frame's matrices. *)
Definition frame_uniforms L (ui ui' : UIState R) (U : gmap Z (UValue R)) : gmap Z (UValue R) :=
  let c := fractalColor ui in
  uniform_after L "projection" (UMat4 frame_projection)
    (uniform_after L "view" (UMat4 frame_view)
      (uniform_after L "model" (UMat4 (frame_model ui'))
        (uniform_after L "texture1" (UInt 0)
          (uniform_after L "fractalColor" (UVec4 (Vec4 (v4x c) (v4y c) (v4z c) (v4w c))) U)))).

(** The shader is current and linked with the table [L]. *)
Definition current_linked sh L st : Prop :=
  gl_program st = ID sh /\ gl_locations st !! ID sh = Some L /\ well_linked L.

(** The objects a frame relies on, as [main] leaves them: the vertex
    array it binds exists and is not [0], unit [GL_TEXTURE0] is active and
    has [texture1] bound. *)
Definition frame_ready (VAO texture1 : Z) (ob : GLObjects) : Prop :=
  VAO <> 0 /\ is_Some (ob_vaos ob !! VAO) /\ ob_active_texture ob = GL_TEXTURE0 /\
  ob_texture_2d ob !! GL_TEXTURE0 = Some texture1 /\
  (texture1 = 0 \/ is_Some (ob_textures ob !! texture1)).

(** Lines 253-254 then rebind what is already bound: they change nothing. *)
Lemma rebind_texture_id VAO texture1 st :
  frame_ready VAO texture1 (gl_objects st) ->
  glBindTexture GL_TEXTURE_2D texture1 (glActiveTexture GL_TEXTURE0 st) = st.
Proof.
  intros (_ & _ & Ha & Hb & Ht). unfold glActiveTexture.
  rewrite decide_False by (unfold GL_TEXTURE0, GL_MAX_COMBINED_TEXTURE_IMAGE_UNITS; lia).
  assert (Hid : with_active_texture GL_TEXTURE0 (gl_objects st) = gl_objects st)
    by (destruct st as [? ? ? ? ? ? []]; cbn in *; by subst).
  unfold update_objects. rewrite Hid, set_objects_id.
  unfold glBindTexture. rewrite decide_False by (intros []; done). rewrite decide_True by done.
  unfold update_objects. rewrite Ha, insert_id by done.
  assert (Hid' : with_texture_2d (ob_texture_2d (gl_objects st)) (gl_objects st) = gl_objects st)
    by (destruct st as [? ? ? ? ? ? []]; reflexivity).
  by rewrite Hid', set_objects_id.
Qed.

Lemma upload_step sh L st name (v : UValue R) :
  current_linked sh L st ->
  current_linked sh L (set_uniform (default (-1) (L !! name)) v st) /\
  gl_error (set_uniform (default (-1) (L !! name)) v st) = gl_error st /\
  program_uniforms (set_uniform (default (-1) (L !! name)) v st) (ID sh) =
    uniform_after L name v (program_uniforms st (ID sh)).
Proof.
  intros (Hp & HL & Hw). rewrite <- Hp in HL.
  destruct (set_uniform_by_name st L name v HL Hw) as [He Hu].
  rewrite Hp in Hu, HL. unfold current_linked.
  rewrite set_uniform_program, set_uniform_locations. auto.
Qed.

(** Lines 220-274 leave the shader current with the frame's uniforms and
    raise no error. *)
Lemma frame_prelude sh L VAO (ui ui' : UIState R) (vp : Z * Z * Z * Z) st :
  current_linked sh L st -> is_Some (ob_vaos (gl_objects st) !! VAO) ->
  let c := fractalColor ui in
  let st1 := set_uniform (default (-1) (L !! "fractalColor"))
               (UVec4 (Vec4 (v4x c) (v4y c) (v4z c) (v4w c))) st in
  let st2 := set_uniform (default (-1) (L !! "texture1")) (UInt 0)
               (glUseProgram (ID sh) (set_viewport vp st1)) in
  let st3 := set_uniform (default (-1) (L !! "model")) (UMat4 (frame_model ui')) st2 in
  let st4 := set_uniform (default (-1) (L !! "view")) (UMat4 frame_view) st3 in
  let st5 := set_uniform (default (-1) (L !! "projection")) (UMat4 frame_projection) st4 in
  let st6 := glBindVertexArray VAO st5 in
  current_linked sh L st6 /\ gl_vao st6 = VAO /\ gl_error st6 = gl_error st /\
  gl_objects st6 = gl_objects st /\ gl_viewport st6 = vp /\
  program_uniforms st6 (ID sh) = frame_uniforms L ui ui' (program_uniforms st (ID sh)).
Proof.
  intros Hc Hv. cbv zeta.
  destruct (upload_step sh L st "fractalColor" (UVec4 (Vec4 (v4x (fractalColor ui))
              (v4y (fractalColor ui)) (v4z (fractalColor ui)) (v4w (fractalColor ui)))) Hc)
    as ((Hp1 & HL1 & Hw) & He1 & Hu1).
  pose proof (glUseProgram_linked (ID sh) (set_viewport vp _) L HL1) as [Hp1' He1'].
  assert (Hc1' : current_linked sh L (glUseProgram (ID sh) (set_viewport vp (set_uniform
             (default (-1) (L !! "fractalColor")) (UVec4 (Vec4 (v4x (fractalColor ui))
             (v4y (fractalColor ui)) (v4z (fractalColor ui)) (v4w (fractalColor ui)))) st))))
    by (split; [done | split; [by rewrite glUseProgram_locations, set_viewport_locations | done]]).
  destruct (upload_step sh L _ "texture1" (UInt 0) Hc1') as (Hc2 & He2 & Hu2).
  destruct (upload_step sh L _ "model" (UMat4 (frame_model ui')) Hc2) as (Hc3 & He3 & Hu3).
  destruct (upload_step sh L _ "view" (UMat4 frame_view) Hc3) as (Hc4 & He4 & Hu4).
  destruct (upload_step sh L _ "projection" (UMat4 frame_projection) Hc4)
    as ((Hp5 & HL5 & _) & He5 & Hu5).
  match goal with
  | |- context [glBindVertexArray VAO ?s] =>
      destruct (glBindVertexArray_exists VAO s) as [Hv6 He6];
        [by autorewrite with gl_rw | rewrite Hv6, He6]
  end.
  unfold current_linked.
  rewrite glBindVertexArray_program, glBindVertexArray_locations, glBindVertexArray_objects,
    (program_uniforms_same _ _ _ (glBindVertexArray_uniforms _ _)).
  split; [auto|]. split; [done|]. split; [rewrite He5, He4, He3, He2, He1', set_viewport_error; congruence|]. split; [by autorewrite with gl_rw|].
  split; [by autorewrite with gl_rw|].
  rewrite Hu5, Hu4, Hu3, Hu2.
  rewrite (program_uniforms_same _ _ _ (glUseProgram_uniforms _ _)).
  rewrite (program_uniforms_same _ _ _ (set_viewport_uniforms _ _)). by rewrite Hu1.
Qed.
(** Two states with the same log have the same new draws. *)
Lemma new_draws_from_same st0 st st' :
  gl_draws st0 = gl_draws st -> new_draws st st' = new_draws st0 st'.
Proof. intros Hd. unfold new_draws. by rewrite Hd. Qed.

(** The statics after each frame's widgets, frame by frame. *)
Fixpoint loop_statics (inputs : list (FrameInput R)) (ui : UIState R) : list (UIState R) :=
  match inputs with
  | [] => []
  | inp :: inputs => run_widgets inp ui :: loop_statics inputs (run_widgets inp ui)
  end.

(** The draws of a frame whose statics are [ui]: the leaves, and the
    outer triangle when [recursion > 0]. *)
Definition frame_draws (ui : UIState R) : nat :=
  ((if (0 <? recursion ui)%Z then 1 else 0) + 4 ^ Z.to_nat (recursion ui))%nat.

(** The whole effect of a frame under [main]'s setup. *)
Lemma render_frame_spec sh VAO texture1 inp (ui : UIState R) st L (lm : Z) :
  current_linked sh L st -> L !! "model" = Some lm -> frame_ready VAO texture1 (gl_objects st) -> ui_ok ui ->
  exists st', render_frame sh VAO texture1 inp ui st = Some (run_widgets inp ui, st') /\
    current_linked sh L st' /\ (gl_objects st' = gl_objects st /\ gl_vao st' = VAO) /\
    gl_error st' = gl_error st /\
    gl_draws st' = gl_draws st ++ new_draws st st' /\
    new_draws st st' =
      map (draw_of sh lm (delete lm (frame_uniforms L ui (run_widgets inp ui)
                                       (program_uniforms st (ID sh)))))
          (sierp_spec (frame_model (run_widgets inp ui)) (recursion (run_widgets inp ui)) 0) /\
    gl_viewport st' = frame_viewport inp.
Proof.
  intros Hc Hlm Hready Hok. pose proof Hready as (HV & HVe & _).
  destruct (run_widgets_ok inp ui Hok) as (Hr & _).
  pose proof Hc as (Hp & HL & Hw).
  unfold render_frame, use, setMat4, glUniform4f, glUniform1i, glUniformMatrix4fv.
  rewrite (glGetUniformLocation_linked st (ID sh) L "fractalColor") by exact HL.
  unfold frame_viewport. destruct (in_framebuffer inp) as [fw fh]. cbn beta iota zeta.
  rewrite (rebind_texture_id VAO) by (autorewrite with gl_rw; exact Hready).
  rewrite glViewport_N.
  repeat match goal with
         | |- context [glGetUniformLocation (ID sh) ?n ?s] =>
             rewrite (glGetUniformLocation_linked s (ID sh) L n)
               by (autorewrite with gl_rw; exact HL); cbn beta iota zeta
         end.
  rewrite !wrap32_to_uint32, !wrap32_id by (apply well_linked_loc_range; exact Hw).
  destruct (frame_prelude sh L VAO ui (run_widgets inp ui) (0, 0, Z.of_N fw, Z.of_N fh) st Hc HVe)
    as ((Hp6 & HL6 & _) & Hv6 & He6 & Ho6 & Hvp6 & Hu6).
  cbv zeta in Hp6, HL6, Hv6, He6, Ho6, Hvp6, Hu6.
  match goal with
  | |- context [generateSierpinskiTriangle sh ?m ?r 0 ?s] =>
      assert (Hd6 : gl_draws s = gl_draws st) by (autorewrite with gl_rw; reflexivity);
      destruct (generate_emits sh lm m r 0 s) as (st' & Hrun & He)
  end.
  { split; [done|]. split; [by exists L|]. split; [|congruence].
    destruct Hw as [Hrange _]. specialize (Hrange _ _ Hlm). lia. }
  { lia. }
  { int32_lia. }
  rewrite Hrun. exists st'. split; [done|].
  split; [destruct He as ((Hp' & _) & Hl' & _); split; [done | split; [by rewrite Hl' | done]]|].
  destruct (generate_fuel_objects _ _ _ _ _ _ _ Hrun) as (Ho' & Hv' & Hvp').
  split; [rewrite Ho', Hv'; by split|].
  split; [destruct He as (_ & _ & He' & _); congruence|].
  split; [rewrite (emits_log _ _ _ _ _ He), Hd6; by rewrite (new_draws_from_same _ _ _ Hd6)|].
  split; [|by rewrite Hvp'].
  rewrite (new_draws_from_same _ _ _ Hd6), (emits_new_draws _ _ _ _ _ He). unfold base_uniforms. by rewrite Hu6.
Qed.

(** C13: a frame, under [main]'s setup (the shader current and linked with
    a [model] uniform, a vertex array), returns the statics updated by the
    widgets, raises no GL error, and issues exactly the draws of the
    generator's specification for this frame's model and recursion depth;
    every draw carries the frame's uniform values, among them the colour
    the statics held before this frame's colour edit.  The shader stays
    current, so the next frame starts under the same setup. *)
Theorem render_frame_refines sh VAO texture1 inp (ui : UIState R) st L (lm : Z) :
  current_linked sh L st -> L !! "model" = Some lm -> frame_ready VAO texture1 (gl_objects st) -> ui_ok ui ->
  exists st', render_frame sh VAO texture1 inp ui st = Some (run_widgets inp ui, st') /\
    current_linked sh L st' /\ (gl_objects st' = gl_objects st /\ gl_vao st' = VAO) /\
    gl_error st' = gl_error st /\
    new_draws st st' =
      map (draw_of sh lm (delete lm (frame_uniforms L ui (run_widgets inp ui)
                                       (program_uniforms st (ID sh)))))
          (sierp_spec (frame_model (run_widgets inp ui)) (recursion (run_widgets inp ui)) 0).
Proof.
  intros Hc Hlm HV Hok.
  destruct (render_frame_spec sh VAO texture1 inp ui st L lm Hc Hlm HV Hok) as (st' & ? & ? & ? & ? & _ & ? & _).
  eauto 6.
Qed.
Lemma vec4_eta (c : vec4 R) : Vec4 (v4x c) (v4y c) (v4z c) (v4w c) = c.
Proof. by destruct c. Qed.

(** The colour every draw of a frame carries, with what the spec of a
    frame gives besides. *)
Lemma frame_colour_spec sh VAO texture1 inp (ui : UIState R) st L (lm lc : Z) :
  current_linked sh L st -> L !! "model" = Some lm -> L !! "fractalColor" = Some lc ->
  frame_ready VAO texture1 (gl_objects st) -> ui_ok ui ->
  exists st', render_frame sh VAO texture1 inp ui st = Some (run_widgets inp ui, st') /\
    current_linked sh L st' /\ gl_objects st' = gl_objects st /\
    Forall (fun d => dc_uniforms d !! lc = Some (UVec4 (fractalColor ui))) (new_draws st st') /\
    length (new_draws st st') = frame_draws (run_widgets inp ui).
Proof.
  intros Hc Hlm Hlc HV Hok. pose proof Hc as (_ & _ & Hw).
  destruct (render_frame_spec sh VAO texture1 inp ui st L lm Hc Hlm HV Hok)
    as (st' & Hrun & Hc' & [Ho' _] & _ & _ & Hd & _).
  exists st'. split; [done|]. split; [done|]. split; [done|].
  rewrite Hd, length_map, length_sierp_spec, Z.sub_0_r, andb_true_r. split; [|done].
  apply Forall_fmap, Forall_forall. intros [[f n] m] _. simpl.
  assert (Hne : lc <> lm) by (intros ->; destruct Hw as [_ Hi]; by pose proof (Hi _ _ _ Hlc Hlm)).
  rewrite lookup_insert_ne, lookup_delete_ne by congruence. unfold frame_uniforms.
  rewrite !(uniform_after_other L "fractalColor") by (done || discriminate).
  rewrite (uniform_after_same L "fractalColor" lc _ _ Hlc). by rewrite vec4_eta.
Qed.

(** C14: the colour lags one frame.  Every draw of a frame carries, in
    [fractalColor], the colour the statics held before the frame
    ([glUniform4f] at line 221 runs before [ColorEdit3] at line 226),
    while the frame leaves the edited colour in the statics, to be
    uploaded by the next frame. *)
Theorem frame_colour_lags sh VAO texture1 inp (ui : UIState R) st L (lm lc : Z) :
  current_linked sh L st -> L !! "model" = Some lm -> L !! "fractalColor" = Some lc ->
  frame_ready VAO texture1 (gl_objects st) -> ui_ok ui ->
  exists st', render_frame sh VAO texture1 inp ui st = Some (run_widgets inp ui, st') /\
    fractalColor (run_widgets inp ui) = ColorEdit3 (fractalColor ui) (in_color inp) /\
    Forall (fun d => dc_uniforms d !! lc = Some (UVec4 (fractalColor ui))) (new_draws st st').
Proof.
  intros Hc Hlm Hlc HV Hok.
  destruct (frame_colour_spec sh VAO texture1 inp ui st L lm lc Hc Hlm Hlc HV Hok) as (st' & Hrun & _ & _ & Hd & _).
  eauto.
Qed.

Lemma frame_draws_le (ui : UIState R) : ui_in_range ui -> (frame_draws ui <= 4 ^ 10 + 1)%nat.
Proof.
  intros (Hr & _). unfold frame_draws.
  assert ((4 ^ Z.to_nat (recursion ui) <= 4 ^ 10)%nat) by (apply Nat.pow_le_mono_r; lia).
  destruct (_ <? _)%Z; lia.
Qed.

(** Over a run of [n] frames in which the sliders are only dragged, from
    statics in range, at most [n * (4 ^ 10 + 1)] draws. *)
Lemma loop_draws_le (inputs : list (FrameInput R)) (ui : UIState R) :
  forallb frame_dragged inputs = true -> ui_in_range ui ->
  (sum_list (map frame_draws (loop_statics inputs ui)) <= length inputs * (4 ^ 10 + 1))%nat.
Proof.
  revert ui. induction inputs as [|inp inputs IH]; intros ui Hd Hok;
    cbn [loop_statics map length]; [apply Nat.le_0_l|].
  cbn in Hd. apply andb_prop in Hd as [Hd1 Hd2].
  change (sum_list (?x :: ?l)) with (x + sum_list l)%nat.
  pose proof (run_widgets_in_range inp ui Hd1 Hok) as Hok'.
  pose proof (frame_draws_le _ Hok'). specialize (IH _ Hd2 Hok').
  rewrite Nat.mul_succ_l. lia.
Qed.

(** C15: a frame issues [4 ^ recursion] leaf draws plus the outer
    triangle when [recursion > 0], for every value the widgets leave in
    [recursion]: at most [4 ^ 10 + 1 = 1048577] draws when the sliders
    are only dragged from statics in range, but [4 ^ r + 1] for a number
    [0 < r] typed into the recursion slider, which ImGui does not clamp. *)
Theorem frame_draw_count sh VAO texture1 inp (ui : UIState R) st L (lm : Z) :
  current_linked sh L st -> L !! "model" = Some lm -> frame_ready VAO texture1 (gl_objects st) -> ui_ok ui ->
  exists st', render_frame sh VAO texture1 inp ui st = Some (run_widgets inp ui, st') /\
    length (new_draws st st') =
      ((if (0 <? recursion (run_widgets inp ui))%Z then 1 else 0) +
       4 ^ Z.to_nat (recursion (run_widgets inp ui)))%nat /\
    (frame_dragged inp = true -> ui_in_range ui -> (length (new_draws st st') <= 4 ^ 10 + 1)%nat) /\
    (forall r, in_recursion inp = Some (SliderTyped r) -> 0 < r <= INT_MAX ->
       length (new_draws st st') = (1 + 4 ^ Z.to_nat r)%nat).
Proof.
  intros Hc Hlm HV Hok.
  destruct (render_frame_spec sh VAO texture1 inp ui st L lm Hc Hlm HV Hok) as (st' & Hrun & _ & _ & _ & _ & Hd & _).
  exists st'. split; [done|].
  rewrite Hd, length_map, length_sierp_spec, Z.sub_0_r, andb_true_r.
  change ((if (0 <? recursion (run_widgets inp ui))%Z then 1 else 0) +
          4 ^ Z.to_nat (recursion (run_widgets inp ui)))%nat with (frame_draws (run_widgets inp ui)).
  split; [done|]. split.
  - intros Hd' Hr. exact (frame_draws_le _ (run_widgets_in_range inp ui Hd' Hr)).
  - intros r Hr Hpos. unfold frame_draws, run_widgets. cbn [recursion]. rewrite Hr. cbn [SliderInt].
    rewrite wrap32_id by int32_lia. by rewrite (proj2 (Z.ltb_lt 0 r)) by lia.
Qed.

(** Frames chain: the setup a frame needs is the setup it leaves, and
    the loop appends the frames' draws to the log. *)
Lemma render_loop_keeps sh VAO texture1 (inputs : list (FrameInput R)) (ui : UIState R) st L (lm : Z) :
  current_linked sh L st -> L !! "model" = Some lm -> frame_ready VAO texture1 (gl_objects st) -> ui_ok ui ->
  exists ui' st', render_loop sh VAO texture1 inputs ui st = Some (ui', st') /\ ui_ok ui' /\
    current_linked sh L st' /\ gl_objects st' = gl_objects st /\
    (gl_vao st = VAO -> gl_vao st' = VAO) /\ gl_error st' = gl_error st /\
    length (gl_draws st') = (length (gl_draws st) + sum_list (map frame_draws (loop_statics inputs ui)))%nat.
Proof.
  intros Hc Hlm. revert ui st Hc.
  induction inputs as [|inp inputs IH]; intros ui st Hc HV Hok; simpl; [exists ui, st; eauto 8 with lia|].
  destruct (render_frame_spec sh VAO texture1 inp ui st L lm Hc Hlm HV Hok)
    as (st1 & -> & Hc1 & [Ho1 Hv1] & He1 & Hlog & Hd & _).
  destruct (IH (run_widgets inp ui) st1 Hc1 (ltac:(rewrite Ho1; exact HV)) (run_widgets_ok inp ui Hok))
    as (ui' & st' & -> & Hok' & Hc' & Ho' & Hv' & He' & Hn').
  exists ui', st'. split; [done|]. split; [done|]. split; [done|]. split; [congruence|].
  split; [auto|]. split; [congruence|].
  rewrite Hn', Hlog, length_app, Hd, length_map, length_sierp_spec, Z.sub_0_r, andb_true_r.
  unfold frame_draws. lia.
Qed.

Lemma frame_draws_pos (ui : UIState R) : (0 < frame_draws ui)%nat.
Proof. unfold frame_draws. pose proof (pow4_pos (Z.to_nat (recursion ui))). lia. Qed.

(** The two ranges the generator draws. *)
Definition in_draw_ranges (d : DrawCall R) : Prop :=
  (dc_first d, dc_count d) = (0, 12) \/ (dc_first d, dc_count d) = (12, 6).

(** Every draw of the loop is one of the generator's two ranges. *)
Lemma render_loop_draw_ranges sh VAO texture1 (inputs : list (FrameInput R)) (ui : UIState R)
    st L (lm : Z) :
  current_linked sh L st -> L !! "model" = Some lm -> frame_ready VAO texture1 (gl_objects st) ->
  ui_ok ui -> Forall in_draw_ranges (gl_draws st) ->
  exists ui' st', render_loop sh VAO texture1 inputs ui st = Some (ui', st') /\
    Forall in_draw_ranges (gl_draws st').
Proof.
  intros Hc Hlm. revert ui st Hc.
  induction inputs as [|inp inputs IH]; intros ui st Hc HV Hok Hall; simpl; [eauto|].
  destruct (render_frame_spec sh VAO texture1 inp ui st L lm Hc Hlm HV Hok)
    as (st1 & -> & Hc1 & [Ho1 _] & _ & Hlog & Hd & _).
  apply (IH (run_widgets inp ui) st1 Hc1 ltac:(rewrite Ho1; exact HV) (run_widgets_ok inp ui Hok)).
  rewrite Hlog, Hd. apply Forall_app. split; [done|].
  apply Forall_fmap. eapply Forall_impl; [apply sierp_spec_ranges|]. intros [[f n] m] Hr. exact Hr.
Qed.

(** C22: a colour edit is shown on the very next frame.  When the user
    edits the colour in a frame, the next frame, whatever the user does
    in it, issues at least one draw, and every one of its draws carries
    the edited colour. *)
Theorem colour_edit_next_frame sh VAO texture1 inp1 inp2 (ui : UIState R) st L (lm lc : Z) :
  current_linked sh L st -> L !! "model" = Some lm -> L !! "fractalColor" = Some lc ->
  frame_ready VAO texture1 (gl_objects st) -> ui_ok ui ->
  exists st1 st2,
    render_loop sh VAO texture1 [inp1; inp2] ui st = Some (run_widgets inp2 (run_widgets inp1 ui), st2) /\
    render_frame sh VAO texture1 inp1 ui st = Some (run_widgets inp1 ui, st1) /\
    new_draws st1 st2 <> [] /\
    Forall (fun d => dc_uniforms d !! lc = Some (UVec4 (ColorEdit3 (fractalColor ui) (in_color inp1))))
           (new_draws st1 st2).
Proof.
  intros Hc Hlm Hlc HV Hok.
  destruct (frame_colour_spec sh VAO texture1 inp1 ui st L lm lc Hc Hlm Hlc HV Hok)
    as (st1 & Hr1 & Hc1 & Ho1 & _ & _).
  pose proof (run_widgets_ok inp1 ui Hok) as Hok1.
  destruct (frame_colour_spec sh VAO texture1 inp2 (run_widgets inp1 ui) st1 L lm lc Hc1 Hlm Hlc
              (ltac:(rewrite Ho1; exact HV)) Hok1) as (st2 & Hr2 & _ & _ & Hd & Hn).
  exists st1, st2. simpl. rewrite Hr1, Hr2. split; [done|]. split; [done|]. split.
  - intros He. rewrite He in Hn. pose proof (frame_draws_pos (run_widgets inp2 (run_widgets inp1 ui))).
    simpl in Hn. lia.
  - exact Hd.
Qed.
End FrameDraws.

(** ** The model matrix is a rotation

    In exact arithmetic the two [glm::rotate] calls of lines 233-234 keep
    the matrix rigid: the first three columns stay orthonormal with a zero
    [w] component and the translation column stays [(0, 0, 0, 1)], so
    the sliders turn the fractal without scaling or shearing it. *)

Section FrameGeometry.
Local Abbreviation RR := Rdefinitions.R.
Local Open Scope R_scope.

Definition dot3 (a b : vec4 RR) : RR := v4x a * v4x b + v4y a * v4y b + v4z a * v4z b.

(** [m[0] * r.x + m[1] * r.y + m[2] * r.z]: a column of [glm::rotate]. *)
Definition comb (m : mat4 RR) (r : vec3 RR) : vec4 RR :=
  v4_add (v4_add (v4_scale (col0 m) (v3x r)) (v4_scale (col1 m) (v3y r))) (v4_scale (col2 m) (v3z r)).

(** Columns 0..2 orthonormal, with [w = 0], and column 3 the origin. *)
Definition rigid (m : mat4 RR) : Prop :=
  dot3 (col0 m) (col0 m) = 1 /\ dot3 (col1 m) (col1 m) = 1 /\ dot3 (col2 m) (col2 m) = 1 /\
  dot3 (col0 m) (col1 m) = 0 /\ dot3 (col0 m) (col2 m) = 0 /\ dot3 (col1 m) (col2 m) = 0 /\
  v4w (col0 m) = 0 /\ v4w (col1 m) = 0 /\ v4w (col2 m) = 0 /\ col3 m = Vec4 0 0 0 1.

Lemma dot3_comb (m : mat4 RR) (u v : vec3 RR) :
  rigid m -> dot3 (comb m u) (comb m v) = v3_dot u v.
Proof.
  destruct m as [c0 c1 c2 c3]. intros (H00 & H11 & H22 & H01 & H02 & H12 & _).
  cbn [col0 col1 col2] in *.
  transitivity (v3x u * v3x v * dot3 c0 c0 + v3y u * v3y v * dot3 c1 c1 + v3z u * v3z v * dot3 c2 c2 +
                (v3x u * v3y v + v3y u * v3x v) * dot3 c0 c1 +
                (v3x u * v3z v + v3z u * v3x v) * dot3 c0 c2 +
                (v3y u * v3z v + v3z u * v3y v) * dot3 c1 c2).
  - destruct c0, c1, c2. unfold dot3, comb, v4_add, v4_scale. simpl. ring.
  - rewrite H00, H11, H22, H01, H02, H12. unfold v3_dot. simpl. ring.
Qed.

Lemma comb_w (m : mat4 RR) (r : vec3 RR) : rigid m -> v4w (comb m r) = 0.
Proof. intros (_&_&_&_&_&_& H0 & H1 & H2 & _). unfold comb, v4_add, v4_scale. simpl. rewrite H0, H1, H2. ring. Qed.

(** A rotation whose three coefficient rows are orthonormal keeps a
    rigid matrix rigid. *)
Lemma comb_rigid (m : mat4 RR) (r0 r1 r2 : vec3 RR) :
  rigid m -> v3_dot r0 r0 = 1 -> v3_dot r1 r1 = 1 -> v3_dot r2 r2 = 1 ->
  v3_dot r0 r1 = 0 -> v3_dot r0 r2 = 0 -> v3_dot r1 r2 = 0 ->
  rigid (Mat4 (comb m r0) (comb m r1) (comb m r2) (col3 m)).
Proof.
  intros Hm. unfold rigid. cbn [col0 col1 col2 col3]. rewrite !dot3_comb, !comb_w by exact Hm.
  destruct Hm as (_&_&_&_&_&_&_&_&_& H3). intuition.
Qed.

(** The unit axes of lines 233-234 are left unchanged by [normalize]. *)
Lemma inversesqrt_unit (x y z : Z) :
  (x * x + y * y + z * z)%Z = 1%Z ->
  inversesqrt (R:=RR) (v3_dot (Vec3 (s_lit x 0) (s_lit y 0) (s_lit z 0))
                              (Vec3 (s_lit x 0) (s_lit y 0) (s_lit z 0))) = 1.
Proof.
  intros Hu. unfold inversesqrt, v3_dot. simpl.
  replace (IZR x * 1 * (IZR x * 1) + IZR y * 1 * (IZR y * 1) + IZR z * 1 * (IZR z * 1)) with 1.
  - rewrite sqrt_1. field.
  - rewrite !Rmult_1_r, <- !mult_IZR, <- !plus_IZR, Hu. reflexivity.
Qed.

(** Line 233, [glm::rotate(m, angle, vec3(0, 1, 0))]: the columns are
    [m[0] cos - m[2] sin], [m[1]], [m[0] sin + m[2] cos]. *)
Lemma glm_rotate_y (m : mat4 RR) (a : RR) :
  glm_rotate m a (Vec3 (s_lit 0 0) (s_lit 1 0) (s_lit 0 0)) =
  Mat4 (comb m (Vec3 (cos a) 0 (- sin a))) (comb m (Vec3 0 1 0)) (comb m (Vec3 (sin a) 0 (cos a)))
       (col3 m).
Proof.
  unfold glm_rotate, normalize. rewrite inversesqrt_unit by reflexivity.
  unfold comb. simpl. repeat f_equal; ring.
Qed.

(** Line 234, [glm::rotate(m, angle, vec3(1, 0, 0))]: the columns are
    [m[0]], [m[1] cos + m[2] sin], [m[2] cos - m[1] sin]. *)
Lemma glm_rotate_x (m : mat4 RR) (a : RR) :
  glm_rotate m a (Vec3 (s_lit 1 0) (s_lit 0 0) (s_lit 0 0)) =
  Mat4 (comb m (Vec3 1 0 0)) (comb m (Vec3 0 (cos a) (sin a))) (comb m (Vec3 0 (- sin a) (cos a)))
       (col3 m).
Proof.
  unfold glm_rotate, normalize. rewrite inversesqrt_unit by reflexivity.
  unfold comb. simpl. repeat f_equal; ring.
Qed.

Lemma rotate_y_rigid (m : mat4 RR) (a : RR) :
  rigid m -> rigid (glm_rotate m a (Vec3 (s_lit 0 0) (s_lit 1 0) (s_lit 0 0))).
Proof.
  intros Hm. rewrite glm_rotate_y. pose proof (sin2_cos2 a) as Hsc. unfold Rsqr in Hsc.
  apply comb_rigid; [exact Hm | ..]; unfold v3_dot; simpl; nra.
Qed.

Lemma rotate_x_rigid (m : mat4 RR) (a : RR) :
  rigid m -> rigid (glm_rotate m a (Vec3 (s_lit 1 0) (s_lit 0 0) (s_lit 0 0))).
Proof.
  intros Hm. rewrite glm_rotate_x. pose proof (sin2_cos2 a) as Hsc. unfold Rsqr in Hsc.
  apply comb_rigid; [exact Hm | ..]; unfold v3_dot; simpl; nra.
Qed.

Lemma identity_rigid : rigid (mat4_diag (s_lit 1 0)).
Proof. unfold rigid, dot3; simpl. repeat split; first [ring | f_equal; ring]. Qed.

(** C21: in exact arithmetic the model matrix of every frame is a
    rotation about the origin: whatever the slider angles, its first
    three columns are orthonormal with [w = 0] and its last column is
    [(0, 0, 0, 1)], so the fractal is turned but neither scaled, sheared
    nor moved. *)
Theorem frame_model_rigid (ui : UIState RR) : rigid (frame_model ui).
Proof. unfold frame_model. apply rotate_x_rigid, rotate_y_rigid, identity_rigid. Qed.

(** Half the field of view of line 237, [radians(45) / 2], is in
    [(0, pi / 2)]: its tangent is positive. *)
Lemma frame_tan_pos : 0 < tan (glm_radians (s_lit 45 0) /s s_lit 2 0).
Proof.
  pose proof PI2_3_2 as Hpi.
  set (a := glm_radians (s_lit 45 0) /s s_lit 2 0).
  assert (Ha : 0 < a < PI / 2)
    by (unfold a, glm_radians; cbn [s_div s_mul s_lit s_dec real_field real_scalar]; simpl powerRZ; split; lra).
  unfold tan. apply Rdiv_lt_0_compat.
  - apply sin_gt_0; lra.
  - apply cos_gt_0; lra.
Qed.

(** Where a view-space point lands in the window under the frame's
    projection and viewport. *)
Definition frame_screen (inp : FrameInput RR) (p : vec3 RR) : RR * RR :=
  window_coords (frame_viewport inp) (mat4_mul_vec frame_projection (Vec4 (v3x p) (v3y p) (v3z p) 1)).

(** The screen offsets of a step [d] along x and along y at depth [z]. *)
Lemma frame_screen_steps (inp : FrameInput RR) (x y z d : RR) :
  z < 0 ->
  let t := tan (glm_radians (s_lit 45 0) /s s_lit 2 0) in
  let w := IZR (Z.of_N (fst (in_framebuffer inp))) in
  let h := IZR (Z.of_N (snd (in_framebuffer inp))) in
  fst (frame_screen inp (Vec3 (x + d) y z)) - fst (frame_screen inp (Vec3 x y z)) =
    w / 2 * (1 / (800 / 600 * t)) * d / - z /\
  snd (frame_screen inp (Vec3 x (y + d) z)) - snd (frame_screen inp (Vec3 x y z)) =
    h / 2 * (1 / t) * d / - z.
Proof.
  intros Hz t w h. pose proof frame_tan_pos as Ht. fold t in Ht.
  unfold frame_screen, frame_viewport, window_coords, frame_projection, glm_perspective.
  subst w h. destruct (in_framebuffer inp) as [fw fh]. cbv zeta.
  change (s_tan (glm_radians (s_lit 45 0) /s s_lit 2 0)) with t. clearbody t.
  cbn. replace (2 ^ Pos.to_nat 1) with 2 by (simpl; ring). split; field; lra.
Qed.

(** C28: the picture is squeezed: the projection of line 237 assumes a
    4:3 viewport ([800.0f / 600.0f]) whatever the framebuffer, while
    lines 245-246 set the viewport to the framebuffer's [w x h].  In exact
    arithmetic a step [d] along x and the same step along y, at any depth
    in front of the camera, cover on screen lengths in the ratio
    [3 w : 4 h], and neither is zero; for the [1280 x 1280] window of
    line 81 a square shows three quarters as wide as it is high. *)
Theorem frame_aspect_squeeze (inp : FrameInput RR) (x y z d : RR) :
  z < 0 -> d <> 0 -> (0 < fst (in_framebuffer inp))%N -> (0 < snd (in_framebuffer inp))%N ->
  let sx := fst (frame_screen inp (Vec3 (x + d) y z)) - fst (frame_screen inp (Vec3 x y z)) in
  let sy := snd (frame_screen inp (Vec3 x (y + d) z)) - snd (frame_screen inp (Vec3 x y z)) in
  4 * IZR (Z.of_N (snd (in_framebuffer inp))) * sx = 3 * IZR (Z.of_N (fst (in_framebuffer inp))) * sy /\
  sx <> 0 /\ sy <> 0.
Proof.
  intros Hz Hd Hw Hh sx sy.
  destruct (frame_screen_steps inp x y z d Hz) as [Hx Hy]. fold sx in Hx. fold sy in Hy.
  pose proof frame_tan_pos as Ht. set (t := tan _) in *.
  assert (Hw' : 0 < IZR (Z.of_N (fst (in_framebuffer inp)))) by (apply IZR_lt; lia).
  assert (Hh' : 0 < IZR (Z.of_N (snd (in_framebuffer inp)))) by (apply IZR_lt; lia).
  assert (Ex : sx * - z * 2 * (800 / 600 * t) = IZR (Z.of_N (fst (in_framebuffer inp))) * d)
    by (rewrite Hx; field; lra).
  assert (Ey : sy * - z * 2 * t = IZR (Z.of_N (snd (in_framebuffer inp))) * d)
    by (rewrite Hy; field; lra).
  split; [rewrite Hx, Hy; field; lra|].
  split; intros E; [rewrite E in Ex | rewrite E in Ey]; destruct (Rdichotomy _ _ Hd); nra.
Qed.
End FrameGeometry.

(** ** Witnesses: a frame from the initial statics on the linked program
    of [Sierpinski.demo_gl], in exact arithmetic *)

Lemma demo_current_linked (R : Type) : current_linked demo_shader demo_locations (demo_gl R).
Proof.
  split; [reflexivity|]. split; [reflexivity|].
  apply well_linked_check; apply (bool_decide_eq_true_1 _); vm_compute; reflexivity.
Qed.

Lemma demo_frame_ready (R : Type) : frame_ready 1 2 (gl_objects (demo_gl R)).
Proof.
  split; [lia|]. split; [eexists; reflexivity|]. split; [reflexivity|]. split; [reflexivity|].
  right. eexists. reflexivity.
Qed.

(** The user drags the X slider to 30 and the recursion slider to 2. *)
Definition demo_input : FrameInput Rdefinitions.R :=
  {| in_xAxis := Some (SliderDrag 30); in_yAxis := None; in_recursion := Some (SliderDrag 2); in_color := None;
     in_framebuffer := (1280%N, 1280%N) |}.

Lemma render_frame_refines_witness :
  exists st', render_frame demo_shader 1 2 demo_input ui_init (demo_gl Rdefinitions.R) =
                Some (run_widgets demo_input ui_init, st') /\
    current_linked demo_shader demo_locations st' /\
    (gl_objects st' = gl_objects (demo_gl Rdefinitions.R) /\ gl_vao st' = 1) /\
    gl_error st' = gl_error (demo_gl Rdefinitions.R) /\
    new_draws (demo_gl Rdefinitions.R) st' =
      map (draw_of demo_shader 0 (delete 0 (frame_uniforms demo_locations ui_init
             (run_widgets demo_input ui_init) (program_uniforms (demo_gl Rdefinitions.R) 1))))
          (sierp_spec (frame_model (run_widgets demo_input ui_init))
                      (recursion (run_widgets demo_input ui_init)) 0).
Proof.
  apply (render_frame_refines demo_shader 1 2 demo_input ui_init (demo_gl Rdefinitions.R)
           demo_locations 0 (demo_current_linked _)); [reflexivity | exact (demo_frame_ready _) | exact ui_init_ok].
Defined.

Lemma frame_colour_lags_witness :
  exists st', render_frame demo_shader 1 2 demo_input ui_init (demo_gl Rdefinitions.R) =
                Some (run_widgets demo_input ui_init, st') /\
    fractalColor (run_widgets demo_input ui_init) =
      ColorEdit3 (fractalColor ui_init) (in_color demo_input) /\
    Forall (fun d => dc_uniforms d !! 3 = Some (UVec4 (fractalColor ui_init)))
           (new_draws (demo_gl Rdefinitions.R) st').
Proof.
  apply (frame_colour_lags demo_shader 1 2 demo_input ui_init (demo_gl Rdefinitions.R)
           demo_locations 0 3 (demo_current_linked _));
    [reflexivity | reflexivity | exact (demo_frame_ready _) | exact ui_init_ok].
Defined.

Lemma frame_draw_count_witness :
  exists st', render_frame demo_shader 1 2 demo_input ui_init (demo_gl Rdefinitions.R) =
                Some (run_widgets demo_input ui_init, st') /\
    length (new_draws (demo_gl Rdefinitions.R) st') =
      ((if (0 <? recursion (run_widgets demo_input ui_init))%Z then 1 else 0) +
       4 ^ Z.to_nat (recursion (run_widgets demo_input ui_init)))%nat /\
    (frame_dragged demo_input = true -> ui_in_range ui_init ->
       (length (new_draws (demo_gl Rdefinitions.R) st') <= 4 ^ 10 + 1)%nat) /\
    (forall r, in_recursion demo_input = Some (SliderTyped r) -> 0 < r <= INT_MAX ->
       length (new_draws (demo_gl Rdefinitions.R) st') = (1 + 4 ^ Z.to_nat r)%nat).
Proof.
  apply (frame_draw_count demo_shader 1 2 demo_input ui_init (demo_gl Rdefinitions.R)
           demo_locations 0 (demo_current_linked _)); [reflexivity | exact (demo_frame_ready _) | exact ui_init_ok].
Defined.

(** The user sets the colour to red, then touches nothing. *)
Definition demo_colour_input : FrameInput Rdefinitions.R :=
  {| in_xAxis := None; in_yAxis := None; in_recursion := None;
     in_color := Some (1%R, 0%R, 0%R); in_framebuffer := (1280%N, 1280%N) |}.

Lemma colour_edit_next_frame_witness :
  exists st1 st2,
    render_loop demo_shader 1 2 [demo_colour_input; demo_input] ui_init (demo_gl Rdefinitions.R) =
      Some (run_widgets demo_input (run_widgets demo_colour_input ui_init), st2) /\
    render_frame demo_shader 1 2 demo_colour_input ui_init (demo_gl Rdefinitions.R) =
      Some (run_widgets demo_colour_input ui_init, st1) /\
    new_draws st1 st2 <> [] /\
    Forall (fun d => dc_uniforms d !! 3 =
                     Some (UVec4 (ColorEdit3 (fractalColor ui_init) (in_color demo_colour_input))))
           (new_draws st1 st2).
Proof.
  apply (colour_edit_next_frame demo_shader 1 2 demo_colour_input demo_input ui_init
           (demo_gl Rdefinitions.R) demo_locations 0 3 (demo_current_linked _));
    [reflexivity | reflexivity | exact (demo_frame_ready _) | exact ui_init_ok].
Defined.

Lemma frame_aspect_squeeze_witness :
  let sx := (fst (frame_screen demo_input (Vec3 (0 + 1) 0 (-3))) - fst (frame_screen demo_input (Vec3 0 0 (-3))))%R in
  let sy := (snd (frame_screen demo_input (Vec3 0 (0 + 1) (-3))) - snd (frame_screen demo_input (Vec3 0 0 (-3))))%R in
  (4 * IZR (Z.of_N (snd (in_framebuffer demo_input))) * sx =
     3 * IZR (Z.of_N (fst (in_framebuffer demo_input))) * sy /\ sx <> 0 /\ sy <> 0)%R.
Proof. apply (frame_aspect_squeeze demo_input 0 0 (-3) 1); [lra | lra | reflexivity | reflexivity]. Defined.
