(* ===== verification/Callbacks.v ===== *)
(** * The two callbacks (lines 293-306)

    [framebuffer_size_callback] is registered with GLFW at line 89 and
    runs inside [glfwPollEvents] (lines 211 and 278) when the window is
    resized: it sets the viewport to the new framebuffer size.
    [processInput] would close the window when Escape is pressed, but
    nothing calls it.

    [processInput] is a function of what [glfwGetKey] reports and of the
    window's close flag.  [framebuffer_size_callback] acts on the OpenGL
    context of [GL.GLState].  The lemma: a resize delivered between two
    frames changes nothing the next frame does, because every frame sets
    the viewport itself from [glfwGetFramebufferSize] (lines 245-246).
    The draw log does not record the viewport, so the lemma does not see
    where in the frame the viewport is set. *)

From stdpp Require Import base gmap strings list.
From S2P Require Import Prelude Scalar Glm GL Mesh VertexArrays Textures Sierpinski Draws RenderLoop.

Local Open Scope Z_scope.

Section Callbacks.
Context {R : Type}.
Implicit Types (st : GLState R).

(** Lines 293-297: [glfwSetWindowShouldClose(window, true)] when
    [glfwGetKey(window, GLFW_KEY_ESCAPE) == GLFW_PRESS]; the result is the
    window's close flag. *)
Definition processInput (escape_pressed should_close : bool) : bool :=
  if escape_pressed then true else should_close.

(** Lines 302-306. *)
Definition framebuffer_size_callback (width height : Z) st : GLState R :=
  glViewport 0 0 width height st.

(** Setting the viewport commutes with the calls that do not read it. *)
Lemma set_uniform_set_viewport (l : Z) (v : UValue R) vp st :
  set_uniform l v (set_viewport vp st) = set_viewport vp (set_uniform l v st).
Proof. unfold set_uniform, valid_location, program_uniforms. cbn. by repeat case_match. Qed.

Lemma glGetUniformLocation_set_viewport p (name : string) vp st :
  glGetUniformLocation p name (set_viewport vp st) =
    ((glGetUniformLocation p name st).1, set_viewport vp (glGetUniformLocation p name st).2).
Proof. unfold glGetUniformLocation. cbn. by case_match. Qed.

Lemma set_viewport_twice vp vp' st : set_viewport vp' (set_viewport vp st) = set_viewport vp' st.
Proof. reflexivity. Qed.
End Callbacks.

Section Resize.
Context {R : Type} `{GlmField R} {HT : GlmTrig R}.

(** A resize is overridden by the next frame.  Whatever size
    [framebuffer_size_callback] receives, running it before a frame
    leaves that frame's result, its statics, its draws and the context it
    ends in, exactly as without it: the frame reads no viewport before
    setting it at line 246. *)
Theorem resize_overridden_by_frame sh (VAO texture1 : Z) (inp : FrameInput R) (ui : UIState R)
    (st : GLState R) (width height : N) :
  render_frame sh VAO texture1 inp ui (framebuffer_size_callback (Z.of_N width) (Z.of_N height) st) =
  render_frame sh VAO texture1 inp ui st.
Proof.
  unfold framebuffer_size_callback. rewrite glViewport_N. unfold render_frame.
  rewrite glGetUniformLocation_set_viewport.
  destruct (glGetUniformLocation (ID sh) "fractalColor" st) as [colorLoc st1]. cbn [fst snd].
  unfold glUniform4f. rewrite set_uniform_set_viewport.
  destruct (in_framebuffer inp) as [fw fh]. by rewrite !glViewport_N, set_viewport_twice.
Qed.
End Resize.
