(* ===== verification/Lifecycle.v ===== *)
(** * [main]: start-up, the render loop, tear-down (lines 65-291)

    [main] initialises GLFW, creates the window (exit [-1] if that fails,
    after [glfwTerminate]), loads the OpenGL functions with GLAD (exit [-1]
    if that fails, without any clean-up), enables the depth test, sets up
    Dear ImGui, links the shader, sets up the vertex array and buffer
    ([VertexArrays.vertex_setup]) and the texture ([Textures.texture_setup];
    a load failure is only reported), makes the shader current, points
    [texture1] at unit 0, runs the render loop
    until the window is closed, deletes the vertex array and the buffer,
    and tears down: ImGui, then
    [glfwTerminate()], then [glfwDestroyWindow(window)].

    [Platform] is the state of the libraries [main] drives besides OpenGL:
    whether GLFW is initialised, the live windows, the current context, the
    errors GLFW reports, whether an ImGui context exists, and what the
    program printed.  The GLFW functions follow the GLFW 3 documentation:
    every function but [glfwInit]/[glfwTerminate] first checks that the
    library is initialised and otherwise reports [GLFW_NOT_INITIALIZED]
    and does nothing; [glfwInit] can fail with an error and leave the
    library uninitialised (line 69 ignores its result); a
    [glfwCreateWindow] that returns [NULL] reports an error;
    [glfwTerminate] destroys all remaining windows.

    What the environment decides is the record [Env]: the error, if any,
    [glfwInit] and window creation fail with, whether GLAD loading
    succeeds, the size of the image [stbi_load]
    returns (or its failure), the name of the linked program and the
    uniform table the linker gives it, and the frames the user runs before
    closing the window.  The names of the vertex array, buffer and texture
    come from the GL object store.

    The theorems: the two fatal exits (the window one with the GLFW
    errors it reports); a successful run exits with [0],
    no OpenGL error, the draw count of its frames, every draw reading past
    the end of the buffer through [main]'s vertex array, black sampled
    exactly when the texture did not load, the vertex array and buffer
    freed at exit while [texture1] stays allocated, and the
    [GLFW_NOT_INITIALIZED] of the tear-down; [main] always returns.  A
    lemma shows the contexts [main] produces satisfy [Objects.gl_typed],
    carried through start-up, every frame and the generator's recursion
    by one preservation lemma per composite operation. *)

From stdpp Require Import base gmap strings list.
From S2P Require Import Prelude Scalar Glm GL Mesh Sierpinski Draws VertexArrays Textures Objects RenderLoop.

Local Open Scope Z_scope.

(** The error codes of GLFW 3 that [main]'s calls can report. *)
Inductive GlfwError :=
  | GLFW_NOT_INITIALIZED
  | GLFW_PLATFORM_UNAVAILABLE
  | GLFW_PLATFORM_ERROR
  | GLFW_API_UNAVAILABLE
  | GLFW_VERSION_UNAVAILABLE
  | GLFW_FORMAT_UNAVAILABLE.

Record Platform := {
  glfw_initialized : bool;
  live_windows : list Z;
  current_context : option Z;
  glfw_errors : list GlfwError;
  imgui_context : bool;
  stdout : list string
}.

Definition platform0 : Platform :=
  {| glfw_initialized := false; live_windows := []; current_context := None;
     glfw_errors := []; imgui_context := false; stdout := [] |}.

(** ** GLFW, ImGui and [std::cout] *)

Definition glfw_error (e : GlfwError) (p : Platform) : Platform :=
  {| glfw_initialized := glfw_initialized p; live_windows := live_windows p;
     current_context := current_context p; glfw_errors := glfw_errors p ++ [e];
     imgui_context := imgui_context p; stdout := stdout p |}.

(** [err] is the error the platform makes [glfwInit] fail with, if any;
    on failure GLFW reports it and stays uninitialised (line 69 ignores
    the result). *)
Definition glfwInit (err : option GlfwError) (p : Platform) : Platform :=
  match err with
  | Some e => glfw_error e p
  | None =>
    {| glfw_initialized := true; live_windows := live_windows p;
       current_context := current_context p; glfw_errors := glfw_errors p;
       imgui_context := imgui_context p; stdout := stdout p |}
  end.

(** [err] is the error the window system refuses the window with, if
    any: every [NULL] return of [glfwCreateWindow] reports an error. *)
Definition glfwCreateWindow (err : option GlfwError) (p : Platform) : option Z * Platform :=
  if negb (glfw_initialized p) then (None, glfw_error GLFW_NOT_INITIALIZED p)
  else match err with
  | None =>
    let w := Z.of_nat (S (length (live_windows p))) in
    (Some w, {| glfw_initialized := true; live_windows := live_windows p ++ [w];
                current_context := current_context p; glfw_errors := glfw_errors p;
                imgui_context := imgui_context p; stdout := stdout p |})
  | Some e => (None, glfw_error e p)
  end.

Definition glfwMakeContextCurrent (w : Z) (p : Platform) : Platform :=
  if negb (glfw_initialized p) then glfw_error GLFW_NOT_INITIALIZED p
  else {| glfw_initialized := true; live_windows := live_windows p;
          current_context := Some w; glfw_errors := glfw_errors p;
          imgui_context := imgui_context p; stdout := stdout p |}.

(** Destroys every window and returns the library to the uninitialised
    state; harmless when not initialised. *)
Definition glfwTerminate (p : Platform) : Platform :=
  {| glfw_initialized := false; live_windows := []; current_context := None;
     glfw_errors := glfw_errors p; imgui_context := imgui_context p; stdout := stdout p |}.

Definition glfwDestroyWindow (w : Z) (p : Platform) : Platform :=
  if negb (glfw_initialized p) then glfw_error GLFW_NOT_INITIALIZED p
  else {| glfw_initialized := true; live_windows := filter (fun v => v <> w) (live_windows p);
          current_context := if decide (current_context p = Some w) then None
                             else current_context p;
          glfw_errors := glfw_errors p; imgui_context := imgui_context p; stdout := stdout p |}.

Definition set_imgui (b : bool) (p : Platform) : Platform :=
  {| glfw_initialized := glfw_initialized p; live_windows := live_windows p;
     current_context := current_context p; glfw_errors := glfw_errors p;
     imgui_context := b; stdout := stdout p |}.

Definition ImGui_CreateContext (p : Platform) : Platform := set_imgui true p.
Definition ImGui_DestroyContext (p : Platform) : Platform := set_imgui false p.

(** [std::cout << msg << std::endl]. *)
Definition println (msg : string) (p : Platform) : Platform :=
  {| glfw_initialized := glfw_initialized p; live_windows := live_windows p;
     current_context := current_context p; glfw_errors := glfw_errors p;
     imgui_context := imgui_context p; stdout := stdout p ++ [msg] |}.

(** ** The environment of a run *)

Record Env (R : Type) := {
  env_init_error : option GlfwError;
  env_window_error : option GlfwError;
  env_glad_ok : bool;
  env_image : option (Z * Z);
  env_program : Z;
  env_locations : gmap string Z;
  env_frames : list (FrameInput R)
}.
Arguments env_init_error {R} _. Arguments env_window_error {R} _.
Arguments env_glad_ok {R} _. Arguments env_image {R} _.
Arguments env_program {R} _. Arguments env_locations {R} _. Arguments env_frames {R} _.

(** Does [main] get a window: [glfwInit] succeeds and the window system
    grants the window? *)
Definition env_window_ok {R} (env : Env R) : bool :=
  if env_init_error env is Some _ then false
  else if env_window_error env is Some _ then false else true.

(** Did [stbi_load] return data (line 180)? *)
Definition env_texture_ok {R} (env : Env R) : bool := if env_image env is Some _ then true else false.

(** stb_image returns a positive width and height with the data. *)
Definition env_image_ok {R} (env : Env R) : Prop :=
  forall w h, env_image env = Some (w, h) -> 0 < w /\ 0 < h.

(** [Shader]'s constructor (line 118): the program [program], compiled
    and linked from [texture.vert]/[texture.frag], with its uniform
    table [L]. *)
Definition link_program {R} (program : Z) (L : gmap string Z) (st : GLState R) : GLState R :=
  {| gl_locations := <[program := L]> (gl_locations st); gl_program := gl_program st;
     gl_vao := gl_vao st; gl_uniforms := gl_uniforms st; gl_error := gl_error st;
     gl_draws := gl_draws st; gl_objects := gl_objects st; gl_viewport := gl_viewport st |}.

(** Where start-up ends: an early [return -1], or the loop about to start
    with its window, vertex array and texture. *)
Inductive Startup (R : Type) :=
  | StartupExit (p : Platform) (code : Z)
  | StartupReady (p : Platform) (window VAO VBO texture1 : Z) (st : GLState R).
Arguments StartupExit {R} _ _. Arguments StartupReady {R} _ _ _ _ _ _.

(** ** [main] *)

Section Main.
Context {R : Type} `{GlmField R} {HT : GlmTrig R}.

(** Lines 65-204: from [glfwInit()] to the [texture1] upload before the
    loop.  The window hints, the callbacks and the ImGui back-ends and
    style change nothing the model observes; the OpenGL context starts
    as [gl_fresh] once GLAD has loaded. *)
Definition main_startup (env : Env R) : Startup R :=
  let p := glfwInit (env_init_error env) platform0 in
  let '(window, p) := glfwCreateWindow (env_window_error env) p in
  match window with
  | None =>
    let p := println "Failed to create GLFW window" p in
    StartupExit (glfwTerminate p) (-1)
  | Some window =>
    let p := glfwMakeContextCurrent window p in
    if negb (env_glad_ok env) then StartupExit (println "Failed to initialize GLAD" p) (-1)
    else
    let st := glEnable GL_DEPTH_TEST gl_fresh in
    let p := ImGui_CreateContext p in
    let ourShader := {| ID := env_program env |} in
    let st := link_program (env_program env) (env_locations env) st in
    let '(VAO, VBO, st) := vertex_setup vertices st in
    let '(texture1, st) := texture_setup (env_image env) st in
    let p := if env_texture_ok env then p else println "Failed to load texture" p in
    let st := use ourShader st in
    let '(textureLoc, st) := glGetUniformLocation (ID ourShader) "texture1" st in
    let st := glUniform1i textureLoc 0 st in
    StartupReady p window VAO VBO texture1 st
  end.

(** Lines 282-283: the vertex array and the buffer are deleted. *)
Definition main_gl_teardown (VAO VBO : Z) (st : GLState R) : GLState R :=
  let st := glDeleteVertexArrays VAO st in
  glDeleteBuffers VBO st.

(** Lines 285-290: the libraries are shut down. *)
Definition main_teardown (window : Z) (p : Platform) : Platform :=
  let p := ImGui_DestroyContext p in
  let p := glfwTerminate p in
  glfwDestroyWindow window p.

(** The whole program: its exit code, the platform it leaves and, when
    it got that far, the OpenGL context after the last frame and at exit. *)
Definition main (env : Env R) : option (Z * Platform * option (GLState R * GLState R)) :=
  match main_startup env with
  | StartupExit p code => Some (code, p, None)
  | StartupReady p window VAO VBO texture1 st =>
    match render_loop {| ID := env_program env |} VAO texture1 (env_frames env) ui_init st with
    | Some (_, st) => Some (0, main_teardown window p, Some (st, main_gl_teardown VAO VBO st))
    | None => None
    end
  end.
End Main.

(** ** What [main] does *)

(** The platform when the render loop starts. *)
Definition ready_platform (texture_ok : bool) : Platform :=
  {| glfw_initialized := true; live_windows := [1]; current_context := Some 1;
     glfw_errors := []; imgui_context := true;
     stdout := if texture_ok then [] else ["Failed to load texture"] |}.

Section MainProps.
Context {R : Type} `{GlmField R} {HT : GlmTrig R}.
Implicit Types (env : Env R).

(** The context once the program is linked: depth test on, nothing else. *)
Lemma linked_context_ok (prog : Z) (L : gmap string Z) :
  objects_ok (gl_objects (link_program (R:=R) prog L (glEnable GL_DEPTH_TEST gl_fresh))).
Proof. exact objects0_ok. Qed.

(** Start-up, when the window and GLAD succeed: the program linked and
    current, no GL error, nothing drawn, the vertex array and the texture
    in place for the frames. *)
Lemma main_startup_ready env :
  env_window_ok env = true -> env_glad_ok env = true -> well_linked (env_locations env) ->
  env_image_ok env ->
  exists VAO VBO texture1 st,
    main_startup env = StartupReady (ready_platform (env_texture_ok env)) 1 VAO VBO texture1 st /\
    current_linked {| ID := env_program env |} (env_locations env) st /\
    gl_error st = GL_NO_ERROR /\ gl_draws st = [] /\ gl_vao st = VAO /\
    frame_ready VAO texture1 (gl_objects st) /\
    (forall first count,
       vao_fetch (gl_objects st) VAO first count = draw_fetch vertices vertex_layout first count) /\
    sample st GL_TEXTURE0 = (if env_texture_ok env then SampleTexels else SampleBlack) /\
    VBO <> 0 /\ ob_vaos (gl_objects st) = {[VAO := setup_vao VBO]} /\
    ob_buffers (gl_objects st) = {[VBO := vertices]} /\ ob_array_buffer (gl_objects st) = VBO /\
    texture1 <> 0 /\ ob_textures (gl_objects st) !! texture1 = Some (setup_texture (env_image env)).
Proof.
  destruct env as [ie we g img prog L frames]; unfold env_window_ok, env_image_ok, env_texture_ok; simpl.
  intros Hwin -> Hw Himg. destruct ie; [discriminate|]. destruct we; [discriminate|].
  set (st1 := link_program (R:=R) prog L (glEnable GL_DEPTH_TEST gl_fresh)).
  pose proof (vertex_setup_spec vertices st1 (linked_context_ok prog L)) as Hv.
  destruct (vertex_setup vertices st1) as [[VAO VBO] st2] eqn:Ev.
  destruct Hv as (HVAO & HVBO & Hv2 & Hl2 & Hp2 & Hu2 & He2 & Hd2 & Hvaos2 & Hbufs2 & Hn2 & Hab2 & Ht2 & Hact2).
  pose proof (texture_setup_spec img st2 ltac:(intros ?? E; destruct (Himg _ _ E); lia)) as Ht.
  destruct (texture_setup img st2) as [t st3] eqn:Et.
  destruct Ht as (Ht3 & [Hb3 HT3] & (Hl3 & Hp3 & Hv3 & Hu3 & He3 & Hd3) & Hvaos3 & Hbufs3 & Hab3 & _ & Hact3).
  assert (Hact : ob_active_texture (gl_objects st3) = GL_TEXTURE0) by (rewrite Hact3, Hact2; reflexivity).
  assert (HL3 : gl_locations st3 !! prog = Some L)
    by (rewrite Hl3, Hl2; apply lookup_insert_eq).
  set (sh := {| ID := prog |}).
  assert (Hc4 : current_linked sh L (use sh st3)).
  { unfold use. split; [by apply (glUseProgram_linked _ _ L)|].
    split; [|done]. by autorewrite with gl_rw. }
  unfold main_startup. cbn -[use glGetUniformLocation glUniform1i link_program glEnable vertex_setup
                               texture_setup gl_fresh vertices].
  fold st1. rewrite Ev, Et. fold sh.
  rewrite (glGetUniformLocation_linked _ _ L) by exact (proj1 (proj2 Hc4)).
  destruct (upload_step sh L (use sh st3) "texture1" (UInt 0) Hc4) as (Hc5 & He5 & _).
  unfold glUniform1i. set (st5 := set_uniform (default (-1) (L !! "texture1")) (UInt 0) (use sh st3)) in *.
  assert (Ho5 : gl_objects st5 = gl_objects st3) by (unfold st5, use; by autorewrite with gl_rw).
  assert (Hvao5 : gl_vao st5 = VAO) by (unfold st5, use; autorewrite with gl_rw; congruence).
  exists VAO, VBO, t, st5. split; [by destruct img|]. split; [exact Hc5|].
  split; [rewrite He5; unfold use, sh; cbn [ID];
          rewrite (proj2 (glUseProgram_linked prog _ L HL3)), He3, He2; reflexivity|].
  split; [unfold st5, use; autorewrite with gl_rw; rewrite Hd3, Hd2; reflexivity|].
  split; [exact Hvao5|].
  assert (Hunit : unit_texture st3 GL_TEXTURE0 = t) by (unfold bound_texture in Hb3; by rewrite Hact in Hb3).
  assert (Ht0 : t <> 0) by (rewrite Ht3, Hn2, HVBO, HVAO; pose proof (proj1 (linked_context_ok prog L)); unfold st1 in *; lia).
  split; [|split; [|split]].
  - rewrite Ho5. split; [rewrite HVAO; pose proof (proj1 (linked_context_ok prog L)); unfold st1 in *; lia|].
    split; [rewrite Hvaos3, Hvaos2; eexists; apply lookup_insert_eq|].
    split; [exact Hact|]. split.
    + unfold unit_texture in Hunit. destruct (ob_texture_2d (gl_objects st3) !! GL_TEXTURE0) eqn:E;
        simpl in Hunit; [by subst | congruence].
    + right. eexists. exact HT3.
  - intros first count. rewrite Ho5.
    apply (setup_vao_fetch _ _ VBO); [rewrite Hvaos3, Hvaos2 | rewrite Hbufs3, Hbufs2]; apply lookup_insert_eq.
  - unfold sample. assert (Hu5 : unit_texture st5 GL_TEXTURE0 = t) by (unfold unit_texture; rewrite Ho5; exact Hunit).
    rewrite Hu5, Ho5, HT3. simpl. rewrite setup_texture_complete by exact Himg. by destruct img.
  - rewrite Ho5, Hvaos3, Hvaos2, Hbufs3, Hbufs2, Hab3, Hab2, HT3.
    split; [rewrite HVBO, HVAO; pose proof (proj1 (linked_context_ok prog L)); unfold st1 in *; lia|].
    split; [done|]. split; [done|]. split; [done|]. split; [exact Ht0 | done].
Qed.



(** C17: when GLAD cannot load the OpenGL functions, [main] prints the
    message and exits with [-1] at once: GLFW is left initialised, the
    window alive and its context current (no [glfwTerminate] on this
    path, unlike the window failure). *)
Theorem main_glad_failure env :
  env_window_ok env = true -> env_glad_ok env = false ->
  main env = Some (-1, {| glfw_initialized := true; live_windows := [1]; current_context := Some 1;
                          glfw_errors := []; imgui_context := false;
                          stdout := ["Failed to initialize GLAD"] |}, None).
Proof.
  destruct env as [[ie|] [we|] g img prog L frames]; unfold env_window_ok; simpl;
    intros Hw; try discriminate Hw. by intros ->.
Qed.

(** The platform [main] leaves after a run: GLFW terminated and every
    window gone, ImGui destroyed, and the error [glfwDestroyWindow] reports
    when called after [glfwTerminate]. *)
Definition exit_platform (texture_ok : bool) : Platform :=
  {| glfw_initialized := false; live_windows := []; current_context := None;
     glfw_errors := [GLFW_NOT_INITIALIZED]; imgui_context := false;
     stdout := if texture_ok then [] else ["Failed to load texture"] |}.

Lemma main_teardown_ready (t : bool) : main_teardown 1 (ready_platform t) = exit_platform t.
Proof. by destruct t. Qed.

Lemma sample_objects (st st' : GLState R) (unit : Z) :
  gl_objects st' = gl_objects st -> sample st' unit = sample st unit.
Proof. intros Ho. unfold sample, unit_texture. by rewrite Ho. Qed.

(** Lines 282-283 after the loop: with [VAO] the one vertex array, bound,
    and [VBO] the one buffer, bound to [GL_ARRAY_BUFFER], both are deleted
    and unbound, without an error; the textures stay. *)
Lemma main_gl_teardown_spec (VAO VBO : Z) (va : VertexArray) (buf : list float32) (st : GLState R) :
  VAO <> 0 -> VBO <> 0 -> ob_vaos (gl_objects st) = {[VAO := va]} ->
  ob_buffers (gl_objects st) = {[VBO := buf]} -> ob_array_buffer (gl_objects st) = VBO ->
  gl_vao st = VAO ->
  gl_error (main_gl_teardown VAO VBO st) = gl_error st /\
  gl_draws (main_gl_teardown VAO VBO st) = gl_draws st /\
  gl_vao (main_gl_teardown VAO VBO st) = 0 /\
  ob_vaos (gl_objects (main_gl_teardown VAO VBO st)) = ∅ /\
  ob_buffers (gl_objects (main_gl_teardown VAO VBO st)) = ∅ /\
  ob_array_buffer (gl_objects (main_gl_teardown VAO VBO st)) = 0 /\
  ob_textures (gl_objects (main_gl_teardown VAO VBO st)) = ob_textures (gl_objects st).
Proof.
  intros HA HB Hv Hb Hab Hbound. unfold main_gl_teardown.
  destruct (glDeleteVertexArrays_bound VAO st va HA ltac:(rewrite Hv; apply lookup_singleton_eq) Hbound)
    as (Hv1 & He1 & Hd1 & Ho1).
  set (st1 := glDeleteVertexArrays VAO st) in *.
  destruct (glDeleteBuffers_unbound VBO st1 HB ltac:(rewrite Ho1; ob_simpl; rewrite Hb; eexists; apply lookup_singleton_eq))
    as ((_ & _ & Hv2 & _ & He2 & Hd2) & Ho2).
  rewrite Ho2, Ho1, He2, Hd2, Hv2. ob_simpl. rewrite Hv, Hb, Hab, !delete_singleton_eq.
  rewrite decide_True by done. repeat split; congruence.
Qed.

(** A run that gets past start-up: the exit, the error flag, the draws,
    what each draw reads, what the fragment shader samples, and the
    objects left at exit. *)
Lemma main_success env (lm : Z) :
  env_window_ok env = true -> env_glad_ok env = true -> well_linked (env_locations env) ->
  env_locations env !! "model" = Some lm -> env_image_ok env ->
  exists st st_exit, main env = Some (0, exit_platform (env_texture_ok env), Some (st, st_exit)) /\
    gl_error st = GL_NO_ERROR /\
    length (gl_draws st) = sum_list (map frame_draws (loop_statics (env_frames env) ui_init)) /\
    Forall (fun d => vao_fetch (gl_objects st) (gl_vao st) (dc_first d) (dc_count d) = None)
           (gl_draws st) /\
    sample st GL_TEXTURE0 = (if env_texture_ok env then SampleTexels else SampleBlack) /\
    gl_error st_exit = GL_NO_ERROR /\ gl_draws st_exit = gl_draws st /\ gl_vao st_exit = 0 /\
    ob_vaos (gl_objects st_exit) = ∅ /\ ob_buffers (gl_objects st_exit) = ∅ /\
    ob_array_buffer (gl_objects st_exit) = 0 /\
    (exists t, t <> 0 /\ ob_textures (gl_objects st_exit) !! t = Some (setup_texture (env_image env))).
Proof.
  intros Hw Hg Hl Hlm Himg.
  destruct (main_startup_ready env Hw Hg Hl Himg)
    as (VAO & VBO & t & st0 & Hs & Hc & He & Hd & Hv & Hr & Hf & Hsm & HB & Hvs & Hbs & Hab & Ht0 & HTx).
  set (sh := {| ID := env_program env |}).
  destruct (render_loop_keeps sh VAO t (env_frames env) ui_init st0 (env_locations env) lm
              Hc Hlm Hr ui_init_ok) as (ui' & st' & Hloop & _ & _ & Ho & Hv' & He' & Hn).
  destruct (render_loop_draw_ranges sh VAO t (env_frames env) ui_init st0 (env_locations env) lm
              Hc Hlm Hr ui_init_ok ltac:(rewrite Hd; constructor)) as (ui'' & st'' & Hloop' & Hall).
  rewrite Hloop in Hloop'. injection Hloop' as <- <-.
  destruct Hr as (HA & _).
  destruct (main_gl_teardown_spec VAO VBO (setup_vao VBO) vertices st' HA HB
              ltac:(by rewrite Ho) ltac:(by rewrite Ho) ltac:(by rewrite Ho) (Hv' Hv))
    as (Xe & Xd & Xv & Xvs & Xbs & Xab & Xt).
  exists st', (main_gl_teardown VAO VBO st'). unfold main. rewrite Hs. fold sh.
  rewrite Hloop, main_teardown_ready.
  split; [done|]. split; [congruence|]. split; [by rewrite Hn, Hd|]. split.
  { eapply Forall_impl; [exact Hall|]. intros d Hd'.
    rewrite Ho, (Hv' Hv), Hf. by apply leaf_and_outer_overrun. }
  split; [by rewrite (sample_objects st0 st' _ Ho)|].
  split; [congruence|]. do 5 (split; [done|]).
  exists t. rewrite Xt, Ho. split; [exact Ht0 | exact HTx].
Qed.

(** C18: when the window and GLAD succeed and the linked shader has a
    [model] uniform, [main] runs every frame the user gives it and exits
    with [0], having raised no OpenGL error; it issues, over the run, the
    sum over frames of [4 ^ recursion] leaf draws plus one outer draw per
    frame with [recursion > 0], whatever the statics; at most
    [4 ^ 10 + 1] per frame when the user only drags the sliders. *)
Theorem main_runs env (lm : Z) :
  env_window_ok env = true -> env_glad_ok env = true -> well_linked (env_locations env) ->
  env_locations env !! "model" = Some lm -> env_image_ok env ->
  exists p st st_exit, main env = Some (0, p, Some (st, st_exit)) /\ gl_error st = GL_NO_ERROR /\
    length (gl_draws st) = sum_list (map frame_draws (loop_statics (env_frames env) ui_init)) /\
    (forallb frame_dragged (env_frames env) = true ->
     (length (gl_draws st) <= length (env_frames env) * (4 ^ 10 + 1))%nat).
Proof.
  intros Hw Hg Hl Hlm Himg.
  destruct (main_success env lm Hw Hg Hl Hlm Himg) as (st & st_exit & Hm & He & Hn & _).
  exists (exit_platform (env_texture_ok env)), st, st_exit. split; [done|]. split; [done|].
  split; [done|]. intros Hd. rewrite Hn. exact (loop_draws_le _ _ Hd ui_init_in_range).
Qed.

(** C19: tear-down calls [glfwDestroyWindow(window)] after
    [glfwTerminate()], which has already destroyed the window: the call
    finds GLFW uninitialised and reports [GLFW_NOT_INITIALIZED], the one
    GLFW error of a run.  A texture that fails to load is reported and
    the run goes on to exit with [0]. *)
Theorem main_teardown_error env (lm : Z) :
  env_window_ok env = true -> env_glad_ok env = true -> well_linked (env_locations env) ->
  env_locations env !! "model" = Some lm -> env_image_ok env ->
  exists st st_exit, main env =
    Some (0, {| glfw_initialized := false; live_windows := []; current_context := None;
                glfw_errors := [GLFW_NOT_INITIALIZED]; imgui_context := false;
                stdout := if env_texture_ok env then [] else ["Failed to load texture"] |},
          Some (st, st_exit)).
Proof.
  intros Hw Hg Hl Hlm Himg.
  destruct (main_success env lm Hw Hg Hl Hlm Himg) as (st & st_exit & Hm & _). eauto.
Qed.

(** C26: in a run that gets past start-up, every draw call [main] issues
    reads, through the vertex array bound when it is issued (the [VAO] of
    lines 148-164), past the end of the vertex buffer, and the fragment
    shader's [texture1] (unit 0) samples the loaded image exactly when
    [stbi_load] succeeded, and black (the incomplete-texture value)
    otherwise. *)
Theorem main_draws_read_past_buffer env (lm : Z) :
  env_window_ok env = true -> env_glad_ok env = true -> well_linked (env_locations env) ->
  env_locations env !! "model" = Some lm -> env_image_ok env ->
  exists st st_exit, main env = Some (0, exit_platform (env_texture_ok env), Some (st, st_exit)) /\
    Forall (fun d => draw_reads st (dc_first d) (dc_count d) = None) (gl_draws st) /\
    (sample st GL_TEXTURE0 = SampleBlack <-> env_image env = None).
Proof.
  intros Hw Hg Hl Hlm Himg.
  destruct (main_success env lm Hw Hg Hl Hlm Himg) as (st & st_exit & Hm & _ & _ & Hall & Hsm & _).
  exists st, st_exit. split; [done|]. split; [exact Hall|].
  rewrite Hsm. unfold env_texture_ok. destruct (env_image env); split; congruence.
Qed.

(** C27: what a run frees.  In a run that gets past start-up, lines
    282-283 delete the vertex array and the buffer without an OpenGL
    error: at exit no vertex array or buffer exists and none is bound.
    The texture [texture1] is never deleted (there is no
    [glDeleteTextures]): it is still allocated, with the image's levels,
    when [main] returns. *)
Theorem main_exit_releases env (lm : Z) :
  env_window_ok env = true -> env_glad_ok env = true -> well_linked (env_locations env) ->
  env_locations env !! "model" = Some lm -> env_image_ok env ->
  exists st st_exit, main env = Some (0, exit_platform (env_texture_ok env), Some (st, st_exit)) /\
    gl_error st_exit = GL_NO_ERROR /\ gl_draws st_exit = gl_draws st /\ gl_vao st_exit = 0 /\
    ob_vaos (gl_objects st_exit) = ∅ /\ ob_buffers (gl_objects st_exit) = ∅ /\
    ob_array_buffer (gl_objects st_exit) = 0 /\
    exists texture1, texture1 <> 0 /\
      ob_textures (gl_objects st_exit) !! texture1 = Some (setup_texture (env_image env)).
Proof.
  intros Hw Hg Hl Hlm Himg.
  destruct (main_success env lm Hw Hg Hl Hlm Himg) as (st & st_exit & Hm & _ & _ & _ & _ & Hexit).
  exists st, st_exit. split; [exact Hm | exact Hexit].
Qed.

(** C20: [main] always returns: for every outcome of window creation,
    GLAD loading and texture loading, every uniform table and every
    sequence of frames, it exits, with [0] exactly when the window and
    GLAD succeeded and with [-1] otherwise. *)
Theorem main_returns env :
  exists code p o, main env = Some (code, p, o) /\
    (code = 0 /\ env_window_ok env && env_glad_ok env = true \/
     code = -1 /\ env_window_ok env && env_glad_ok env = false).
Proof.
  destruct env as [[ie|] [we|] [] img prog L frames]; unfold main, env_window_ok;
    cbn [env_init_error env_window_error env_glad_ok andb env_program env_frames].
  7: { destruct (main_startup _) as [p code|p w VAO VBO t st] eqn:Hs.
    + exfalso. unfold main_startup in Hs.
      cbn -[use glGetUniformLocation glUniform1i link_program glEnable vertex_setup
            texture_setup gl_fresh vertices] in Hs.
      destruct (vertex_setup _ _) as [[??]?]; destruct (texture_setup _ _);
        destruct (glGetUniformLocation _ _ _); discriminate.
    + destruct (render_loop_returns {| ID := prog |} VAO t frames ui_init st ui_init_ok)
        as (st' & -> & _).
      eauto 7. }
  all: eexists _, _, _; split; [reflexivity|]; right; split; reflexivity.
Qed.
End MainProps.

(** ** The context stays well typed through [main] *)

Section TypedCalls.
Context {R : Type} `{GlmField R} {HT : GlmTrig R}.

Lemma typed_link_program program L (st : GLState R) :
  gl_typed st -> gl_typed (link_program program L st).
Proof. by apply typed_frame. Qed.

Lemma typed_use sh (st : GLState R) : gl_typed st -> gl_typed (use sh st).
Proof. apply typed_glUseProgram. Qed.

Lemma typed_setMat4 sh name m (st : GLState R) : gl_typed st -> gl_typed (setMat4 sh name m st).
Proof. intros Hst. unfold setMat4. typed_chain. Qed.

Lemma typed_upload_and_draw sh m first count (st : GLState R) :
  gl_typed st -> gl_typed (upload_and_draw sh m first count st).
Proof. intros Hst. unfold upload_and_draw. typed_chain. Qed.
End TypedCalls.

#[export] Hint Resolve typed_link_program typed_use typed_setMat4 typed_upload_and_draw : gl_typed.

Section TypedLoop.
Context {R : Type} `{GlmField R} {HT : GlmTrig R}.

(** The recursion of lines 50-64 keeps the context typed, at every depth. *)
Lemma typed_generate_fuel fuel sh model maxRec curRec (st st' : GLState R) :
  gl_typed st -> generate_fuel fuel sh model maxRec curRec st = Some st' -> gl_typed st'.
Proof.
  revert model curRec st st'. induction fuel as [|fuel IH]; intros model curRec st st' Hst Hg; [done|].
  cbn [generate_fuel] in Hg. case_match; [injection Hg as <-; auto with gl_typed|].
  refine (fold_option_preserves gl_typed
            (fun i st => generate_fuel fuel sh (child model i) maxRec (curRec +i 1) st)
            _ _ _ _ _ Hg).
  - intros i st1 st2. apply IH.
  - case_match; auto with gl_typed.
Qed.

Lemma typed_render_frame sh VAO texture1 inp ui ui' (st st' : GLState R) :
  gl_typed st -> render_frame sh VAO texture1 inp ui st = Some (ui', st') -> gl_typed st'.
Proof.
  intros Hst. unfold render_frame. typed_chain.
  destruct (generateSierpinskiTriangle _ _ _ _ _) as [s|] eqn:Hg; intros Hr; [|done].
  injection Hr as <- <-. eapply typed_generate_fuel; [|exact Hg]. auto 30 with gl_typed.
Qed.

Lemma typed_render_loop sh VAO texture1 inputs ui ui' (st st' : GLState R) :
  gl_typed st -> render_loop sh VAO texture1 inputs ui st = Some (ui', st') -> gl_typed st'.
Proof.
  revert ui st. induction inputs as [|inp inputs IH]; intros ui st Hst Hl; cbn in Hl.
  - by injection Hl as <- <-.
  - destruct (render_frame sh VAO texture1 inp ui st) as [[ui1 st1]|] eqn:Hf; [|done].
    exact (IH ui1 st1 (typed_render_frame _ _ _ _ _ _ _ _ Hst Hf) Hl).
Qed.

Lemma typed_main_startup (env : Env R) :
  match main_startup env with StartupReady _ _ _ _ _ st => gl_typed st | StartupExit _ _ => True end.
Proof.
  unfold main_startup. destruct (glfwCreateWindow _ _) as [[window|] p]; [|done].
  destruct (negb (env_glad_ok env)); [done|]. pose proof (@gl_fresh_typed R). typed_chain.
Qed.

Lemma typed_main_gl_teardown VAO VBO (st : GLState R) :
  gl_typed st -> gl_typed (main_gl_teardown VAO VBO st).
Proof. intros Hst. unfold main_gl_teardown. auto with gl_typed. Qed.

(** [main] leaves the context well typed.  Whenever the program gets
    through start-up and its render loop, the context after the last
    frame and the one left after the teardown of lines 282-283 satisfy
    [gl_typed]: names below the counter, attribute pointers and texture
    parameters in range, and every binding 0 or a live object. *)
Theorem main_typed (env : Env R) code p (st st_exit : GLState R) :
  main env = Some (code, p, Some (st, st_exit)) -> gl_typed st /\ gl_typed st_exit.
Proof.
  unfold main. pose proof (typed_main_startup env) as Hs.
  destruct (main_startup env) as [|p0 window VAO VBO texture1 st0]; [done|].
  destruct (render_loop _ _ _ _ _ _) as [[ui st1]|] eqn:Hl; [|done].
  intros Hm. injection Hm as <- <- <- <-.
  pose proof (typed_render_loop _ _ _ _ _ _ _ _ Hs Hl). split; [done | by apply typed_main_gl_teardown].
Qed.
End TypedLoop.

(** ** Witnesses: runs on the uniform table of [Sierpinski.demo_locations],
    in exact arithmetic *)

(** Window and GLAD succeed or not, [stbi_load] gives [image], and the
    user runs two frames of [RenderLoop.demo_input] before closing the
    window. *)
Definition demo_image_env (window_ok glad_ok : bool) (image : option (Z * Z)) : Env Rdefinitions.R :=
  {| env_init_error := None;
     env_window_error := if window_ok then None else Some GLFW_FORMAT_UNAVAILABLE;
     env_glad_ok := glad_ok; env_image := image;
     env_program := 1; env_locations := demo_locations;
     env_frames := [demo_input; demo_input] |}.

(** The texture file is missing. *)
Definition demo_env (window_ok glad_ok : bool) : Env Rdefinitions.R :=
  demo_image_env window_ok glad_ok None.

Lemma demo_well_linked : well_linked demo_locations.
Proof. exact (proj2 (proj2 (demo_current_linked Rdefinitions.R))). Qed.


Lemma main_glad_failure_witness :
  main (demo_env true false) =
    Some (-1, {| glfw_initialized := true; live_windows := [1]; current_context := Some 1;
                 glfw_errors := []; imgui_context := false;
                 stdout := ["Failed to initialize GLAD"] |}, None).
Proof. apply main_glad_failure; reflexivity. Defined.

Lemma main_runs_witness :
  exists p st st_exit, main (demo_env true true) = Some (0, p, Some (st, st_exit)) /\ gl_error st = GL_NO_ERROR /\
    length (gl_draws st) =
      sum_list (map frame_draws (loop_statics (env_frames (demo_env true true)) ui_init)) /\
    (forallb frame_dragged (env_frames (demo_env true true)) = true ->
     (length (gl_draws st) <= length (env_frames (demo_env true true)) * (4 ^ 10 + 1))%nat).
Proof.
  apply (main_runs (demo_env true true) 0);
    [reflexivity | reflexivity | exact demo_well_linked | reflexivity | intros ?? E; discriminate].
Defined.

Lemma main_teardown_error_witness :
  exists st st_exit, main (demo_env true true) =
    Some (0, {| glfw_initialized := false; live_windows := []; current_context := None;
                glfw_errors := [GLFW_NOT_INITIALIZED]; imgui_context := false;
                stdout := ["Failed to load texture"] |}, Some (st, st_exit)).
Proof.
  apply (main_teardown_error (demo_env true true) 0);
    [reflexivity | reflexivity | exact demo_well_linked | reflexivity | intros ?? E; discriminate].
Defined.

Lemma main_draws_read_past_buffer_witness :
  exists st st_exit, main (demo_image_env true true (Some (512, 512))) =
      Some (0, exit_platform true, Some (st, st_exit)) /\
    Forall (fun d => draw_reads st (dc_first d) (dc_count d) = None) (gl_draws st) /\
    (sample st GL_TEXTURE0 = SampleBlack <-> Some (512, 512) = None).
Proof.
  apply (main_draws_read_past_buffer (demo_image_env true true (Some (512, 512))) 0);
    [reflexivity | reflexivity | exact demo_well_linked | reflexivity
    | intros ?? E; injection E as <- <-; lia].
Defined.

Lemma main_exit_releases_witness :
  exists st st_exit, main (demo_image_env true true (Some (512, 512))) =
      Some (0, exit_platform true, Some (st, st_exit)) /\
    gl_error st_exit = GL_NO_ERROR /\ gl_draws st_exit = gl_draws st /\ gl_vao st_exit = 0 /\
    ob_vaos (gl_objects st_exit) = ∅ /\ ob_buffers (gl_objects st_exit) = ∅ /\
    ob_array_buffer (gl_objects st_exit) = 0 /\
    exists texture1, texture1 <> 0 /\
      ob_textures (gl_objects st_exit) !! texture1 = Some (setup_texture (Some (512, 512))).
Proof.
  apply (main_exit_releases (demo_image_env true true (Some (512, 512))) 0);
    [reflexivity | reflexivity | exact demo_well_linked | reflexivity
    | intros ?? E; injection E as <- <-; lia].
Defined.

